(** * Transitive analysis engine of the NC soccer scraper

    A shallow embedding of [apps/ncsoccer-scraper/src/ncsoccer/analysis.py]
    (classes [TeamRecord], [SharedOpponentComparison], [HeadToHeadRecord],
    [PredictionResult] and [TransitiveAnalyzer]) together with the pieces of
    [models.py] and of the game store interface it consumes.

    Modelling conventions.
    - Python [int] is [Z]; Python [float] is [R]: float arithmetic is read
      as exact real arithmetic (no rounding error, no NaN, no overflow), so
      [max]/[min] on floats are [Rmax]/[Rmin] and [math.pow] is [Rpower].
    - Python [str] is [string] (a list of 8-bit characters); [str.lower] is
      lowercasing of the ASCII letters, [a in b] is the substring test, and
      the order used by [sorted] and [max] is the lexicographic order on
      character codes.
    - Exceptions are values of the error monad [result].
    - The store is the pair of queries that the analyzer calls; the clock
      is the proleptic Gregorian ordinal of [datetime.now()]. *)

From Stdlib Require Import Reals Lra Lia ZArith String Ascii List Bool.
From stdpp Require Import base decidable list sorting gmap strings.
Import ListNotations.

(** ** Python runtime pieces *)

Inductive exn : Type :=
| ValueError
| ZeroDivisionError.

Inductive result (A : Type) : Type :=
| Ok (a : A)
| Raise (e : exn).
Arguments Ok {A} a.
Arguments Raise {A} e.

#[global] Instance result_ret : MRet result := fun A a => Ok a.
#[global] Instance result_bind : MBind result :=
  fun A B f m => match m with Ok a => f a | Raise e => Raise e end.
#[global] Instance result_fmap : FMap result :=
  fun A B f m => match m with Ok a => Ok (f a) | Raise e => Raise e end.

Definition float : Type := R.

(** [x / n] with a float (or int) numerator and an [int] divisor: true
    division, which raises on a zero divisor. *)
Definition truediv (x : float) (n : Z) : result float :=
  if decide (n = 0%Z) then Raise ZeroDivisionError else Ok (x / IZR n)%R.

(** [c.lower()] on one character. *)
Definition ascii_lower (c : ascii) : ascii :=
  let n := nat_of_ascii c in
  if Nat.leb 65 n && Nat.leb n 90 then ascii_of_nat (n + 32) else c.

(** [s.lower()]. *)
Fixpoint lower (s : string) : string :=
  match s with
  | EmptyString => EmptyString
  | String c s' => String (ascii_lower c) (lower s')
  end.

(** [needle in hay] on strings. *)
Fixpoint str_in (needle hay : string) : bool :=
  String.prefix needle hay ||
  match hay with
  | EmptyString => false
  | String _ hay' => str_in needle hay'
  end.

(** ** Game rows (the dicts returned by the store) *)

(** The ["metadata"] dict, as built by [AllGameRecord.to_metadata]. *)
Record Metadata : Type := mkMetadata {
  date : string;
  home_team : string;
  away_team : string;
  league_name : string;
  home_score : Z;
  away_score : Z;
  field : string;
  is_played : bool
}.

(** One row: [{"id": .., "document": .., "metadata": ..}]. *)
Record Game : Type := mkGame {
  game_id : string;
  document : string;
  metadata : Metadata
}.

(** ** Value types of analysis.py *)

Record TeamRecord : Type := mkTeamRecord {
  wins : Z;
  losses : Z;
  ties : Z;
  goals_for : Z;
  goals_against : Z;
  games : list Game
}.

Definition games_played (r : TeamRecord) : Z := (wins r + losses r + ties r)%Z.
Definition goal_diff (r : TeamRecord) : Z := (goals_for r - goals_against r)%Z.
Definition points (r : TeamRecord) : Z := (wins r * 3 + ties r)%Z.

Record SharedOpponentComparison : Type := mkComparison {
  opponent : string;
  our_record : TeamRecord;
  their_record : TeamRecord;
  recency_weight : float
}.

Section AdvantageScore.
Local Open Scope R_scope.

(** [SharedOpponentComparison.advantage_score] (analysis.py, 63-94). *)
Definition advantage_score (c : SharedOpponentComparison) : result float :=
  let our_games := games_played (our_record c) in
  let their_games := games_played (their_record c) in
  if Z.eqb our_games 0 || Z.eqb their_games 0 then Ok 0
  else
    our_win_rate ←
      truediv (IZR (wins (our_record c)) + 0.5 * IZR (ties (our_record c))) our_games;
    their_win_rate ←
      truediv (IZR (wins (their_record c)) + 0.5 * IZR (ties (their_record c))) their_games;
    let win_diff := (our_win_rate - their_win_rate) * 0.5 in
    our_gd_per_game ← truediv (IZR (goal_diff (our_record c))) our_games;
    their_gd_per_game ← truediv (IZR (goal_diff (their_record c))) their_games;
    let gd_diff := (our_gd_per_game - their_gd_per_game) / 5.0 in
    let gd_diff := Rmax (-0.5) (Rmin 0.5 gd_diff) in
    let raw_score := (win_diff + gd_diff) * recency_weight c in
    Ok (Rmax (-1.0) (Rmin 1.0 raw_score)).

(** The scoring function in the words of the specification. *)
Definition clamp (x lo hi : R) : R := Rmax lo (Rmin hi x).

Definition win_rate (r : TeamRecord) : R :=
  (IZR (wins r) + 0.5 * IZR (ties r)) / IZR (games_played r).

Definition win_component (c : SharedOpponentComparison) : R :=
  (win_rate (our_record c) - win_rate (their_record c)) * 0.5.

Definition goal_diff_per_game (r : TeamRecord) : R :=
  IZR (goal_diff r) / IZR (games_played r).

Definition gd_component (c : SharedOpponentComparison) : R :=
  clamp ((goal_diff_per_game (our_record c) - goal_diff_per_game (their_record c)) / 5.0)
        (-0.5) 0.5.

Definition spec_advantage_score (c : SharedOpponentComparison) : R :=
  if decide (games_played (our_record c) = 0%Z ∨ games_played (their_record c) = 0%Z)
  then 0
  else clamp ((win_component c + gd_component c) * recency_weight c) (-1.0) 1.0.

End AdvantageScore.

(** ** The [datetime] library, as far as the analyzer uses it

    Only the date part matters: every parsed game date is a midnight, so
    [(datetime.now() - game_dt).days] is the difference of the two
    proleptic Gregorian ordinals whatever the time of day of [now]. *)

Record datetime : Type := mkDatetime {
  year : Z;
  month : Z;
  day : Z
}.

Section Calendar.
Local Open Scope Z_scope.

Definition _is_leap (y : Z) : bool :=
  (y mod 4 =? 0) && (negb (y mod 100 =? 0) || (y mod 400 =? 0)).

Definition _DAYS_IN_MONTH : list Z := [-1; 31; 28; 31; 30; 31; 30; 31; 31; 30; 31; 30; 31].
Definition _DAYS_BEFORE_MONTH : list Z :=
  [-1; 0; 31; 59; 90; 120; 151; 181; 212; 243; 273; 304; 334].

Definition _days_in_month (y m : Z) : Z :=
  if (m =? 2) && _is_leap y then 29 else nth (Z.to_nat m) _DAYS_IN_MONTH 0.

Definition _days_before_year (y : Z) : Z :=
  let y' := y - 1 in y' * 365 + y' / 4 - y' / 100 + y' / 400.

Definition _days_before_month (y m : Z) : Z :=
  nth (Z.to_nat m) _DAYS_BEFORE_MONTH 0 + (if (m >? 2) && _is_leap y then 1 else 0).

Definition toordinal (d : datetime) : Z :=
  _days_before_year (year d) + _days_before_month (year d) (month d) + day d.

Definition _DI400Y : Z := 146097.
Definition _DI100Y : Z := 36524.
Definition _DI4Y : Z := 1461.

Definition fromordinal (n : Z) : datetime :=
  let n := n - 1 in
  let n400 := n / _DI400Y in
  let n := n mod _DI400Y in
  let y := n400 * 400 + 1 in
  let n100 := n / _DI100Y in
  let n := n mod _DI100Y in
  let n4 := n / _DI4Y in
  let n := n mod _DI4Y in
  let n1 := n / 365 in
  let n := n mod 365 in
  let y := y + n100 * 100 + n4 * 4 + n1 in
  if (n1 =? 4) || (n100 =? 4) then mkDatetime (y - 1) 12 31
  else
    let leapyear := (n1 =? 3) && (negb (n4 =? 24) || (n100 =? 3)) in
    let m := Z.shiftr (n + 50) 5 in
    let preceding :=
      nth (Z.to_nat m) _DAYS_BEFORE_MONTH 0 + (if (m >? 2) && leapyear then 1 else 0) in
    if preceding >? n then
      let m := m - 1 in
      let preceding :=
        preceding - (nth (Z.to_nat m) _DAYS_IN_MONTH 0 + (if (m =? 2) && leapyear then 1 else 0)) in
      mkDatetime y m (n - preceding + 1)
    else mkDatetime y m (n - preceding + 1).

(** [d - timedelta(days=k)] on the date part. *)
Definition minus_days (d : datetime) (k : Z) : datetime := fromordinal (toordinal d - k).

Definition in_range (lo hi c : ascii) : bool :=
  Nat.leb (nat_of_ascii lo) (nat_of_ascii c) && Nat.leb (nat_of_ascii c) (nat_of_ascii hi).

Definition is_digit (c : ascii) : bool := in_range "0" "9" c.

Definition digit (c : ascii) : Z := Z.of_nat (nat_of_ascii c) - 48.

Definition digit_char (n : Z) : ascii := ascii_of_nat (48 + Z.to_nat n).

(** The [%Y] directive: [\d\d\d\d]. *)
Definition parse_Y (s : string) : option (Z * string) :=
  match s with
  | String a (String b (String c (String d rest))) =>
      if is_digit a && is_digit b && is_digit c && is_digit d
      then Some (1000 * digit a + 100 * digit b + 10 * digit c + digit d, rest)
      else None
  | _ => None
  end.

(** The [%m] directive: [1[0-2]|0[1-9]|[1-9]]. *)
Definition parse_m (s : string) : option (Z * string) :=
  match s with
  | String a (String b rest) =>
      if Ascii.eqb a "1" && in_range "0" "2" b then Some (10 + digit b, rest)
      else if Ascii.eqb a "0" && in_range "1" "9" b then Some (digit b, rest)
      else if in_range "1" "9" a then Some (digit a, String b rest)
      else None
  | String a EmptyString => if in_range "1" "9" a then Some (digit a, EmptyString) else None
  | EmptyString => None
  end.

(** The [%d] directive: [3[0-1]|[1-2]\d|0[1-9]|[1-9]| [1-9]]. *)
Definition parse_d (s : string) : option (Z * string) :=
  match s with
  | String a (String b rest) =>
      if Ascii.eqb a "3" && in_range "0" "1" b then Some (30 + digit b, rest)
      else if in_range "1" "2" a && is_digit b then Some (10 * digit a + digit b, rest)
      else if Ascii.eqb a "0" && in_range "1" "9" b then Some (digit b, rest)
      else if in_range "1" "9" a then Some (digit a, String b rest)
      else if Ascii.eqb a " " && in_range "1" "9" b then Some (digit b, rest)
      else None
  | String a EmptyString => if in_range "1" "9" a then Some (digit a, EmptyString) else None
  | EmptyString => None
  end.

Definition expect_dash (s : string) : option string :=
  match s with
  | String c rest => if Ascii.eqb c "-" then Some rest else None
  | EmptyString => None
  end.

(** The regular expression of the format ["%Y-%m-%d"], which must
    consume the whole string. *)
Definition parse_ymd (s : string) : option (Z * Z * Z) :=
  match parse_Y s with
  | Some (y, s1) =>
      match expect_dash s1 with
      | Some s2 =>
          match parse_m s2 with
          | Some (m, s3) =>
              match expect_dash s3 with
              | Some s4 =>
                  match parse_d s4 with
                  | Some (d, EmptyString) => Some (y, m, d)
                  | _ => None
                  end
              | None => None
              end
          | None => None
          end
      | None => None
      end
  | None => None
  end.

(** [datetime.strptime(date_string, "%Y-%m-%d")]: [ValueError] when the
    string does not match the format or does not name a calendar day. *)
Definition strptime (date_string : string) : result datetime :=
  match parse_ymd date_string with
  | Some (y, m, d) =>
      if (1 <=? y) && (d <=? _days_in_month y m) then Ok (mkDatetime y m d)
      else Raise ValueError
  | None => Raise ValueError
  end.

Definition two_digits (n : Z) : string :=
  String (digit_char (n / 10)) (String (digit_char (n mod 10)) EmptyString).

(** [d.strftime("%Y-%m-%d")] (for a four-digit year). *)
Definition strftime (d : datetime) : string :=
  (two_digits (year d / 100) ++ two_digits (year d mod 100) ++ "-"
   ++ two_digits (month d) ++ "-" ++ two_digits (day d))%string.

End Calendar.

(** ** models.py: the scraped game and the row stored for it *)

Module RawGame.

Record RawGame : Type := mk {
  date : datetime;
  home_team : string;
  away_team : string;
  home_score : option Z;
  away_score : option Z;
  league_name : string;
  field : option string
}.

Definition is_played (g : RawGame) : bool :=
  match home_score g, away_score g with
  | Some _, Some _ => true
  | _, _ => false
  end.

End RawGame.
Abbreviation RawGame := RawGame.RawGame.

(** [RawGame.to_metadata]; [AllGamesStore.add_games] stores the same
    values and [AllGameRecord.to_metadata] gives them back.  The key
    ["date_ts"] (a time-zone dependent timestamp that the analyzer never
    reads) is left out of [Metadata]. *)
Definition to_metadata (g : RawGame) : Metadata :=
  {| date := strftime (RawGame.date g);
     home_team := RawGame.home_team g;
     away_team := RawGame.away_team g;
     league_name := RawGame.league_name g;
     home_score := match RawGame.home_score g with Some s => s | None => (-1)%Z end;
     away_score := match RawGame.away_score g with Some s => s | None => (-1)%Z end;
     field := match RawGame.field g with Some f => f | None => "" end;
     is_played := RawGame.is_played g |}.

(** ** The remaining value types of analysis.py *)

Module H2H.

Record HeadToHeadRecord : Type := mk {
  games : list Game;
  wins : Z;
  losses : Z;
  ties : Z;
  goals_for : Z;
  goals_against : Z
}.

Definition games_played (r : HeadToHeadRecord) : Z := (wins r + losses r + ties r)%Z.
Definition goal_diff (r : HeadToHeadRecord) : Z := (goals_for r - goals_against r)%Z.

End H2H.
Abbreviation HeadToHeadRecord := H2H.HeadToHeadRecord.

Module Prediction.

Record PredictionResult : Type := mk {
  our_team : string;
  opponent : string;
  comparisons : list SharedOpponentComparison;
  confidence : float;
  advantage_score : float;
  outcome : string;
  league_filter : option string;
  time_window_days : Z;
  head_to_head : option HeadToHeadRecord
}.

Definition shared_opponent_count (p : PredictionResult) : nat := length (comparisons p).

End Prediction.
Abbreviation PredictionResult := Prediction.PredictionResult.

(** ** The store interface read by the analyzer (all_games_store.py)

    A store state is given by the answers to the two queries; the
    arguments are [team_name]/[team1], [team2], [league_name], [after]. *)
Record AllGamesStore : Type := mkStore {
  get_opponents_for_team : string -> option string -> option string -> list string;
  get_head_to_head : string -> string -> option string -> option string -> list Game
}.

(** ** Python built-ins on floats and lists *)

Section Builtins.
Local Open Scope R_scope.

(** [x / y] on floats. *)
Definition fdiv (x y : float) : result float :=
  if Req_dec_T y 0 then Raise ZeroDivisionError else Ok (x / y).

(** Round half to even, to an integer. *)
Definition round_half_even (x : R) : Z :=
  let f := Zfloor x in
  let r := x - IZR f in
  if Rlt_dec r (1 / 2) then f
  else if Rlt_dec (1 / 2) r then (f + 1)%Z
  else if Z.even f then f else (f + 1)%Z.

(** [round(x, ndigits)]. *)
Definition py_round (x : float) (ndigits : nat) : float :=
  IZR (round_half_even (x * 10 ^ ndigits)) / 10 ^ ndigits.

(** [sum(xs)]. *)
Definition py_sum (xs : list float) : float := fold_left Rplus xs 0.

(** [max(d :: ds)] on strings: the first greatest element. *)
Definition py_max (d : string) (ds : list string) : string :=
  fold_left (fun m x => if String.ltb m x then x else m) ds d.

(** [for x in xs: ys.append(f(x))] where [f] may raise. *)
Fixpoint mapM {A B : Type} (f : A -> result B) (xs : list A) : result (list B) :=
  match xs with
  | [] => Ok []
  | x :: xs' => y ← f x; ys ← mapM f xs'; Ok (y :: ys)
  end.

End Builtins.

(** ** class TransitiveAnalyzer *)

Record TransitiveAnalyzer : Type := mkAnalyzer {
  our_team : string;
  time_window_days : Z;
  min_shared_opponents : Z;
  recency_half_life_days : Z;
  store : AllGamesStore
}.

Section Analyzer.
Local Open Scope R_scope.

(** The analyzer instance and the value of [datetime.now()] during the
    call. *)
Variable self : TransitiveAnalyzer.
Variable now : datetime.

(** [_get_date_cutoff] (183-186). *)
Definition _get_date_cutoff : string :=
  let cutoff := minus_days now (time_window_days self) in
  strftime cutoff.

(** [_calculate_recency_weight] (188-198). *)
Definition _calculate_recency_weight (game_date : string) : result float :=
  game_dt ← strptime game_date;
  let days_ago := (toordinal now - toordinal game_dt)%Z in
  decay_factor ← truediv (IZR days_ago) (recency_half_life_days self);
  Ok (Rpower 0.5 decay_factor).

(** The body of the loop of [_build_team_record] (226-251): the record
    after one more row. *)
Definition count_game (team_lower : string) (record : TeamRecord) (game : Game) : TeamRecord :=
  let meta := metadata game in
  if negb (is_played meta) then record
  else
    let is_home := str_in team_lower (lower (home_team meta)) in
    let our_score := if is_home then home_score meta else away_score meta in
    let their_score := if is_home then away_score meta else home_score meta in
    {| games := games record ++ [game];
       goals_for := (goals_for record + our_score)%Z;
       goals_against := (goals_against record + their_score)%Z;
       wins := if (our_score >? their_score)%Z then (wins record + 1)%Z else wins record;
       losses :=
         if (our_score >? their_score)%Z then losses record
         else if (our_score <? their_score)%Z then (losses record + 1)%Z
         else losses record;
       ties :=
         if (our_score >? their_score)%Z then ties record
         else if (our_score <? their_score)%Z then ties record
         else (ties record + 1)%Z |}.

Definition empty_record : TeamRecord :=
  {| wins := 0; losses := 0; ties := 0; goals_for := 0; goals_against := 0; games := [] |}.

(** The fold of [_build_team_record] over the rows of the query. *)
Definition fold_team_record (team_name : string) (h2h_games : list Game) : TeamRecord :=
  fold_left (count_game (lower team_name)) h2h_games empty_record.

(** [_build_team_record] (200-253). *)
Definition _build_team_record (team_name opponent : string) (league_name : option string)
  : TeamRecord :=
  let h2h_games :=
    get_head_to_head (store self) team_name opponent league_name (Some _get_date_cutoff) in
  fold_team_record team_name h2h_games.

(** The test of the loop of [find_shared_opponents] (289). *)
Definition keeps (our_lower opp_lower opp : string) : bool :=
  negb (str_in our_lower (lower opp)) && negb (str_in opp_lower (lower opp)).

(** [find_shared_opponents] (255-292).  The iteration order of the set
    intersection is that of [elements]; the final [sorted] makes the
    result independent of it. *)
Definition find_shared_opponents (opponent : string) (league_name : option string)
  : list string :=
  let cutoff := _get_date_cutoff in
  let our_opponents : gset string :=
    list_to_set (get_opponents_for_team (store self) (our_team self) league_name (Some cutoff)) in
  let their_opponents : gset string :=
    list_to_set (get_opponents_for_team (store self) opponent league_name (Some cutoff)) in
  let our_lower := lower (our_team self) in
  let opp_lower := lower opponent in
  let shared :=
    List.filter (keeps our_lower opp_lower) (elements (our_opponents ∩ their_opponents)) in
  merge_sort String.le shared.

(** [get_comparative_performance] (294-336). *)
Definition get_comparative_performance
    (shared_opponent opponent : string) (league_name : option string)
  : result SharedOpponentComparison :=
  let our_record := _build_team_record (our_team self) shared_opponent league_name in
  let their_record := _build_team_record opponent shared_opponent league_name in
  let all_games := games our_record ++ games their_record in
  recency_weight ←
    match List.map (fun g => date (metadata g)) all_games with
    | d :: ds =>
        let most_recent := py_max d ds in
        _calculate_recency_weight most_recent
    | [] => Ok 0.5
    end;
  Ok {| opponent := shared_opponent;
        our_record := our_record;
        their_record := their_record;
        recency_weight := recency_weight |}.

(** The body of the loop of [get_head_to_head_record] (362-387). *)
Definition count_h2h_game (our_lower : string) (record : HeadToHeadRecord) (game : Game)
  : HeadToHeadRecord :=
  let meta := metadata game in
  if negb (is_played meta) then record
  else
    let is_home := str_in our_lower (lower (home_team meta)) in
    let our_score := if is_home then home_score meta else away_score meta in
    let their_score := if is_home then away_score meta else home_score meta in
    {| H2H.games := H2H.games record ++ [game];
       H2H.goals_for := (H2H.goals_for record + our_score)%Z;
       H2H.goals_against := (H2H.goals_against record + their_score)%Z;
       H2H.wins :=
         if (our_score >? their_score)%Z then (H2H.wins record + 1)%Z else H2H.wins record;
       H2H.losses :=
         if (our_score >? their_score)%Z then H2H.losses record
         else if (our_score <? their_score)%Z then (H2H.losses record + 1)%Z
         else H2H.losses record;
       H2H.ties :=
         if (our_score >? their_score)%Z then H2H.ties record
         else if (our_score <? their_score)%Z then H2H.ties record
         else (H2H.ties record + 1)%Z |}.

(** [get_head_to_head_record] (338-389). *)
Definition get_head_to_head_record (opponent : string) (league_name : option string)
  : HeadToHeadRecord :=
  let h2h_games :=
    get_head_to_head (store self) (our_team self) opponent league_name (Some _get_date_cutoff) in
  fold_left (count_h2h_game (lower (our_team self))) h2h_games
    {| H2H.games := []; H2H.wins := 0; H2H.losses := 0; H2H.ties := 0;
       H2H.goals_for := 0; H2H.goals_against := 0 |}.

(** The comparison loop of [predict_outcome] (410-420): the list
    [comparisons] of the qualifying comparisons. *)
Fixpoint collect_comparisons
    (shared_opponents : list string) (opponent : string) (league_name : option string)
  : result (list SharedOpponentComparison) :=
  match shared_opponents with
  | [] => Ok []
  | shared_opp :: rest =>
      comparison ← get_comparative_performance shared_opp opponent league_name;
      comparisons ← collect_comparisons rest opponent league_name;
      if (games_played (our_record comparison) >? 0)%Z
         && (games_played (their_record comparison) >? 0)%Z
      then Ok (comparison :: comparisons)
      else Ok comparisons
  end.

(** The weighting loop (440-449), started from the two accumulators. *)
Fixpoint accumulate_weights
    (comparisons : list SharedOpponentComparison) (total_weight weighted_advantage : float)
  : result (float * float) :=
  match comparisons with
  | [] => Ok (total_weight, weighted_advantage)
  | comp :: rest =>
      let games_weight :=
        IZR (Z.min (games_played (our_record comp) + games_played (their_record comp)) 6) / 6.0 in
      let weight := recency_weight comp * games_weight in
      score ← advantage_score comp;
      accumulate_weights rest (total_weight + weight) (weighted_advantage + score * weight)
  end.

(** The aggregate advantage score, before rounding (439-454). *)
Definition aggregate_advantage (comparisons : list SharedOpponentComparison) : result float :=
  '(total_weight, weighted_advantage) ← accumulate_weights comparisons 0.0 0.0;
  if Rlt_dec 0 total_weight then fdiv weighted_advantage total_weight
  else Ok 0.0.

(** The confidence, before the minimum-evidence guard and before
    rounding (456-468). *)
Definition raw_confidence (comparisons : list SharedOpponentComparison) (advantage_score_ : float)
  : result float :=
  let n := Z.of_nat (length comparisons) in
  let base_confidence := Rmin (IZR n / 4.0) 1.0 in
  consistency_factor ←
    (if (n >=? 2)%Z then
       scores ← mapM advantage_score comparisons;
       variance ←
         truediv (py_sum (List.map (fun s => (s - advantage_score_) ^ 2) scores))
                 (Z.of_nat (length scores));
       Ok (Rmax 0.5 (1.0 - variance))
     else Ok 0.7);
  Ok (base_confidence * consistency_factor * 100).

(** The outcome label (470-476). *)
Definition classify (advantage_score_ : float) : string :=
  if Rlt_dec (Rabs advantage_score_) 0.15 then "UNCERTAIN"
  else if Rgt_dec advantage_score_ 0 then "FAVORABLE"
  else "UNFAVORABLE".

(** [predict_outcome] (391-494). *)
Definition predict_outcome (opponent : string) (league_name : option string)
  : result PredictionResult :=
  let shared_opponents := find_shared_opponents opponent league_name in
  comparisons ← collect_comparisons shared_opponents opponent league_name;
  let h2h := get_head_to_head_record opponent league_name in
  match comparisons with
  | [] =>
      Ok {| Prediction.our_team := our_team self;
            Prediction.opponent := opponent;
            Prediction.comparisons := [];
            Prediction.confidence := 0.0;
            Prediction.advantage_score := 0.0;
            Prediction.outcome := "UNCERTAIN";
            Prediction.league_filter := league_name;
            Prediction.time_window_days := time_window_days self;
            Prediction.head_to_head :=
              if (H2H.games_played h2h >? 0)%Z then Some h2h else None |}
  | _ :: _ =>
      advantage_score_ ← aggregate_advantage comparisons;
      confidence ← raw_confidence comparisons advantage_score_;
      let outcome := classify advantage_score_ in
      let guarded := (Z.of_nat (length comparisons) <? min_shared_opponents self)%Z in
      let confidence := if guarded then Rmin confidence 30.0 else confidence in
      let outcome :=
        if guarded then (if negb (String.eqb outcome "UNCERTAIN") then "UNCERTAIN" else outcome)
        else outcome in
      Ok {| Prediction.our_team := our_team self;
            Prediction.opponent := opponent;
            Prediction.comparisons := comparisons;
            Prediction.confidence := py_round confidence 0;
            Prediction.advantage_score := py_round advantage_score_ 2;
            Prediction.outcome := outcome;
            Prediction.league_filter := league_name;
            Prediction.time_window_days := time_window_days self;
            Prediction.head_to_head :=
              if (H2H.games_played h2h >? 0)%Z then Some h2h else None |}
  end.

End Analyzer.

(** ** The record aggregator in the words of the specification *)

Section AggregatorSpec.
Local Open Scope Z_scope.

Definition played (g : Game) : bool := is_played (metadata g).

(** Whether [team] is the home side of a row: case-insensitive substring
    match against the stored [home_team]. *)
Definition is_home (team : string) (g : Game) : bool :=
  str_in (lower team) (lower (home_team (metadata g))).

Definition scored (team : string) (g : Game) : Z :=
  if is_home team g then home_score (metadata g) else away_score (metadata g).

Definition conceded (team : string) (g : Game) : Z :=
  if is_home team g then away_score (metadata g) else home_score (metadata g).

Definition total (f : Game -> Z) (l : list Game) : Z :=
  fold_right (fun g acc => f g + acc) 0 l.

Definition count (p : Game -> bool) (l : list Game) : Z :=
  Z.of_nat (length (List.filter p l)).

End AggregatorSpec.

(** ** The roll-up in the words of the specification *)

Section RollupSpec.
Local Open Scope R_scope.

Definition Rsum (xs : list R) : R := fold_right Rplus 0 xs.

Definition games_weight (c : SharedOpponentComparison) : R :=
  IZR (Z.min (games_played (our_record c) + games_played (their_record c)) 6) / 6.0.

Definition combined_weight (c : SharedOpponentComparison) : R :=
  recency_weight c * games_weight c.

Definition weight_sum (comparisons : list SharedOpponentComparison) : R :=
  Rsum (List.map combined_weight comparisons).

Definition weighted_sum (comparisons : list SharedOpponentComparison) : R :=
  Rsum (List.map (fun c => spec_advantage_score c * combined_weight c) comparisons).

(** Σ(advantage × weight) / Σ(weight), or 0.0 if the weight sum is 0. *)
Definition weighted_mean (comparisons : list SharedOpponentComparison) : R :=
  if Req_dec_T (weight_sum comparisons) 0 then 0
  else weighted_sum comparisons / weight_sum comparisons.

Definition base_confidence (n : nat) : R := Rmin (INR n / 4.0) 1.0.

(** Mean squared deviation of the comparison scores from [center]. *)
Definition variance_around (center : R) (comparisons : list SharedOpponentComparison) : R :=
  Rsum (List.map (fun c => (spec_advantage_score c - center) ^ 2) comparisons)
  / INR (length comparisons).

Definition consistency_factor (center : R) (comparisons : list SharedOpponentComparison) : R :=
  if Nat.eqb (length comparisons) 1 then 0.7
  else Rmax 0.5 (1.0 - variance_around center comparisons).

Definition spec_confidence (center : R) (comparisons : list SharedOpponentComparison) : R :=
  base_confidence (length comparisons) * consistency_factor center comparisons * 100.

(** A comparison that the loop of [predict_outcome] keeps. *)
Definition qualifying (c : SharedOpponentComparison) : Prop :=
  (games_played (our_record c) > 0)%Z /\ (games_played (their_record c) > 0)%Z.

End RollupSpec.

(** ** Varying the store *)

(** The same analyzer over another store state. *)
Definition with_store (self : TransitiveAnalyzer) (s : AllGamesStore) : TransitiveAnalyzer :=
  {| our_team := our_team self;
     time_window_days := time_window_days self;
     min_shared_opponents := min_shared_opponents self;
     recency_half_life_days := recency_half_life_days self;
     store := s |}.

(** A prediction with its [head_to_head] field blanked. *)
Definition without_head_to_head (r : PredictionResult) : PredictionResult :=
  {| Prediction.our_team := Prediction.our_team r;
     Prediction.opponent := Prediction.opponent r;
     Prediction.comparisons := Prediction.comparisons r;
     Prediction.confidence := Prediction.confidence r;
     Prediction.advantage_score := Prediction.advantage_score r;
     Prediction.outcome := Prediction.outcome r;
     Prediction.league_filter := Prediction.league_filter r;
     Prediction.time_window_days := Prediction.time_window_days r;
     Prediction.head_to_head := None |}.

(** Two store states hold the same shared-opponent evidence for the
    match-up of [our] and [opp]: for every name [x] that can be a shared
    opponent (it contains neither team's name), [x] is an opponent of a
    team in one state iff it is in the other, and the games of any team
    against [x] are the same.  The games between [our] and [opp]
    themselves are unconstrained. *)
Definition same_shared_evidence (our opp : string) (s1 s2 : AllGamesStore) : Prop :=
  (forall team league after x,
     keeps (lower our) (lower opp) x = true ->
     (x ∈ get_opponents_for_team s1 team league after <->
      x ∈ get_opponents_for_team s2 team league after)) /\
  (forall team league after x,
     keeps (lower our) (lower opp) x = true ->
     get_head_to_head s1 team x league after = get_head_to_head s2 team x league after).

(** ** Malformed rows *)

(** Whether the date string of a row parses. *)
Definition date_parses (g : Game) : bool :=
  match strptime (date (metadata g)) with
  | Ok _ => true
  | Raise _ => false
  end.

(** The store state without the rows whose date does not parse. *)
Definition drop_malformed (s : AllGamesStore) : AllGamesStore :=
  {| get_opponents_for_team := get_opponents_for_team s;
     get_head_to_head := fun team1 team2 league after =>
       List.filter date_parses (get_head_to_head s team1 team2 league after) |}.

(** A row with its date string replaced. *)
Definition with_date (d : string) (g : Game) : Game :=
  {| game_id := game_id g;
     document := document g;
     metadata :=
       {| date := d;
          home_team := home_team (metadata g);
          away_team := away_team (metadata g);
          league_name := league_name (metadata g);
          home_score := home_score (metadata g);
          away_score := away_score (metadata g);
          field := field (metadata g);
          is_played := is_played (metadata g) |} |}.

(** ** Well-formed dates *)

(** A calendar day that [datetime] can hold and [strftime] prints with a
    four-digit year. *)
Definition valid_date (d : datetime) : Prop :=
  (1 <= year d <= 9999)%Z /\ (1 <= month d <= 12)%Z /\
  (1 <= day d <= _days_in_month (year d) (month d))%Z.

(** Every row that the store returns carries a date that parses. *)
Definition dates_parse (s : AllGamesStore) : Prop :=
  forall team1 team2 league after g,
    g ∈ get_head_to_head s team1 team2 league after -> date_parses g = true.

(** ** A store state used to instantiate the theorems

    Key West FC and Purple Crew have both played BDE twice (Key West FC
    won 3-0 and 2-1; Purple Crew lost 0-1 and tied 1-1) and have met once;
    Sharks have played Key West FC three times and nobody else. *)

Section Example.
Local Open Scope string_scope.

Definition example_game (d home away : string) (hs aws : Z) : Game :=
  {| game_id := d ++ home ++ away;
     document := home ++ " vs " ++ away;
     metadata :=
       {| date := d; home_team := home; away_team := away; league_name := "Sunday";
          home_score := hs; away_score := aws; field := ""; is_played := true |} |}.

Definition example_store : AllGamesStore :=
  {| get_opponents_for_team := fun team _ _ =>
       if String.eqb team "Key West FC" then ["BDE"; "Purple Crew"; "Sharks"]
       else if String.eqb team "Purple Crew" then ["BDE"; "Key West FC"]
       else if String.eqb team "Sharks" then ["Key West FC"]
       else [];
     get_head_to_head := fun team1 team2 _ _ =>
       if String.eqb team1 "Key West FC" && String.eqb team2 "BDE" then
         [example_game "2026-10-25" "Key West FC" "BDE" 3 0;
          example_game "2026-09-13" "BDE" "Key West FC" 1 2]
       else if String.eqb team1 "Purple Crew" && String.eqb team2 "BDE" then
         [example_game "2026-10-18" "BDE" "Purple Crew" 1 0;
          example_game "2026-09-20" "Purple Crew" "BDE" 1 1]
       else if String.eqb team1 "Key West FC" && String.eqb team2 "Purple Crew" then
         [example_game "2026-08-02" "Key West FC" "Purple Crew" 2 2]
       else if String.eqb team1 "Key West FC" && String.eqb team2 "Sharks" then
         [example_game "2026-10-11" "Sharks" "Key West FC" 0 4;
          example_game "2026-07-19" "Key West FC" "Sharks" 1 1;
          example_game "2026-06-07" "Sharks" "Key West FC" 2 1]
       else [] |}.

(** The same state without the game between Key West FC and Purple
    Crew. *)
Definition example_store_no_direct : AllGamesStore :=
  {| get_opponents_for_team := fun team _ _ =>
       if String.eqb team "Key West FC" then ["BDE"; "Sharks"]
       else if String.eqb team "Purple Crew" then ["BDE"]
       else if String.eqb team "Sharks" then ["Key West FC"]
       else [];
     get_head_to_head := fun team1 team2 league after =>
       if String.eqb team1 "Key West FC" && String.eqb team2 "Purple Crew" then []
       else get_head_to_head example_store team1 team2 league after |}.

(** A state in which the latest row of Key West FC against BDE carries a
    date that does not parse, and the state without that row. *)
Definition malformed_store : AllGamesStore :=
  {| get_opponents_for_team := get_opponents_for_team example_store;
     get_head_to_head := fun team1 team2 league after =>
       if String.eqb team1 "Key West FC" && String.eqb team2 "BDE" then
         example_game "TBD" "Key West FC" "BDE" 4 0
         :: get_head_to_head example_store team1 team2 league after
       else get_head_to_head example_store team1 team2 league after |}.

(** A state in which the latest played row is dated the day after
    [example_now]. *)
Definition future_store : AllGamesStore :=
  {| get_opponents_for_team := get_opponents_for_team example_store;
     get_head_to_head := fun team1 team2 league after =>
       if String.eqb team1 "Key West FC" && String.eqb team2 "BDE" then
         example_game "2026-11-05" "Key West FC" "BDE" 4 0
         :: get_head_to_head example_store team1 team2 league after
       else get_head_to_head example_store team1 team2 league after |}.

Definition example_analyzer : TransitiveAnalyzer :=
  {| our_team := "Key West FC";
     time_window_days := 365;
     min_shared_opponents := 2;
     recency_half_life_days := 365;
     store := example_store |}.

Definition example_now : datetime := mkDatetime 2026 11 4.

Definition example_comparison : SharedOpponentComparison :=
  {| opponent := "BDE";
     our_record :=
       {| wins := 2; losses := 0; ties := 0; goals_for := 5; goals_against := 1;
          games := [example_game "2026-10-25" "Key West FC" "BDE" 3 0;
                    example_game "2026-09-13" "BDE" "Key West FC" 1 2] |};
     their_record :=
       {| wins := 0; losses := 1; ties := 1; goals_for := 1; goals_against := 2;
          games := [example_game "2026-10-18" "BDE" "Purple Crew" 1 0;
                    example_game "2026-09-20" "Purple Crew" "BDE" 1 1] |};
     recency_weight := Rpower 0.5 (IZR 10 / IZR 365) |}.

End Example.

(** ** Further definitions: records seen as one another, role swap *)

(** A head-to-head record read as a team record (the two classes have the
    same fields). *)
Definition h2h_as_team_record (h : HeadToHeadRecord) : TeamRecord :=
  {| wins := H2H.wins h;
     losses := H2H.losses h;
     ties := H2H.ties h;
     goals_for := H2H.goals_for h;
     goals_against := H2H.goals_against h;
     games := H2H.games h |}.

(** The three outcome labels. *)
Definition is_outcome_label (s : string) : Prop :=
  s = "FAVORABLE"%string \/ s = "UNFAVORABLE"%string \/ s = "UNCERTAIN"%string.

(** A store state in which Key West FC has beaten both shared opponents
    5-0 and Purple Crew has lost to both 0-5, all on the same day. *)
Definition unanimous_store : AllGamesStore :=
  {| get_opponents_for_team := fun team _ _ =>
       if String.eqb team "Key West FC" then ["Alpha"; "Beta"]%string
       else if String.eqb team "Purple Crew" then ["Beta"; "Alpha"]%string
       else [];
     get_head_to_head := fun team1 team2 _ _ =>
       if String.eqb team1 "Key West FC" then
         [example_game "2026-10-25" "Key West FC" team2 5 0]
       else if String.eqb team1 "Purple Crew" then
         [example_game "2026-10-25" team2 "Purple Crew" 5 0]
       else [] |}.

Definition unanimous_comparison (shared : string) : SharedOpponentComparison :=
  {| opponent := shared;
     our_record :=
       {| wins := 1; losses := 0; ties := 0; goals_for := 5; goals_against := 0;
          games := [example_game "2026-10-25" "Key West FC" shared 5 0] |};
     their_record :=
       {| wins := 0; losses := 1; ties := 0; goals_for := 0; goals_against := 5;
          games := [example_game "2026-10-25" shared "Purple Crew" 5 0] |};
     recency_weight := Rpower 0.5 (IZR 10 / IZR 365) |}.

(** ** Exchanging the roles of the two teams *)

(** The same analyzer tracking another team. *)
Definition with_our_team (self : TransitiveAnalyzer) (team : string) : TransitiveAnalyzer :=
  {| our_team := team;
     time_window_days := time_window_days self;
     min_shared_opponents := min_shared_opponents self;
     recency_half_life_days := recency_half_life_days self;
     store := store self |}.

(** A comparison read from the other team's side. *)
Definition swap_sides (c : SharedOpponentComparison) : SharedOpponentComparison :=
  {| opponent := opponent c;
     our_record := their_record c;
     their_record := our_record c;
     recency_weight := recency_weight c |}.

Definition flip_outcome (outcome : string) : string :=
  if String.eqb outcome "FAVORABLE" then "UNFAVORABLE"%string
  else if String.eqb outcome "UNFAVORABLE" then "FAVORABLE"%string
  else outcome.

(** A prediction read from the other team's side, without its
    head-to-head record. *)
Definition mirror (r : PredictionResult) : PredictionResult :=
  {| Prediction.our_team := Prediction.opponent r;
     Prediction.opponent := Prediction.our_team r;
     Prediction.comparisons := List.map swap_sides (Prediction.comparisons r);
     Prediction.confidence := Prediction.confidence r;
     Prediction.advantage_score := (- Prediction.advantage_score r)%R;
     Prediction.outcome := flip_outcome (Prediction.outcome r);
     Prediction.league_filter := Prediction.league_filter r;
     Prediction.time_window_days := Prediction.time_window_days r;
     Prediction.head_to_head := None |}.

(** ** PredictionResult.advantage_bar (analysis.py, 146-152) *)

Section AdvantageBar.
Local Open Scope R_scope.

(** [int(x)] on a float: truncation towards zero. *)
Definition py_int (x : float) : Z := if Rle_dec 0 x then Zfloor x else Zceil x.

Fixpoint str_repeat (s : string) (n : nat) : string :=
  match n with
  | O => EmptyString
  | S k => (s ++ str_repeat s k)%string
  end.

(** [s * n] on a string: empty for [n <= 0]. *)
Definition str_mul (s : string) (n : Z) : string := str_repeat s (Z.to_nat n).

Definition advantage_bar (p : PredictionResult) : string :=
  let filled := py_int ((Prediction.advantage_score p + 1) * 5) in
  let filled := Z.max 0 (Z.min 10 filled) in
  (str_mul "█" filled ++ str_mul "░" (10 - filled))%string.

End AdvantageBar.

(** ** AllGamesStore.metadata_to_raw_game (all_games_store.py, 266-276) *)

Definition metadata_to_raw_game (m : Metadata) : result RawGame :=
  d ← strptime (date m);
  Ok {| RawGame.date := d;
        RawGame.home_team := home_team m;
        RawGame.away_team := away_team m;
        RawGame.home_score := if (home_score m >=? 0)%Z then Some (home_score m) else None;
        RawGame.away_score := if (away_score m >=? 0)%Z then Some (away_score m) else None;
        RawGame.league_name := league_name m;
        RawGame.field := if String.eqb (field m) "" then None else Some (field m) |}.

(** A scraped game as it comes back from the store: an empty field name
    is read back as no field. *)
Definition normalize_field (g : RawGame) : RawGame :=
  {| RawGame.date := RawGame.date g;
     RawGame.home_team := RawGame.home_team g;
     RawGame.away_team := RawGame.away_team g;
     RawGame.home_score := RawGame.home_score g;
     RawGame.away_score := RawGame.away_score g;
     RawGame.league_name := RawGame.league_name g;
     RawGame.field :=
       match RawGame.field g with
       | Some f => if String.eqb f "" then None else Some f
       | None => None
       end |}.

Definition score_recorded (s : option Z) : Prop :=
  match s with
  | Some v => (0 <= v)%Z
  | None => True
  end.

(** ** storage.py: rows of our own schedule, as [GameStore] returns them *)

Module GameRecord.

(** The dict of [GameRecord.to_metadata] (db/models.py), without
    ["date_ts"]. *)
Record Metadata : Type := mk {
  date : string;
  opponent : string;
  league_name : string;
  league_day : string;
  is_home : bool;
  home_score : Z;
  away_score : Z;
  our_score : Z;
  their_score : Z;
  result : string;
  goal_diff : Z;
  field : string;
  is_played : bool
}.

(** The dict with keys ["id"], ["document"], ["metadata"]. *)
Record Row : Type := mkRow {
  id : string;
  document : string;
  metadata : Metadata
}.

End GameRecord.

(** [GameStore.get_all_games(league, is_played)]: the query is answered
    by the database. *)
Record GameStore : Type := {
  get_all_games : option string -> option bool -> list GameRecord.Row
}.

(** [s.title()] on ASCII text: a letter is upper-cased after a
    non-letter (or at the start) and lower-cased after a letter. *)
Definition ascii_is_upper (c : ascii) : bool :=
  let n := nat_of_ascii c in Nat.leb 65 n && Nat.leb n 90.

Definition ascii_is_lower (c : ascii) : bool :=
  let n := nat_of_ascii c in Nat.leb 97 n && Nat.leb n 122.

Definition ascii_upper (c : ascii) : ascii :=
  if ascii_is_lower c then ascii_of_nat (nat_of_ascii c - 32) else c.

Fixpoint title_from (previous_is_cased : bool) (s : string) : string :=
  match s with
  | EmptyString => EmptyString
  | String c s' =>
      let c' :=
        if ascii_is_lower c then (if previous_is_cased then c else ascii_upper c)
        else if ascii_is_upper c then (if previous_is_cased then ascii_lower c else c)
        else c in
      String c' (title_from (ascii_is_lower c || ascii_is_upper c) s')
  end.

Definition title (s : string) : string := title_from false s.

(** Truth value of an [Optional[str]]: [None] and the empty string are
    false. *)
Definition truthy (s : option string) : bool :=
  match s with
  | Some (String _ _) => true
  | _ => false
  end.

(** ** TransitiveAnalyzer.predict_upcoming (analysis.py, 496-534) *)

(** [league_name.title() if league_name else None]. *)
Definition league_argument (league_name : option string) : option string :=
  match league_name with
  | Some l => if truthy league_name then Some (title l) else None
  | None => None
  end.

Section Upcoming.
Variable self : TransitiveAnalyzer.
Variable game_store : GameStore.
Variable now : datetime.

(** The loop over [upcoming_games], with its two accumulators. *)
Fixpoint upcoming_loop (league_name : option string) (upcoming_games : list GameRecord.Row)
    (seen_opponents : gset string) (predictions : list PredictionResult)
  : result (list PredictionResult) :=
  match upcoming_games with
  | [] => Ok predictions
  | game :: rest =>
      let opponent := GameRecord.opponent (GameRecord.metadata game) in
      if decide (lower opponent ∈ seen_opponents) then
        upcoming_loop league_name rest seen_opponents predictions
      else
        let seen_opponents := seen_opponents ∪ {[ lower opponent ]} in
        let game_league := GameRecord.league_name (GameRecord.metadata game) in
        prediction ← predict_outcome self now opponent
                       (if truthy league_name then Some game_league else None);
        upcoming_loop league_name rest seen_opponents (predictions ++ [prediction])
  end.

Definition predict_upcoming (league_name : option string) : result (list PredictionResult) :=
  let upcoming_games :=
    get_all_games game_store (league_argument league_name) (Some false) in
  upcoming_loop league_name upcoming_games ∅ [].

End Upcoming.

(** The fixture that decides how an opponent is predicted: the first row
    of the list whose opponent has the same lower-cased name. *)
Fixpoint first_fixture (name : string) (games : list GameRecord.Row) : option GameRecord.Row :=
  match games with
  | [] => None
  | game :: rest =>
      if String.eqb (lower (GameRecord.opponent (GameRecord.metadata game))) (lower name)
      then Some game
      else first_fixture name rest
  end.

(** A schedule used to instantiate the theorems on [predict_upcoming]:
    two fixtures against Purple Crew (spelled differently) and one against
    Sharks. *)
Section ExampleSchedule.
Local Open Scope string_scope.

Definition example_fixture (d opp : string) : GameRecord.Row :=
  {| GameRecord.id := d ++ opp;
     GameRecord.document := "Key West FC vs " ++ opp;
     GameRecord.metadata :=
       {| GameRecord.date := d; GameRecord.opponent := opp;
          GameRecord.league_name := "Sunday"; GameRecord.league_day := "Sunday";
          GameRecord.is_home := true;
          GameRecord.home_score := -1; GameRecord.away_score := -1;
          GameRecord.our_score := -1; GameRecord.their_score := -1;
          GameRecord.result := "pending"; GameRecord.goal_diff := 0;
          GameRecord.field := ""; GameRecord.is_played := false |} |}.

Definition example_schedule : list GameRecord.Row :=
  [example_fixture "2026-11-08" "Purple Crew";
   example_fixture "2026-11-15" "Sharks";
   example_fixture "2026-11-22" "PURPLE CREW"].

Definition example_game_store : GameStore :=
  {| get_all_games := fun _ is_played =>
       match is_played with
       | Some true => []
       | _ => example_schedule
       end |}.

End ExampleSchedule.

(** ** mcp_server.py: the head-to-head part of the [predict] tool (89-103, 126-130) *)

Module H2HEntry.

(** One dict of the list ["games"]. *)
Record H2HEntry : Type := mk {
  date : string;
  our_score : Z;
  their_score : Z;
  result : string;
  league : string
}.

End H2HEntry.
Abbreviation H2HEntry := H2HEntry.H2HEntry.

(** The body of the loop over [prediction.head_to_head.games]. *)
Definition format_h2h_game (our_lower : string) (game : Game) : H2HEntry :=
  let meta := metadata game in
  let is_home := str_in our_lower (lower (home_team meta)) in
  let our_score := if is_home then home_score meta else away_score meta in
  let their_score := if is_home then away_score meta else home_score meta in
  {| H2HEntry.date := date meta;
     H2HEntry.our_score := our_score;
     H2HEntry.their_score := their_score;
     H2HEntry.result :=
       if (our_score >? their_score)%Z then "W"
       else if (our_score <? their_score)%Z then "L" else "T";
     H2HEntry.league := league_name meta |}.

Definition h2h_games (prediction : PredictionResult) : list H2HEntry :=
  match Prediction.head_to_head prediction with
  | Some h2h =>
      match H2H.games h2h with
      | [] => []
      | games =>
          let our_lower := lower (Prediction.our_team prediction) in
          List.map (format_h2h_game our_lower) games
      end
  | None => []
  end.

(** Whether the response carries a ["head_to_head"] object (rather than
    [None]). *)
Definition reports_head_to_head (prediction : PredictionResult) : bool :=
  match Prediction.head_to_head prediction with
  | Some h2h => (H2H.games_played h2h >? 0)%Z
  | None => false
  end.

(** Number of listed games with a given result letter. *)
Definition tally (letter : string) (entries : list H2HEntry) : Z :=
  Z.of_nat (length (List.filter (fun e => String.eqb (H2HEntry.result e) letter) entries)).

Definition Zsum (l : list Z) : Z := fold_right Z.add 0%Z l.

From Stdlib Require Import DecimalString DecimalZ DecimalPos.

(** ** all_games_store.py: writing scraped games (AllGamesStore.add_games, 31-95) *)

(** [str(n)] on an int. *)
Definition py_str (n : Z) : string := NilZero.string_of_int (Z.to_int n).

(** [d.strftime("%Y%m%d")] (for a four-digit year). *)
Definition strftime_compact (d : datetime) : string :=
  (two_digits (year d / 100) ++ two_digits (year d mod 100)
   ++ two_digits (month d) ++ two_digits (day d))%string.

(** [re.sub(r"[^a-z0-9]", "", s)]. *)
Definition is_slug_char (c : ascii) : bool :=
  let n := nat_of_ascii c in
  (Nat.leb 97 n && Nat.leb n 122) || (Nat.leb 48 n && Nat.leb n 57).

Fixpoint slug (s : string) : string :=
  match s with
  | EmptyString => EmptyString
  | String c s' => if is_slug_char c then String c (slug s') else slug s'
  end.

(** [RawGame.to_document] (models.py, 51-61). *)
Definition RawGame_to_document (g : RawGame) : string :=
  let result_str :=
    match RawGame.home_score g, RawGame.away_score g with
    | Some h, Some a => ("Score: " ++ py_str h ++ "-" ++ py_str a)%string
    | _, _ => "Game not yet played"%string
    end in
  (RawGame.home_team g ++ " vs " ++ RawGame.away_team g ++ " on "
   ++ strftime (RawGame.date g) ++ " in " ++ RawGame.league_name g ++ ". "
   ++ result_str ++ ".")%string.

(** The row class of the table [all_games] (db/models.py, 139-182),
    without the surrogate key, the timestamps and [date_ts]. *)
Module AllGameRecord.

Record AllGameRecord : Type := mk {
  game_id : string;
  date : datetime;
  home_team : string;
  away_team : string;
  home_score : option Z;
  away_score : option Z;
  league_name : string;
  field : option string;
  is_played : bool;
  document : string
}.

End AllGameRecord.
Abbreviation AllGameRecord := AllGameRecord.AllGameRecord.

(** [AllGameRecord.to_metadata]. *)
Definition AllGameRecord_to_metadata (self : AllGameRecord) : Metadata :=
  {| date := strftime (AllGameRecord.date self);
     home_team := AllGameRecord.home_team self;
     away_team := AllGameRecord.away_team self;
     league_name := AllGameRecord.league_name self;
     home_score := match AllGameRecord.home_score self with Some s => s | None => (-1)%Z end;
     away_score := match AllGameRecord.away_score self with Some s => s | None => (-1)%Z end;
     field := match AllGameRecord.field self with Some f => f | None => "" end;
     is_played := AllGameRecord.is_played self |}.

(** The table, keyed by its unique column [game_id]. *)
Abbreviation Table := (gmap string AllGameRecord).

Section StoreWrites.

(** [hashlib.md5(s.encode()).hexdigest()]. *)
Variable md5_hexdigest : string -> string.

(** [RawGame.game_id] (models.py, 41-49). *)
Definition RawGame_game_id (g : RawGame) : string :=
  let normalized_home := slug (lower (RawGame.home_team g)) in
  let normalized_away := slug (lower (RawGame.away_team g)) in
  let date_str := strftime_compact (RawGame.date g) in
  let league_slug := slug (lower (RawGame.league_name g)) in
  let raw_id :=
    (league_slug ++ "_" ++ date_str ++ "_" ++ normalized_home ++ "_" ++ normalized_away)%string in
  ("raw_" ++ substring 0 12 (md5_hexdigest raw_id))%string.

(** The first loop: games with an id not seen before, in order. *)
Fixpoint unique_by_id (games : list RawGame) (seen_ids : gset string)
    (unique_games : list RawGame) : list RawGame :=
  match games with
  | [] => unique_games
  | game :: rest =>
      if decide (RawGame_game_id game ∈ seen_ids) then unique_by_id rest seen_ids unique_games
      else unique_by_id rest (seen_ids ∪ {[ RawGame_game_id game ]}) (unique_games ++ [game])
  end.

Definition values (game : RawGame) : AllGameRecord :=
  {| AllGameRecord.game_id := RawGame_game_id game;
     AllGameRecord.date := RawGame.date game;
     AllGameRecord.home_team := RawGame.home_team game;
     AllGameRecord.away_team := RawGame.away_team game;
     AllGameRecord.home_score := RawGame.home_score game;
     AllGameRecord.away_score := RawGame.away_score game;
     AllGameRecord.league_name := RawGame.league_name game;
     AllGameRecord.field := RawGame.field game;
     AllGameRecord.is_played := RawGame.is_played game;
     AllGameRecord.document := RawGame_to_document game |}.

(** The body of the second loop: look the id up, then insert or
    overwrite the row. *)
Definition upsert (state : Z * Z * Table) (game : RawGame) : Z * Z * Table :=
  let '(added, updated, session) := state in
  let existing := session !! RawGame_game_id game in
  let session := <[ RawGame_game_id game := values game ]> session in
  match existing with
  | Some _ => (added, (updated + 1)%Z, session)
  | None => ((added + 1)%Z, updated, session)
  end.

(** [add_games]: the counts returned and the table left behind. *)
Definition add_games (games : list RawGame) (session : Table) : (Z * Z) * Table :=
  match games with
  | [] => ((0%Z, 0%Z), session)
  | _ =>
      let unique_games := unique_by_id games ∅ [] in
      let '(added, updated, session) := fold_left upsert unique_games (0%Z, 0%Z, session) in
      ((added, updated), session)
  end.

(** The ids of a batch, and the game of a batch that decides the row
    stored under an id. *)
Definition batch_ids (games : list RawGame) : gset string :=
  list_to_set (List.map RawGame_game_id games).

Definition first_with_id (id : string) (games : list RawGame) : option RawGame :=
  List.find (fun g => String.eqb (RawGame_game_id g) id) games.

End StoreWrites.

(** ** AllGamesStore.get_opponents_for_team (all_games_store.py, 150-183)

    The rows come from [get_team_games], a query answered by the
    database; the set of opponents is built from them here. *)

Definition add_opponent (team_lower : string) (opponents : gset string) (game : Game)
  : gset string :=
  let meta := metadata game in
  if str_in team_lower (lower (home_team meta))
  then opponents ∪ {[ away_team meta ]}
  else opponents ∪ {[ home_team meta ]}.

Definition AllGamesStore_get_opponents_for_team
    (get_team_games : string -> option string -> option string -> option bool -> list Game)
    (team_name : string) (league_name after : option string) : list string :=
  let games := get_team_games team_name league_name after (Some true) in
  let team_lower := lower team_name in
  let opponents := fold_left (add_opponent team_lower) games ∅ in
  merge_sort String.le (elements opponents).

(** The side of a row that is listed as the opponent of [team_name]. *)
Definition other_side (team_name : string) (game : Game) : string :=
  if is_home team_name game then away_team (metadata game) else home_team (metadata game).

(** A scraped game with other scores recorded. *)
Definition with_scores (g : RawGame) (home away : option Z) : RawGame :=
  {| RawGame.date := RawGame.date g;
     RawGame.home_team := RawGame.home_team g;
     RawGame.away_team := RawGame.away_team g;
     RawGame.home_score := home;
     RawGame.away_score := away;
     RawGame.league_name := RawGame.league_name g;
     RawGame.field := RawGame.field g |}.

(** ** Auxiliary readings of [fromordinal] *)

Section CalendarParts.
Local Open Scope Z_scope.

(** The last steps of [fromordinal]: month and day of the day with index
    [n] (from 0) in a year. *)
Definition month_day (leapyear : bool) (n : Z) : Z * Z :=
  let m := Z.shiftr (n + 50) 5 in
  let preceding :=
    nth (Z.to_nat m) _DAYS_BEFORE_MONTH 0 + (if (m >? 2) && leapyear then 1 else 0) in
  if preceding >? n then
    let m := m - 1 in
    let preceding :=
      preceding - (nth (Z.to_nat m) _DAYS_IN_MONTH 0 + (if (m =? 2) && leapyear then 1 else 0)) in
    (m, n - preceding + 1)
  else (m, n - preceding + 1).

(** [month_day] names a day of the year and counts back to [n]. *)
Definition month_day_ok (leapyear : bool) (n : Z) : bool :=
  let '(m, d) := month_day leapyear n in
  (1 <=? m) && (m <=? 12) && (1 <=? d)
  && (d <=? (if (m =? 2) && leapyear then 29 else nth (Z.to_nat m) _DAYS_IN_MONTH 0))
  && (nth (Z.to_nat m) _DAYS_BEFORE_MONTH 0 + (if (m >? 2) && leapyear then 1 else 0) + d
      =? n + 1).

(** The largest ordinal of a [datetime] (31 December 9999). *)
Definition _MAXORDINAL : Z := 3652059.

End CalendarParts.

(** ** display.py: the styles chosen by [display_prediction] (529-559)
    and, with the same code, by [display_upcoming_predictions] (657-683) *)

Section DisplayStyles.
Local Open Scope R_scope.

(** [outcome_colors.get(prediction.outcome, "white")]. *)
Definition outcome_color (prediction : PredictionResult) : string :=
  if String.eqb (Prediction.outcome prediction) "FAVORABLE" then "green"
  else if String.eqb (Prediction.outcome prediction) "UNFAVORABLE" then "red"
  else if String.eqb (Prediction.outcome prediction) "UNCERTAIN" then "yellow"
  else "white".

Definition conf_style (prediction : PredictionResult) : string :=
  let confidence := Prediction.confidence prediction in
  if Rge_dec confidence 70 then "green"
  else if Rge_dec confidence 40 then "yellow"
  else "dim".

Definition adv_style (prediction : PredictionResult) : string :=
  let adv := Prediction.advantage_score prediction in
  if Rgt_dec adv 0 then "green"
  else if Rlt_dec adv 0 then "red"
  else "dim".

End DisplayStyles.

(** ** TeamRecord.record_str and goal_diff_str (analysis.py, 40-51) *)

Definition record_str (r : TeamRecord) : string :=
  (py_str (wins r) ++ "-" ++ py_str (losses r) ++ "-" ++ py_str (ties r))%string.

Definition goal_diff_str (r : TeamRecord) : string :=
  let diff := goal_diff r in
  if (diff >? 0)%Z then ("+" ++ py_str diff)%string else py_str diff.

(** Strings made of decimal digits only. *)
Fixpoint digits_only (s : string) : bool :=
  match s with
  | EmptyString => true
  | String c s' => is_digit c && digits_only s'
  end.

(** ** storage.py: the league condition of [GameStore.get_all_games] (287-289)

    [if league: stmt = stmt.where(GameRecord.league_day == league.title())]:
    the value that [league_day] is compared with, if any. *)
Definition league_day_condition (league : option string) : option string :=
  match league with
  | Some l => if truthy league then Some (title l) else None
  | None => None
  end.

(** One character of [title]. *)
Definition title_char (previous_is_cased : bool) (c : ascii) : ascii :=
  if ascii_is_lower c then (if previous_is_cased then c else ascii_upper c)
  else if ascii_is_upper c then (if previous_is_cased then ascii_lower c else c)
  else c.

(** ** models.py: [Game], a game of our own schedule (78-193) *)

Module ModelGame.

Inductive GameResult : Type := WIN | LOSS | TIE | PENDING.

Definition value (r : GameResult) : string :=
  match r with
  | WIN => "win"
  | LOSS => "loss"
  | TIE => "tie"
  | PENDING => "pending"
  end.

Record Game : Type := mk {
  date : datetime;
  opponent : string;
  home_score : option Z;
  away_score : option Z;
  is_home : bool;
  field : option string;
  league_name : string;
  league_day : string
}.

Definition is_played (self : Game) : bool :=
  match home_score self, away_score self with
  | Some _, Some _ => true
  | _, _ => false
  end.

Definition result (self : Game) : GameResult :=
  match home_score self, away_score self with
  | Some home, Some away =>
      if is_home self then
        if (home >? away)%Z then WIN else if (home <? away)%Z then LOSS else TIE
      else
        if (away >? home)%Z then WIN else if (away <? home)%Z then LOSS else TIE
  | _, _ => PENDING
  end.

Definition goal_diff (self : Game) : option Z :=
  match home_score self, away_score self with
  | Some home, Some away =>
      let our_score := if is_home self then home else away in
      let their_score := if is_home self then away else home in
      Some (our_score - their_score)%Z
  | _, _ => None
  end.

Definition or_minus_one (score : option Z) : Z :=
  match score with
  | Some s => s
  | None => (-1)%Z
  end.

Definition to_metadata (self : Game) : GameRecord.Metadata :=
  let our_score := if is_home self then home_score self else away_score self in
  let their_score := if is_home self then away_score self else home_score self in
  {| GameRecord.date := strftime (date self);
     GameRecord.opponent := opponent self;
     GameRecord.league_name := league_name self;
     GameRecord.league_day := league_day self;
     GameRecord.is_home := is_home self;
     GameRecord.home_score := or_minus_one (home_score self);
     GameRecord.away_score := or_minus_one (away_score self);
     GameRecord.our_score := or_minus_one our_score;
     GameRecord.their_score := or_minus_one their_score;
     GameRecord.result := value (result self);
     GameRecord.goal_diff := match goal_diff self with Some d => d | None => 0%Z end;
     GameRecord.field := match field self with Some f => f | None => "" end;
     GameRecord.is_played := is_played self |}.

End ModelGame.

(** ** Properties *)

Section AdvantageScoreFacts.
Local Open Scope R_scope.

Lemma clamp_bounds (x lo hi : R) : lo <= hi -> lo <= clamp x lo hi <= hi.
Proof.
  intros Hle. unfold clamp, Rmax, Rmin.
  repeat destruct Rle_dec; lra.
Qed.

Lemma truediv_nonzero (x : float) (n : Z) :
  n ≠ 0%Z -> truediv x n = Ok (x / IZR n).
Proof. intros Hn. unfold truediv. destruct (decide (n = 0%Z)); [contradiction | reflexivity]. Qed.

Lemma spec_advantage_score_bounds (c : SharedOpponentComparison) :
  -1 <= spec_advantage_score c <= 1.
Proof.
  unfold spec_advantage_score. destruct (decide _).
  - lra.
  - match goal with |- _ <= clamp ?x _ _ <= _ =>
      pose proof (clamp_bounds x (-1.0) 1.0 ltac:(lra)) end.
    lra.
Qed.

Lemma advantage_score_refines (c : SharedOpponentComparison) :
  advantage_score c = Ok (spec_advantage_score c).
Proof.
  unfold advantage_score, spec_advantage_score.
  destruct (Z.eqb_spec (games_played (our_record c)) 0) as [Ho | Ho]; simpl.
  - destruct (decide _) as [_ | Hn]; [reflexivity | exfalso; apply Hn; now left].
  - destruct (Z.eqb_spec (games_played (their_record c)) 0) as [Ht | Ht]; simpl.
    + destruct (decide _) as [_ | Hn]; [reflexivity | exfalso; apply Hn; now right].
    + destruct (decide _) as [[H | H] | _]; [contradiction | contradiction |].
      rewrite !truediv_nonzero by assumption. reflexivity.
Qed.


End AdvantageScoreFacts.
(** ** The record aggregator *)

Section AggregatorFacts.
Local Open Scope Z_scope.

Lemma count_game_unplayed (tl : string) (r : TeamRecord) (g : Game) :
  played g = false -> count_game tl r g = r.
Proof. unfold played, count_game. intros ->. reflexivity. Qed.

Lemma count_cons (p : Game -> bool) (g : Game) (l : list Game) :
  count p (g :: l) = (if p g then 1 else 0) + count p l.
Proof.
  unfold count. simpl. destruct (p g); simpl length; lia.
Qed.

(** The fold from an arbitrary accumulator. *)
Lemma fold_count_game (team : string) (rows : list Game) (acc : TeamRecord) :
  let r := fold_left (count_game (lower team)) rows acc in
  let contributing := List.filter played rows in
  games r = (games acc ++ contributing)%list /\
  wins r = wins acc + count (fun g => scored team g >? conceded team g) contributing /\
  losses r = losses acc + count (fun g => scored team g <? conceded team g) contributing /\
  ties r = ties acc + count (fun g => scored team g =? conceded team g) contributing /\
  goals_for r = goals_for acc + total (scored team) contributing /\
  goals_against r = goals_against acc + total (conceded team) contributing.
Proof.
  revert acc. induction rows as [| g rows IH]; intros acc; cbn zeta.
  - simpl. unfold count. simpl. rewrite app_nil_r. repeat split; lia || reflexivity.
  - simpl fold_left. simpl List.filter.
    destruct (played g) eqn:Hp.
    + specialize (IH (count_game (lower team) acc g)). cbn zeta in IH.
      destruct IH as (Hg & Hw & Hl & Ht & Hf & Ha).
      rewrite Hg, Hw, Hl, Ht, Hf, Ha. rewrite !count_cons. simpl total.
      unfold count_game. unfold played in Hp. rewrite Hp. simpl negb. cbv iota.
      fold (is_home team g). unfold scored, conceded.
      destruct (is_home team g); simpl;
        rewrite <- app_assoc; simpl;
        (split; [reflexivity |]);
        match goal with
        | |- context [?a >? ?b] =>
            destruct (Z.gtb_spec a b); destruct (Z.ltb_spec a b); destruct (Z.eqb_spec a b);
            try lia
        end.
    + rewrite count_game_unplayed by assumption. apply IH.
Qed.

End AggregatorFacts.

(** ** Shared-opponent discovery *)

Section DiscoveryFacts.

Lemma prefix_refl (s : string) : String.prefix s s = true.
Proof.
  induction s as [| c s IH]; simpl; [reflexivity |].
  destruct (ascii_dec c c); [exact IH | contradiction].
Qed.

Lemma str_in_refl (s : string) : str_in s s = true.
Proof.
  destruct s as [| c s]; [reflexivity |].
  change (String.prefix (String c s) (String c s) || str_in (String c s) s = true).
  rewrite prefix_refl. reflexivity.
Qed.

Lemma keeps_not_self_l (a b : string) : keeps (lower a) (lower b) a = false.
Proof. unfold keeps. rewrite str_in_refl. reflexivity. Qed.

Lemma keeps_not_self_r (a b : string) : keeps (lower a) (lower b) b = false.
Proof. unfold keeps. rewrite (str_in_refl (lower b)). apply andb_false_r. Qed.

Lemma elem_of_find_shared_opponents
    (self : TransitiveAnalyzer) (now : datetime) (opp : string) (league : option string)
    (x : string) :
  x ∈ find_shared_opponents self now opp league <->
  x ∈ get_opponents_for_team (store self) (our_team self) league
        (Some (_get_date_cutoff self now)) /\
  x ∈ get_opponents_for_team (store self) opp league (Some (_get_date_cutoff self now)) /\
  keeps (lower (our_team self)) (lower opp) x = true.
Proof.
  unfold find_shared_opponents.
  rewrite merge_sort_Permutation.
  rewrite list_elem_of_In, filter_In, <- list_elem_of_In.
  rewrite elem_of_elements, elem_of_intersection, !elem_of_list_to_set.
  tauto.
Qed.

Lemma NoDup_bool_filter {A : Type} (f : A -> bool) (l : list A) :
  NoDup l -> NoDup (List.filter f l).
Proof. rewrite !NoDup_ListNoDup. apply List.NoDup_filter. Qed.

Lemma find_shared_opponents_NoDup
    (self : TransitiveAnalyzer) (now : datetime) (opp : string) (league : option string) :
  NoDup (find_shared_opponents self now opp league).
Proof.
  unfold find_shared_opponents.
  rewrite merge_sort_Permutation.
  apply NoDup_bool_filter, NoDup_elements.
Qed.

Lemma find_shared_opponents_sorted
    (self : TransitiveAnalyzer) (now : datetime) (opp : string) (league : option string) :
  StronglySorted String.le (find_shared_opponents self now opp league).
Proof. unfold find_shared_opponents. apply StronglySorted_merge_sort; apply _. Qed.

End DiscoveryFacts.

Section AggregatorTheorem.
Local Open Scope Z_scope.

Lemma count_trichotomy (team : string) (l : list Game) :
  count (fun g => scored team g >? conceded team g) l
  + count (fun g => scored team g <? conceded team g) l
  + count (fun g => scored team g =? conceded team g) l
  = Z.of_nat (length l).
Proof.
  induction l as [| g l IH]; [reflexivity |].
  rewrite !count_cons. simpl length.
  destruct (Z.gtb_spec (scored team g) (conceded team g));
    destruct (Z.ltb_spec (scored team g) (conceded team g));
    destruct (Z.eqb_spec (scored team g) (conceded team g)); lia.
Qed.

Lemma count_game_played (team : string) (acc : TeamRecord) (g : Game) :
  played g = true ->
  let acc' := count_game (lower team) acc g in
  games acc' = (games acc ++ [g])%list /\
  goals_for acc' = goals_for acc + scored team g /\
  goals_against acc' = goals_against acc + conceded team g /\
  ((scored team g > conceded team g /\
    wins acc' = wins acc + 1 /\ losses acc' = losses acc /\ ties acc' = ties acc) \/
   (scored team g < conceded team g /\
    wins acc' = wins acc /\ losses acc' = losses acc + 1 /\ ties acc' = ties acc) \/
   (scored team g = conceded team g /\
    wins acc' = wins acc /\ losses acc' = losses acc /\ ties acc' = ties acc + 1)).
Proof.
  unfold played. intros Hp. cbn zeta. unfold count_game. rewrite Hp. simpl negb. cbv iota.
  fold (is_home team g). unfold scored, conceded.
  destruct (is_home team g); simpl;
    (split; [reflexivity |]); (split; [reflexivity |]); (split; [reflexivity |]);
    match goal with
    | |- context [?a >? ?b] => destruct (Z.gtb_spec a b); destruct (Z.ltb_spec a b); lia
    end.
Qed.

Lemma unscored_not_played (raw : RawGame) :
  RawGame.home_score raw = None \/ RawGame.away_score raw = None ->
  is_played (to_metadata raw) = false.
Proof.
  intros [H | H]; simpl; unfold RawGame.is_played; rewrite H; [reflexivity |].
  destruct (RawGame.home_score raw); reflexivity.
Qed.

(** C5. The record built by [_build_team_record] from the rows of the
    store: only played rows contribute, and they are kept in [games] in
    order; the row of a game with a missing score contributes nothing; a
    contributing row adds its goals by the case-insensitive substring match
    of the team name against [home_team] and increments exactly one of
    wins (our goals strictly greater), losses (strictly smaller) and ties
    (equal); hence wins + losses + ties is the number of contributing
    games, the length of [games]. *)
Theorem build_team_record_invariants
    (self : TransitiveAnalyzer) (now : datetime) (team opp : string) (league : option string) :
  let rows := get_head_to_head (store self) team opp league (Some (_get_date_cutoff self now)) in
  let contributing := List.filter played rows in
  let r := _build_team_record self now team opp league in
  games r = contributing /\
  wins r = count (fun g => scored team g >? conceded team g) contributing /\
  losses r = count (fun g => scored team g <? conceded team g) contributing /\
  ties r = count (fun g => scored team g =? conceded team g) contributing /\
  goals_for r = total (scored team) contributing /\
  goals_against r = total (conceded team) contributing /\
  wins r + losses r + ties r = Z.of_nat (length contributing) /\
  games_played r = Z.of_nat (length (games r)) /\
  (forall acc g, played g = false -> count_game (lower team) acc g = acc) /\
  (forall acc raw gid doc,
     RawGame.home_score raw = None \/ RawGame.away_score raw = None ->
     count_game (lower team) acc
       {| game_id := gid; document := doc; metadata := to_metadata raw |} = acc) /\
  (forall acc g, played g = true ->
     let acc' := count_game (lower team) acc g in
     games acc' = (games acc ++ [g])%list /\
     goals_for acc' = goals_for acc + scored team g /\
     goals_against acc' = goals_against acc + conceded team g /\
     ((scored team g > conceded team g /\
       wins acc' = wins acc + 1 /\ losses acc' = losses acc /\ ties acc' = ties acc) \/
      (scored team g < conceded team g /\
       wins acc' = wins acc /\ losses acc' = losses acc + 1 /\ ties acc' = ties acc) \/
      (scored team g = conceded team g /\
       wins acc' = wins acc /\ losses acc' = losses acc /\ ties acc' = ties acc + 1))).
Proof.
  intros rows contributing r.
  pose proof (fold_count_game team rows empty_record) as H. cbn zeta in H.
  fold contributing in H.
  change (fold_left (count_game (lower team)) rows empty_record) with r in H.
  destruct H as (Hg & Hw & Hl & Ht & Hf & Ha). simpl in Hg, Hw, Hl, Ht, Hf, Ha.
  pose proof (count_trichotomy team contributing) as Htri.
  repeat split; try assumption.
  - lia.
  - unfold games_played. rewrite Hg. lia.
  - intros acc g. apply count_game_unplayed.
  - intros acc raw gid doc Hnone. apply count_game_unplayed.
    unfold played. simpl metadata. apply unscored_not_played, Hnone.
  - apply count_game_played; assumption.
  - apply count_game_played; assumption.
  - apply count_game_played; assumption.
  - apply count_game_played; assumption.
Qed.

End AggregatorTheorem.

(** C8. [find_shared_opponents] returns a list sorted ascending (and
    without repetition) whose members are exactly the names of the
    intersection of the two opponent sets that contain, case-insensitively,
    neither our team's name nor the opponent's; in particular it contains
    neither our team nor the opponent. *)
Theorem find_shared_opponents_spec
    (self : TransitiveAnalyzer) (now : datetime) (opp : string) (league : option string) :
  let cutoff := Some (_get_date_cutoff self now) in
  let ours := get_opponents_for_team (store self) (our_team self) league cutoff in
  let theirs := get_opponents_for_team (store self) opp league cutoff in
  let l := find_shared_opponents self now opp league in
  StronglySorted String.le l /\
  NoDup l /\
  (forall x, x ∈ l -> x ∈ ours /\ x ∈ theirs) /\
  (forall x, x ∈ l ->
     str_in (lower (our_team self)) (lower x) = false /\ str_in (lower opp) (lower x) = false) /\
  (forall x, x ∈ ours -> x ∈ theirs ->
     str_in (lower (our_team self)) (lower x) = false -> str_in (lower opp) (lower x) = false ->
     x ∈ l) /\
  (our_team self ∉ l) /\
  (opp ∉ l).
Proof.
  cbn zeta.
  split; [apply find_shared_opponents_sorted |].
  split; [apply find_shared_opponents_NoDup |].
  split; [| split; [| split; [| split]]].
  - intros x Hx. apply elem_of_find_shared_opponents in Hx. tauto.
  - intros x Hx. apply elem_of_find_shared_opponents in Hx.
    destruct Hx as (_ & _ & Hk). unfold keeps in Hk.
    apply andb_true_iff in Hk. destruct Hk as [H1 H2].
    apply negb_true_iff in H1, H2. auto.
  - intros x Ho Ht H1 H2. apply elem_of_find_shared_opponents.
    unfold keeps. rewrite H1, H2. auto.
  - intros Hx. apply elem_of_find_shared_opponents in Hx.
    destruct Hx as (_ & _ & Hk). rewrite keeps_not_self_l in Hk. discriminate.
  - intros Hx. apply elem_of_find_shared_opponents in Hx.
    destruct Hx as (_ & _ & Hk). rewrite keeps_not_self_r in Hk. discriminate.
Qed.

(** ** Rounding *)

Section RoundingFacts.
Local Open Scope R_scope.

Lemma round_half_even_le (x : R) (k : Z) : x <= IZR k -> (round_half_even x <= k)%Z.
Proof.
  intros Hx. unfold round_half_even.
  pose proof (Zfloor_bound x) as [Hlo Hhi].
  assert (Hfk : (Zfloor x <= k)%Z).
  { apply le_IZR. lra. }
  destruct (Z.eq_dec (Zfloor x) k) as [Heq | Hne].
  - assert (x - IZR (Zfloor x) = 0) as -> by (rewrite Heq in *; lra).
    destruct (Rlt_dec 0 (1 / 2)); [lia | lra].
  - cbv zeta. repeat destruct Rlt_dec; try destruct (Z.even _); lia.
Qed.

Lemma round_half_even_ge (x : R) (k : Z) : IZR k <= x -> (k <= round_half_even x)%Z.
Proof.
  intros Hx. unfold round_half_even.
  pose proof (Zfloor_lub k x Hx) as Hfk.
  cbv zeta. repeat destruct Rlt_dec; try destruct (Z.even _); lia.
Qed.

Lemma py_round_0_le (x : R) (k : Z) : x <= IZR k -> py_round x 0 <= IZR k.
Proof.
  intros Hx. unfold py_round. simpl pow. rewrite Rmult_1_r.
  apply (round_half_even_le x k) in Hx. apply IZR_le in Hx. lra.
Qed.

Lemma py_round_0_ge (x : R) (k : Z) : IZR k <= x -> IZR k <= py_round x 0.
Proof.
  intros Hx. unfold py_round. simpl pow. rewrite Rmult_1_r.
  apply (round_half_even_ge x k) in Hx. apply IZR_le in Hx. lra.
Qed.

Lemma py_round_2_unit (x : R) : -1 <= x <= 1 -> -1 <= py_round x 2 <= 1.
Proof.
  intros [Hlo Hhi]. unfold py_round.
  assert (H100 : 10 ^ 2 = 100) by (simpl; lra). rewrite H100.
  assert (Hu : (round_half_even (x * 100) <= 100)%Z) by (apply round_half_even_le; lra).
  assert (Hl : (-100 <= round_half_even (x * 100))%Z) by (apply round_half_even_ge; lra).
  apply IZR_le in Hu, Hl. lra.
Qed.

End RoundingFacts.

(** ** The weighted roll-up *)

Section RollupFacts.
Local Open Scope R_scope.

Lemma fold_left_Rplus (xs : list R) (a : R) : fold_left Rplus xs a = a + Rsum xs.
Proof.
  revert a. induction xs as [| x xs IH]; intros a; simpl.
  - lra.
  - rewrite IH. lra.
Qed.

Lemma py_sum_Rsum (xs : list R) : py_sum xs = Rsum xs.
Proof. unfold py_sum. rewrite fold_left_Rplus. lra. Qed.

Lemma mapM_advantage_score (comparisons : list SharedOpponentComparison) :
  mapM advantage_score comparisons = Ok (List.map spec_advantage_score comparisons).
Proof.
  induction comparisons as [| c cs IH]; simpl; [reflexivity |].
  rewrite advantage_score_refines. simpl. rewrite IH. reflexivity.
Qed.

Lemma accumulate_weights_sums (comparisons : list SharedOpponentComparison) (tw wa : R) :
  accumulate_weights comparisons tw wa
  = Ok (tw + weight_sum comparisons, wa + weighted_sum comparisons).
Proof.
  revert tw wa. induction comparisons as [| c cs IH]; intros tw wa; simpl.
  - unfold weight_sum, weighted_sum. simpl. f_equal. f_equal; lra.
  - rewrite advantage_score_refines. simpl. rewrite IH.
    unfold weight_sum, weighted_sum. simpl. fold (games_weight c). fold (combined_weight c).
    f_equal. f_equal; lra.
Qed.

Lemma fdiv_nonzero (x y : R) : y <> 0 -> fdiv x y = Ok (x / y).
Proof. intros Hy. unfold fdiv. destruct (Req_dec_T y 0); [contradiction | reflexivity]. Qed.

Lemma aggregate_advantage_value (comparisons : list SharedOpponentComparison) :
  aggregate_advantage comparisons
  = Ok (if Rlt_dec 0 (weight_sum comparisons)
        then weighted_sum comparisons / weight_sum comparisons else 0).
Proof.
  unfold aggregate_advantage. rewrite accumulate_weights_sums. simpl.
  replace (0.0 + weight_sum comparisons) with (weight_sum comparisons) by lra.
  replace (0.0 + weighted_sum comparisons) with (weighted_sum comparisons) by lra.
  destruct (Rlt_dec 0 (weight_sum comparisons)) as [Hpos | Hnpos].
  - apply fdiv_nonzero. lra.
  - f_equal. lra.
Qed.

Lemma games_weight_nonneg (c : SharedOpponentComparison) :
  qualifying c -> 1 / 3 <= games_weight c <= 1.
Proof.
  intros [Ho Ht]. unfold games_weight.
  assert (H2 : (2 <= Z.min (games_played (our_record c) + games_played (their_record c)) 6 <= 6)%Z)
    by lia.
  destruct H2 as [Hlo Hhi]. apply IZR_le in Hlo, Hhi. lra.
Qed.

Lemma weight_sum_nonneg (comparisons : list SharedOpponentComparison) :
  Forall (fun c => 0 <= combined_weight c) comparisons -> 0 <= weight_sum comparisons.
Proof.
  unfold weight_sum. induction 1 as [| c cs Hc _ IH]; simpl; lra.
Qed.

Lemma weight_sum_pos (comparisons : list SharedOpponentComparison) :
  comparisons <> [] ->
  Forall (fun c => 0 < combined_weight c) comparisons -> 0 < weight_sum comparisons.
Proof.
  intros Hne Hall. destruct Hall as [| c cs Hc Hcs]; [contradiction |].
  assert (0 <= weight_sum cs).
  { apply weight_sum_nonneg. eapply Forall_impl; [exact Hcs |]. simpl. intros; lra. }
  unfold weight_sum in *. simpl. lra.
Qed.

Lemma weighted_sum_bounded (comparisons : list SharedOpponentComparison) :
  Forall (fun c => 0 <= combined_weight c) comparisons ->
  - weight_sum comparisons <= weighted_sum comparisons <= weight_sum comparisons.
Proof.
  unfold weight_sum, weighted_sum. induction 1 as [| c cs Hc _ IH]; simpl.
  - lra.
  - pose proof (spec_advantage_score_bounds c). nra.
Qed.

Lemma aggregate_matches_weighted_mean (comparisons : list SharedOpponentComparison) :
  Forall (fun c => 0 <= combined_weight c) comparisons ->
  (if Rlt_dec 0 (weight_sum comparisons)
   then weighted_sum comparisons / weight_sum comparisons else 0)
  = weighted_mean comparisons.
Proof.
  intros Hall. apply weight_sum_nonneg in Hall. unfold weighted_mean.
  destruct Rlt_dec; destruct Req_dec_T; lra.
Qed.

Lemma weighted_mean_unit (comparisons : list SharedOpponentComparison) :
  Forall (fun c => 0 <= combined_weight c) comparisons ->
  -1 <= weighted_mean comparisons <= 1.
Proof.
  intros Hall. pose proof (weighted_sum_bounded _ Hall) as Hb.
  apply weight_sum_nonneg in Hall. unfold weighted_mean.
  destruct Req_dec_T as [Hz | Hnz]; [lra |].
  assert (Hpos : 0 < weight_sum comparisons) by lra.
  split.
  - apply Rmult_le_reg_r with (weight_sum comparisons); [exact Hpos |].
    unfold Rdiv. rewrite Rmult_assoc, Rinv_l by exact Hnz. lra.
  - apply Rmult_le_reg_r with (weight_sum comparisons); [exact Hpos |].
    unfold Rdiv. rewrite Rmult_assoc, Rinv_l by exact Hnz. lra.
Qed.

End RollupFacts.

(** ** Confidence *)

Section ConfidenceFacts.
Local Open Scope R_scope.

Lemma Rsum_squares_nonneg (center : R) (comparisons : list SharedOpponentComparison) :
  0 <= Rsum (List.map (fun c => (spec_advantage_score c - center) ^ 2) comparisons).
Proof.
  unfold Rsum. induction comparisons as [| c cs IH]; cbn [List.map fold_right]; [lra |].
  pose proof (pow2_ge_0 (spec_advantage_score c - center)) as Hsq. lra.
Qed.

Lemma variance_around_nonneg (center : R) (comparisons : list SharedOpponentComparison) :
  comparisons <> [] -> 0 <= variance_around center comparisons.
Proof.
  intros Hne. unfold variance_around.
  assert (0 < INR (length comparisons)).
  { apply lt_0_INR. destruct comparisons; [contradiction | simpl; lia]. }
  apply Rmult_le_pos; [apply Rsum_squares_nonneg |].
  apply Rlt_le, Rinv_0_lt_compat. assumption.
Qed.

Lemma base_confidence_unit (n : nat) : 0 <= base_confidence n <= 1.
Proof.
  unfold base_confidence, Rmin. pose proof (pos_INR n).
  destruct Rle_dec; lra.
Qed.

Lemma consistency_factor_range (center : R) (comparisons : list SharedOpponentComparison) :
  comparisons <> [] -> 1 / 2 <= consistency_factor center comparisons <= 1.
Proof.
  intros Hne. unfold consistency_factor.
  destruct (Nat.eqb _ 1); [lra |].
  pose proof (variance_around_nonneg center comparisons Hne).
  unfold Rmax. destruct Rle_dec; lra.
Qed.

Lemma spec_confidence_range (center : R) (comparisons : list SharedOpponentComparison) :
  comparisons <> [] -> 0 <= spec_confidence center comparisons <= 100.
Proof.
  intros Hne. unfold spec_confidence.
  pose proof (base_confidence_unit (length comparisons)).
  pose proof (consistency_factor_range center comparisons Hne).
  nra.
Qed.

Lemma raw_confidence_value (center : R) (comparisons : list SharedOpponentComparison) :
  comparisons <> [] ->
  raw_confidence comparisons center = Ok (spec_confidence center comparisons).
Proof.
  intros Hne. unfold raw_confidence, spec_confidence, base_confidence, consistency_factor.
  cbv zeta. rewrite <- INR_IZR_INZ.
  destruct (Z.geb_spec (Z.of_nat (length comparisons)) 2) as [Hge | Hlt].
  - rewrite mapM_advantage_score. simpl.
    rewrite length_map, truediv_nonzero by lia. simpl.
    rewrite py_sum_Rsum, map_map, <- INR_IZR_INZ.
    destruct (Nat.eqb_spec (length comparisons) 1) as [H1 | _]; [lia |].
    reflexivity.
  - simpl.
    destruct (Nat.eqb_spec (length comparisons) 1) as [_ | Hn1]; [reflexivity |].
    destruct comparisons as [| c [| c' cs]]; [contradiction | simpl in Hn1; lia | simpl in Hlt; lia].
Qed.

End ConfidenceFacts.

(** ** Comparisons built from the store *)

Section ComparisonFacts.
Local Open Scope R_scope.

Variable self : TransitiveAnalyzer.
Variable now : datetime.

Lemma Rpower_half_pos (x : R) : 0 < Rpower 0.5 x.
Proof. unfold Rpower. apply exp_pos. Qed.

Lemma calculate_recency_weight_pos (game_date : string) (w : float) :
  _calculate_recency_weight self now game_date = Ok w -> 0 < w.
Proof.
  unfold _calculate_recency_weight.
  destruct (strptime game_date) as [dt | e]; simpl; [| discriminate].
  destruct (truediv _ _) as [q | e]; simpl; [| discriminate].
  intros [= <-]. apply Rpower_half_pos.
Qed.

Lemma get_comparative_performance_ok
    (shared opp : string) (league : option string) (c : SharedOpponentComparison) :
  get_comparative_performance self now shared opp league = Ok c ->
  opponent c = shared /\
  our_record c = _build_team_record self now (our_team self) shared league /\
  their_record c = _build_team_record self now opp shared league /\
  0 < recency_weight c.
Proof.
  unfold get_comparative_performance. cbv zeta.
  destruct (List.map _ _) as [| d ds].
  - simpl. intros [= <-]. simpl. repeat split. lra.
  - destruct (_calculate_recency_weight self now (py_max d ds)) as [w | e] eqn:Hw; simpl;
      [| discriminate].
    intros [= <-]. simpl. repeat split.
    eapply calculate_recency_weight_pos; eassumption.
Qed.

Lemma collect_comparisons_Forall
    (shared : list string) (opp : string) (league : option string)
    (comparisons : list SharedOpponentComparison) :
  collect_comparisons self now shared opp league = Ok comparisons ->
  Forall (fun c => qualifying c /\ 0 < recency_weight c) comparisons.
Proof.
  revert comparisons. induction shared as [| s rest IH]; intros comparisons; simpl.
  - intros [= <-]. constructor.
  - destruct (get_comparative_performance self now s opp league) as [c | e] eqn:Hc; simpl;
      [| discriminate].
    destruct (collect_comparisons self now rest opp league) as [cs | e]; simpl;
      [| discriminate].
    specialize (IH cs eq_refl).
    apply get_comparative_performance_ok in Hc. destruct Hc as (_ & _ & _ & Hpos).
    destruct (Z.gtb_spec (games_played (our_record c)) 0) as [Ho | Ho]; simpl.
    + destruct (Z.gtb_spec (games_played (their_record c)) 0) as [Ht | Ht]; simpl.
      * intros [= <-]. constructor; [| exact IH]. split; [split; lia | exact Hpos].
      * intros [= <-]. exact IH.
    + intros [= <-]. exact IH.
Qed.

Lemma collected_weights_pos
    (shared : list string) (opp : string) (league : option string)
    (comparisons : list SharedOpponentComparison) :
  collect_comparisons self now shared opp league = Ok comparisons ->
  Forall (fun c => 0 < combined_weight c) comparisons.
Proof.
  intros H. apply collect_comparisons_Forall in H.
  eapply Forall_impl; [exact H |]. simpl. intros c [Hq Hw].
  pose proof (games_weight_nonneg c Hq). unfold combined_weight. nra.
Qed.

Lemma classify_guarded (outcome : string) :
  (if negb (String.eqb outcome "UNCERTAIN") then "UNCERTAIN"%string else outcome)
  = "UNCERTAIN"%string.
Proof.
  destruct (String.eqb_spec outcome "UNCERTAIN") as [-> | _]; reflexivity.
Qed.

(** [predict_outcome] once the comparison loop has returned a non-empty
    list: every later step returns. *)
Lemma predict_outcome_rollup
    (opp : string) (league : option string) (comparisons : list SharedOpponentComparison) :
  collect_comparisons self now (find_shared_opponents self now opp league) opp league
    = Ok comparisons ->
  comparisons <> [] ->
  let adv := weighted_mean comparisons in
  let conf := spec_confidence adv comparisons in
  let guarded := (Z.of_nat (length comparisons) <? min_shared_opponents self)%Z in
  let h2h := get_head_to_head_record self now opp league in
  aggregate_advantage comparisons = Ok adv /\
  raw_confidence comparisons adv = Ok conf /\
  predict_outcome self now opp league =
    Ok {| Prediction.our_team := our_team self;
          Prediction.opponent := opp;
          Prediction.comparisons := comparisons;
          Prediction.confidence := py_round (if guarded then Rmin conf 30.0 else conf) 0;
          Prediction.advantage_score := py_round adv 2;
          Prediction.outcome := if guarded then "UNCERTAIN"%string else classify adv;
          Prediction.league_filter := league;
          Prediction.time_window_days := time_window_days self;
          Prediction.head_to_head :=
            if (H2H.games_played h2h >? 0)%Z then Some h2h else None |}.
Proof.
  intros Hcollect Hne. cbv zeta.
  pose proof (collected_weights_pos _ _ _ _ Hcollect) as Hpos.
  assert (Hnn : Forall (fun c => 0 <= combined_weight c) comparisons).
  { eapply Forall_impl; [exact Hpos |]. simpl. intros; lra. }
  assert (Hagg : aggregate_advantage comparisons = Ok (weighted_mean comparisons)).
  { rewrite aggregate_advantage_value, aggregate_matches_weighted_mean by exact Hnn.
    reflexivity. }
  assert (Hconf : raw_confidence comparisons (weighted_mean comparisons)
                  = Ok (spec_confidence (weighted_mean comparisons) comparisons))
    by (apply raw_confidence_value; exact Hne).
  split; [exact Hagg |]. split; [exact Hconf |].
  unfold predict_outcome. cbv zeta. rewrite Hcollect. simpl.
  destruct comparisons as [| c cs]; [contradiction |].
  rewrite Hagg. simpl. rewrite Hconf. simpl.
  rewrite classify_guarded. reflexivity.
Qed.

End ComparisonFacts.

(** ** Predictions *)

Section PredictionTheorems.
Local Open Scope R_scope.

Lemma predict_outcome_empty
    (self : TransitiveAnalyzer) (now : datetime) (opp : string) (league : option string) :
  collect_comparisons self now (find_shared_opponents self now opp league) opp league = Ok [] ->
  predict_outcome self now opp league =
    Ok {| Prediction.our_team := our_team self;
          Prediction.opponent := opp;
          Prediction.comparisons := [];
          Prediction.confidence := 0.0;
          Prediction.advantage_score := 0.0;
          Prediction.outcome := "UNCERTAIN";
          Prediction.league_filter := league;
          Prediction.time_window_days := time_window_days self;
          Prediction.head_to_head :=
            if (H2H.games_played (get_head_to_head_record self now opp league) >? 0)%Z
            then Some (get_head_to_head_record self now opp league) else None |}.
Proof. intros H. unfold predict_outcome. cbv zeta. rewrite H. reflexivity. Qed.

(** C2. When the comparison loop of [predict_outcome] yields a non-empty
    list, every comparison in it has games on both sides, the aggregate
    advantage score is the weighted mean
    Σ(advantage_score × w) / Σ(w) (0.0 if the weight sum is 0) with
    w = recency_weight × min(our games + their games, 6) / 6.0, and the
    advantage score of the result, its rounding to 2 decimals, lies in
    [-1, 1]. *)
Theorem predict_outcome_weighted_mean
    (self : TransitiveAnalyzer) (now : datetime) (opp : string) (league : option string)
    (comparisons : list SharedOpponentComparison) :
  collect_comparisons self now (find_shared_opponents self now opp league) opp league
    = Ok comparisons ->
  comparisons <> [] ->
  Forall qualifying comparisons /\
  Forall (fun c => advantage_score c = Ok (spec_advantage_score c)) comparisons /\
  (forall c, combined_weight c =
     recency_weight c *
     (IZR (Z.min (games_played (our_record c) + games_played (their_record c)) 6) / 6.0)) /\
  exists (adv : float) (r : PredictionResult),
    aggregate_advantage comparisons = Ok adv /\
    adv = (if Req_dec_T (Rsum (List.map combined_weight comparisons)) 0 then 0
           else Rsum (List.map (fun c => spec_advantage_score c * combined_weight c) comparisons)
                / Rsum (List.map combined_weight comparisons)) /\
    -1 <= adv <= 1 /\
    predict_outcome self now opp league = Ok r /\
    Prediction.comparisons r = comparisons /\
    Prediction.advantage_score r = py_round adv 2 /\
    -1 <= Prediction.advantage_score r <= 1.
Proof.
  intros Hcollect Hne.
  pose proof (collect_comparisons_Forall _ _ _ _ _ _ Hcollect) as Hall.
  pose proof (collected_weights_pos _ _ _ _ _ _ Hcollect) as Hpos.
  assert (Hnn : Forall (fun c => 0 <= combined_weight c) comparisons).
  { eapply Forall_impl; [exact Hpos |]. simpl. intros; lra. }
  destruct (predict_outcome_rollup self now opp league comparisons Hcollect Hne)
    as (Hagg & _ & Hpred).
  split; [eapply Forall_impl; [exact Hall |]; simpl; tauto |].
  split; [apply Forall_forall; intros c _; apply advantage_score_refines |].
  split; [reflexivity |].
  eexists _, _. split; [exact Hagg |].
  split; [reflexivity |].
  split; [apply weighted_mean_unit; exact Hnn |].
  split; [exact Hpred |].
  simpl. split; [reflexivity |]. split; [reflexivity |].
  apply py_round_2_unit, weighted_mean_unit. exact Hnn.
Qed.

(** C3. When the comparison loop yields at least one but fewer than
    [min_shared_opponents] comparisons, [predict_outcome] returns a
    result whose outcome is UNCERTAIN and whose confidence is at most
    30.0, whatever the weighted roll-up is. *)
Theorem predict_outcome_minimum_evidence
    (self : TransitiveAnalyzer) (now : datetime) (opp : string) (league : option string)
    (comparisons : list SharedOpponentComparison) :
  collect_comparisons self now (find_shared_opponents self now opp league) opp league
    = Ok comparisons ->
  comparisons <> [] ->
  (Z.of_nat (length comparisons) < min_shared_opponents self)%Z ->
  exists r : PredictionResult,
    predict_outcome self now opp league = Ok r /\
    Prediction.comparisons r = comparisons /\
    Prediction.outcome r = "UNCERTAIN"%string /\
    Prediction.confidence r <= 30.
Proof.
  intros Hcollect Hne Hfew.
  destruct (predict_outcome_rollup self now opp league comparisons Hcollect Hne)
    as (_ & _ & Hpred).
  eexists. split; [exact Hpred |]. simpl.
  apply Z.ltb_lt in Hfew. rewrite Hfew.
  split; [reflexivity |]. split; [reflexivity |].
  apply py_round_0_le. unfold Rmin. destruct Rle_dec; lra.
Qed.

(** C4. When the comparison loop yields no comparison, [predict_outcome]
    does not raise: it returns advantage_score 0.0, confidence 0.0,
    outcome UNCERTAIN, no comparisons, and the direct head-to-head record
    exactly when that record has games_played > 0 (None otherwise). *)
Theorem predict_outcome_no_comparisons
    (self : TransitiveAnalyzer) (now : datetime) (opp : string) (league : option string) :
  collect_comparisons self now (find_shared_opponents self now opp league) opp league = Ok [] ->
  let h2h := get_head_to_head_record self now opp league in
  exists r : PredictionResult,
    predict_outcome self now opp league = Ok r /\
    Prediction.advantage_score r = 0 /\
    Prediction.confidence r = 0 /\
    Prediction.outcome r = "UNCERTAIN"%string /\
    Prediction.comparisons r = [] /\
    ((H2H.games_played h2h > 0)%Z -> Prediction.head_to_head r = Some h2h) /\
    (~ (H2H.games_played h2h > 0)%Z -> Prediction.head_to_head r = None).
Proof.
  intros Hcollect h2h.
  eexists. split; [apply predict_outcome_empty; exact Hcollect |]. simpl.
  fold h2h.
  split; [lra |]. split; [lra |]. split; [reflexivity |]. split; [reflexivity |].
  destruct (Z.gtb_spec (H2H.games_played h2h) 0); split; intros; (reflexivity || lia).
Qed.

(** C7. With n >= 1 comparisons the confidence computed by
    [predict_outcome] before the minimum-evidence guard and before rounding
    is base_confidence × consistency_factor × 100, where base_confidence is
    min(n / 4.0, 1.0) and consistency_factor is 0.7 for n = 1 and otherwise
    max(0.5, 1.0 − variance), the variance being the mean squared deviation
    of the comparison scores from the aggregate advantage score; it lies in
    [0, 100], and so does the confidence of the result. *)
Theorem predict_outcome_confidence
    (self : TransitiveAnalyzer) (now : datetime) (opp : string) (league : option string)
    (comparisons : list SharedOpponentComparison) :
  collect_comparisons self now (find_shared_opponents self now opp league) opp league
    = Ok comparisons ->
  comparisons <> [] ->
  let n := length comparisons in
  exists (adv conf : float) (r : PredictionResult),
    aggregate_advantage comparisons = Ok adv /\
    raw_confidence comparisons adv = Ok conf /\
    conf = Rmin (INR n / 4.0) 1.0
           * (if Nat.eqb n 1 then 0.7
              else Rmax 0.5
                     (1.0 - Rsum (List.map (fun c => (spec_advantage_score c - adv) ^ 2)
                                           comparisons) / INR n))
           * 100 /\
    0 <= conf <= 100 /\
    predict_outcome self now opp league = Ok r /\
    Prediction.comparisons r = comparisons /\
    Prediction.confidence r =
      py_round (if (Z.of_nat n <? min_shared_opponents self)%Z then Rmin conf 30.0 else conf) 0 /\
    0 <= Prediction.confidence r <= 100.
Proof.
  intros Hcollect Hne n.
  destruct (predict_outcome_rollup self now opp league comparisons Hcollect Hne)
    as (Hagg & Hconf & Hpred).
  pose proof (spec_confidence_range (weighted_mean comparisons) comparisons Hne) as Hrange.
  eexists _, _, _. split; [exact Hagg |]. split; [exact Hconf |].
  split; [reflexivity |]. split; [exact Hrange |]. split; [exact Hpred |]. simpl.
  split; [reflexivity |]. split; [reflexivity |].
  fold n. destruct (Z.of_nat n <? min_shared_opponents self)%Z.
  - split; [apply py_round_0_ge | apply py_round_0_le];
      unfold Rmin; destruct Rle_dec; lra.
  - split; [apply py_round_0_ge | apply py_round_0_le]; lra.
Qed.

End PredictionTheorems.

(** ** The head-to-head record is a frame of the prediction *)

Section FrameFacts.

Variable self : TransitiveAnalyzer.
Variable now : datetime.
Variables s1 s2 : AllGamesStore.
Variable opp : string.
Variable league : option string.
Hypothesis Hsame : same_shared_evidence (our_team self) opp s1 s2.

Lemma find_shared_opponents_same_evidence :
  find_shared_opponents (with_store self s1) now opp league
  = find_shared_opponents (with_store self s2) now opp league.
Proof.
  apply (StronglySorted_unique String.le);
    try apply find_shared_opponents_sorted.
  apply NoDup_Permutation; try apply find_shared_opponents_NoDup.
  intros x. rewrite !elem_of_find_shared_opponents. simpl.
  destruct Hsame as [Hopp _].
  split; intros (Ho & Ht & Hk); (split; [| split]); try exact Hk.
  - apply (Hopp _ _ _ x Hk), Ho.
  - apply (Hopp _ _ _ x Hk), Ht.
  - apply (Hopp _ _ _ x Hk), Ho.
  - apply (Hopp _ _ _ x Hk), Ht.
Qed.

Lemma build_team_record_same_evidence (team x : string) :
  keeps (lower (our_team self)) (lower opp) x = true ->
  _build_team_record (with_store self s1) now team x league
  = _build_team_record (with_store self s2) now team x league.
Proof.
  intros Hk. unfold _build_team_record. simpl.
  destruct Hsame as [_ Hh2h]. rewrite (Hh2h team league _ x Hk). reflexivity.
Qed.

Lemma get_comparative_performance_same_evidence (x : string) :
  keeps (lower (our_team self)) (lower opp) x = true ->
  get_comparative_performance (with_store self s1) now x opp league
  = get_comparative_performance (with_store self s2) now x opp league.
Proof.
  intros Hk. unfold get_comparative_performance. cbv zeta.
  change (our_team (with_store self s1)) with (our_team self).
  change (our_team (with_store self s2)) with (our_team self).
  rewrite !(build_team_record_same_evidence _ x Hk). reflexivity.
Qed.

Lemma collect_comparisons_same_evidence (shared : list string) :
  Forall (fun x => keeps (lower (our_team self)) (lower opp) x = true) shared ->
  collect_comparisons (with_store self s1) now shared opp league
  = collect_comparisons (with_store self s2) now shared opp league.
Proof.
  induction 1 as [| x rest Hk _ IH]; simpl; [reflexivity |].
  rewrite (get_comparative_performance_same_evidence x Hk), IH. reflexivity.
Qed.

Lemma shared_opponents_kept (s : AllGamesStore) :
  Forall (fun x => keeps (lower (our_team self)) (lower opp) x = true)
         (find_shared_opponents (with_store self s) now opp league).
Proof.
  apply Forall_forall. intros x Hx.
  apply elem_of_find_shared_opponents in Hx. simpl in Hx. tauto.
Qed.

Lemma predict_outcome_same_evidence :
  without_head_to_head <$> predict_outcome (with_store self s1) now opp league
  = without_head_to_head <$> predict_outcome (with_store self s2) now opp league.
Proof.
  unfold predict_outcome. cbv zeta.
  rewrite <- find_shared_opponents_same_evidence.
  rewrite <- (collect_comparisons_same_evidence _ (shared_opponents_kept s1)).
  destruct (collect_comparisons (with_store self s1) now _ opp league) as [[| c cs] | e];
    simpl; [reflexivity | | reflexivity].
  destruct (aggregate_advantage (c :: cs)) as [adv | e]; simpl; [| reflexivity].
  destruct (raw_confidence (c :: cs) adv) as [conf | e]; simpl; reflexivity.
Qed.

End FrameFacts.

Lemma predict_outcome_without_comparisons
    (self : TransitiveAnalyzer) (now : datetime) (opp : string) (league : option string)
    (r : PredictionResult) :
  predict_outcome self now opp league = Ok r ->
  Prediction.comparisons r = [] ->
  Prediction.outcome r = "UNCERTAIN"%string /\
  Prediction.advantage_score r = 0%R /\
  Prediction.confidence r = 0%R /\
  Prediction.head_to_head r =
    (if (H2H.games_played (get_head_to_head_record self now opp league) >? 0)%Z
     then Some (get_head_to_head_record self now opp league) else None).
Proof.
  intros Hpred Hnil.
  destruct (collect_comparisons self now (find_shared_opponents self now opp league) opp league)
    as [[| c cs] | e] eqn:Hcollect.
  - rewrite (predict_outcome_empty _ _ _ _ Hcollect) in Hpred.
    injection Hpred as <-. simpl. repeat split; lra.
  - destruct (predict_outcome_rollup self now opp league (c :: cs) Hcollect ltac:(discriminate))
      as (_ & _ & Hroll).
    rewrite Hroll in Hpred. injection Hpred as <-. simpl in Hnil. discriminate.
  - unfold predict_outcome in Hpred. cbv zeta in Hpred. rewrite Hcollect in Hpred.
    discriminate.
Qed.


(** ** Recency weights and malformed dates *)

Section RecencyFacts.
Local Open Scope R_scope.

Lemma ln_half_neg : ln 0.5 < 0.
Proof. rewrite <- ln_1. apply ln_increasing; lra. Qed.

(** The weight of a game that is not in the future, for a positive
    half-life, lies in (0, 1]. *)
Lemma Rpower_half_unit (days half_life : Z) :
  (0 <= days)%Z -> (0 < half_life)%Z ->
  0 < Rpower 0.5 (IZR days / IZR half_life) <= 1.
Proof.
  intros Hd Hh. split; [apply Rpower_half_pos |].
  unfold Rpower. rewrite <- exp_0.
  apply IZR_le in Hd. apply IZR_lt in Hh.
  assert (Hq : 0 <= IZR days / IZR half_life).
  { apply Rmult_le_pos; [exact Hd | apply Rlt_le, Rinv_0_lt_compat, Hh]. }
  pose proof ln_half_neg as Hln.
  destruct (Req_dec (IZR days / IZR half_life * ln 0.5) 0) as [-> | Hne]; [lra |].
  apply Rlt_le, exp_increasing. nra.
Qed.

(** The weight of a game dated after [now] exceeds 1. *)
Lemma Rpower_half_future (days half_life : Z) :
  (days < 0)%Z -> (0 < half_life)%Z ->
  1 < Rpower 0.5 (IZR days / IZR half_life).
Proof.
  intros Hd Hh. unfold Rpower. rewrite <- exp_0.
  apply IZR_lt in Hd, Hh.
  assert (Hq : IZR days / IZR half_life < 0).
  { unfold Rdiv. pose proof (Rinv_0_lt_compat _ Hh). nra. }
  pose proof ln_half_neg as Hln.
  apply exp_increasing. nra.
Qed.

Lemma strptime_raises (s : string) (e : exn) : strptime s = Raise e -> e = ValueError.
Proof.
  unfold strptime. destruct (parse_ymd s) as [[[y m] d] |]; [| congruence].
  destruct (_ && _); congruence.
Qed.

Lemma count_game_with_date (tl d : string) (acc acc' : TeamRecord) (g : Game) :
  wins acc' = wins acc -> losses acc' = losses acc -> ties acc' = ties acc ->
  goals_for acc' = goals_for acc -> goals_against acc' = goals_against acc ->
  let r := count_game tl acc g in
  let r' := count_game tl acc' (with_date d g) in
  wins r' = wins r /\ losses r' = losses r /\ ties r' = ties r /\
  goals_for r' = goals_for r /\ goals_against r' = goals_against r.
Proof.
  intros Hw Hl Ht Hf Ha. cbv zeta. unfold count_game. simpl.
  destruct (is_played (metadata g)); simpl; [| auto].
  rewrite Hw, Hl, Ht, Hf, Ha. auto.
Qed.

Lemma fold_count_game_with_date (tl : string) (f : Game -> string) (rows : list Game)
    (acc acc' : TeamRecord) :
  wins acc' = wins acc -> losses acc' = losses acc -> ties acc' = ties acc ->
  goals_for acc' = goals_for acc -> goals_against acc' = goals_against acc ->
  let r := fold_left (count_game tl) rows acc in
  let r' := fold_left (count_game tl) (List.map (fun g => with_date (f g) g) rows) acc' in
  wins r' = wins r /\ losses r' = losses r /\ ties r' = ties r /\
  goals_for r' = goals_for r /\ goals_against r' = goals_against r.
Proof.
  revert acc acc'. induction rows as [| g rows IH]; intros acc acc' Hw Hl Ht Hf Ha; cbv zeta.
  - simpl. auto.
  - simpl.
    destruct (count_game_with_date tl (f g) acc acc' g Hw Hl Ht Hf Ha) as (H1 & H2 & H3 & H4 & H5).
    apply IH; assumption.
Qed.

Lemma collect_comparisons_raises
    (self : TransitiveAnalyzer) (now : datetime) (opp : string) (league : option string)
    (shared : list string) (x : string) (e : exn) :
  x ∈ shared ->
  get_comparative_performance self now x opp league = Raise e ->
  exists e', collect_comparisons self now shared opp league = Raise e'.
Proof.
  intros Hx Hraise. induction shared as [| s rest IH]; [inversion Hx |].
  simpl.
  destruct (get_comparative_performance self now s opp league) as [c | e0] eqn:Hs; simpl;
    [| eauto].
  apply elem_of_cons in Hx. destruct Hx as [-> | Hin]; [congruence |].
  destruct (IH Hin) as [e' ->]. simpl. eauto.
Qed.

(** What [get_comparative_performance] does with the dates of the
    rows. *)
Lemma get_comparative_performance_cases
    (self : TransitiveAnalyzer) (now : datetime) (shared opp : string) (league : option string) :
  let ours := _build_team_record self now (our_team self) shared league in
  let theirs := _build_team_record self now opp shared league in
  let result := get_comparative_performance self now shared opp league in
  match List.map (fun g => date (metadata g)) (games ours ++ games theirs) with
  | [] =>
      result = Ok {| opponent := shared; our_record := ours; their_record := theirs;
                     recency_weight := 0.5 |}
  | d :: ds =>
      match strptime (py_max d ds) with
      | Raise _ => result = Raise ValueError
      | Ok game_dt =>
          if decide (recency_half_life_days self = 0%Z)
          then result = Raise ZeroDivisionError
          else result =
               Ok {| opponent := shared; our_record := ours; their_record := theirs;
                     recency_weight :=
                       Rpower 0.5 (IZR (toordinal now - toordinal game_dt)
                                   / IZR (recency_half_life_days self)) |}
      end
  end.
Proof.
  cbv zeta. unfold get_comparative_performance. cbv zeta.
  destruct (List.map _ _) as [| d ds]; [reflexivity |].
  unfold _calculate_recency_weight.
  destruct (strptime (py_max d ds)) as [dt | e] eqn:Hp; simpl.
  - unfold truediv. destruct (decide (recency_half_life_days self = 0%Z)); reflexivity.
  - apply strptime_raises in Hp. subst e. reflexivity.
Qed.

End RecencyFacts.



(** C6 at a failing input: when the latest played row is dated the day
    after [now], the comparison is built with a recency weight above 1. *)
Lemma recency_weight_above_one :
  exists c : SharedOpponentComparison,
    get_comparative_performance (with_store example_analyzer future_store)
      example_now "BDE" "Purple Crew" None = Ok c /\
    recency_weight c = Rpower 0.5 (IZR (-1) / IZR 365) /\
    (1 < recency_weight c)%R.
Proof.
  eexists. split; [reflexivity |]. cbn [recency_weight]. split; [reflexivity |].
  apply (Rpower_half_future (-1) 365); lia.
Qed.

(** ** Dates written by [strftime] are read back by [strptime] *)

Section DateRoundTrip.
Local Open Scope Z_scope.

(** A property of the integers from 0 to [hi], checked one by one. *)
Lemma forall_upto (P : Z -> Prop) (hi : nat) :
  List.Forall P (List.map Z.of_nat (seq 0 (S hi))) ->
  forall n, 0 <= n <= Z.of_nat hi -> P n.
Proof.
  intros Hall n Hn. rewrite List.Forall_forall in Hall. apply Hall.
  apply in_map_iff. exists (Z.to_nat n). split; [lia |]. apply in_seq. lia.
Qed.

Lemma digit_char_spec (n : Z) :
  0 <= n <= 9 -> is_digit (digit_char n) = true /\ digit (digit_char n) = n.
Proof.
  apply (forall_upto (fun k => is_digit (digit_char k) = true /\ digit (digit_char k) = k) 9).
  repeat (apply List.Forall_cons; [split; reflexivity |]). apply List.Forall_nil.
Qed.

Lemma parse_Y_strftime (y : Z) (rest : string) :
  0 <= y <= 9999 ->
  parse_Y (two_digits (y / 100) ++ two_digits (y mod 100) ++ rest) = Some (y, rest).
Proof.
  intros Hy. unfold two_digits. cbv [append]. unfold parse_Y.
  assert (H1 : 0 <= y / 100 / 10 <= 9) by (Z.div_mod_to_equations; lia).
  assert (H2 : 0 <= (y / 100) mod 10 <= 9) by (Z.div_mod_to_equations; lia).
  assert (H3 : 0 <= (y mod 100) / 10 <= 9) by (Z.div_mod_to_equations; lia).
  assert (H4 : 0 <= (y mod 100) mod 10 <= 9) by (Z.div_mod_to_equations; lia).
  destruct (digit_char_spec _ H1) as [-> ->].
  destruct (digit_char_spec _ H2) as [-> ->].
  destruct (digit_char_spec _ H3) as [-> ->].
  destruct (digit_char_spec _ H4) as [-> ->].
  simpl andb. cbv iota. f_equal. f_equal. clear H1 H2 H3 H4. Z.div_mod_to_equations. lia.
Qed.

Lemma parse_m_strftime (m : Z) (rest : string) :
  1 <= m <= 12 -> parse_m (two_digits m ++ rest) = Some (m, rest).
Proof.
  intros Hm. replace m with (m - 1 + 1) by lia.
  apply (forall_upto
           (fun k => parse_m (two_digits (k + 1) ++ rest) = Some (k + 1, rest)) 11);
    [| lia].
  repeat (apply List.Forall_cons; [reflexivity |]). apply List.Forall_nil.
Qed.

Lemma parse_d_strftime (d : Z) :
  1 <= d <= 31 -> parse_d (two_digits d) = Some (d, EmptyString).
Proof.
  intros Hd. replace d with (d - 1 + 1) by lia.
  apply (forall_upto (fun k => parse_d (two_digits (k + 1)) = Some (k + 1, EmptyString)) 30);
    [| lia].
  repeat (apply List.Forall_cons; [reflexivity |]). apply List.Forall_nil.
Qed.

Lemma expect_dash_append (rest : string) : expect_dash ("-" ++ rest) = Some rest.
Proof. reflexivity. Qed.

Lemma days_in_month_le_31 (y m : Z) : _days_in_month y m <= 31.
Proof.
  unfold _days_in_month. destruct (_ && _); [lia |].
  destruct (Z.to_nat m) as [| [| [| [| [| [| [| [| [| [| [| [| [| k]]]]]]]]]]]]];
    simpl; try lia.
  destruct k; simpl; lia.
Qed.

(** [strptime(d.strftime("%Y-%m-%d"), "%Y-%m-%d") == d] for every valid
    date [d]. *)
Lemma strptime_strftime (d : datetime) : valid_date d -> strptime (strftime d) = Ok d.
Proof.
  intros (Hy & Hm & Hd). destruct d as [y m dd]. simpl in Hy, Hm, Hd.
  pose proof (days_in_month_le_31 y m) as H31.
  unfold strptime, parse_ymd, strftime. simpl year; simpl month; simpl day.
  rewrite parse_Y_strftime by lia.
  rewrite expect_dash_append.
  rewrite parse_m_strftime by lia.
  rewrite expect_dash_append.
  rewrite parse_d_strftime by lia.
  destruct (Z.leb_spec 1 y); [| lia].
  destruct (Z.leb_spec dd (_days_in_month y m)); [| lia].
  reflexivity.
Qed.

(** The row stored for a scraped game with a valid date has a date that
    parses. *)
Lemma to_metadata_date_parses (raw : RawGame) (gid doc : string) :
  valid_date (RawGame.date raw) ->
  date_parses {| game_id := gid; document := doc; metadata := to_metadata raw |} = true.
Proof.
  intros Hv. unfold date_parses.
  change (date (metadata {| game_id := gid; document := doc; metadata := to_metadata raw |}))
    with (strftime (RawGame.date raw)).
  rewrite (strptime_strftime _ Hv). reflexivity.
Qed.

End DateRoundTrip.

(** ** The comparison loop returns on well-formed stores *)

Section Totality.

Variable self : TransitiveAnalyzer.
Variable now : datetime.
Hypothesis Hhalf : recency_half_life_days self <> 0%Z.
Hypothesis Hdates : dates_parse (store self).

Lemma py_max_elem (d : string) (ds : list string) : py_max d ds ∈ d :: ds.
Proof.
  unfold py_max. revert d. induction ds as [| x ds IH]; intros d; simpl.
  - apply list_elem_of_here.
  - destruct (String.ltb d x).
    + apply list_elem_of_further, IH.
    + specialize (IH d). apply elem_of_cons in IH. destruct IH as [-> | Hin].
      * apply list_elem_of_here.
      * apply list_elem_of_further, list_elem_of_further, Hin.
Qed.

Lemma build_team_record_games_parse (team x : string) (league : option string) (g : Game) :
  g ∈ games (_build_team_record self now team x league) -> date_parses g = true.
Proof.
  intros Hg.
  pose proof (fold_count_game team
                (get_head_to_head (store self) team x league (Some (_get_date_cutoff self now)))
                empty_record) as H.
  cbn zeta in H. destruct H as (Hgames & _).
  unfold _build_team_record, fold_team_record in Hg. rewrite Hgames in Hg. simpl in Hg.
  apply list_elem_of_In, filter_In in Hg. destruct Hg as [Hin _].
  apply list_elem_of_In in Hin. eapply Hdates, Hin.
Qed.

Lemma get_comparative_performance_returns (x opp : string) (league : option string) :
  exists c, get_comparative_performance self now x opp league = Ok c.
Proof.
  pose proof (get_comparative_performance_cases self now x opp league) as Hcases.
  cbv zeta in Hcases.
  destruct (List.map _ _) as [| d ds] eqn:Hmap; [eauto |].
  assert (Hin : py_max d ds ∈ List.map (fun g => date (metadata g))
                  (games (_build_team_record self now (our_team self) x league)
                   ++ games (_build_team_record self now opp x league))).
  { rewrite Hmap. apply py_max_elem. }
  apply list_elem_of_In, in_map_iff in Hin. destruct Hin as (g & Hdate & Hg).
  assert (Hparse : date_parses g = true).
  { apply in_app_or in Hg. destruct Hg as [Hg | Hg];
      apply list_elem_of_In in Hg; eapply build_team_record_games_parse; exact Hg. }
  unfold date_parses in Hparse. rewrite Hdate in Hparse.
  destruct (strptime (py_max d ds)) as [dt | e]; [| discriminate].
  destruct (decide (recency_half_life_days self = 0%Z)); [contradiction | eauto].
Qed.

Lemma collect_comparisons_returns (shared : list string) (opp : string) (league : option string) :
  exists comparisons, collect_comparisons self now shared opp league = Ok comparisons.
Proof.
  induction shared as [| x rest [cs IH]]; simpl; [eauto |].
  destruct (get_comparative_performance_returns x opp league) as [c ->]. simpl.
  rewrite IH. simpl. destruct (_ && _); eauto.
Qed.

(** With a non-zero half-life and dates that parse, [predict_outcome]
    returns a result for every opponent. *)
Lemma predict_outcome_returns (opp : string) (league : option string) :
  exists r, predict_outcome self now opp league = Ok r.
Proof.
  destruct (collect_comparisons_returns (find_shared_opponents self now opp league) opp league)
    as [[| c cs] Hcollect].
  - rewrite (predict_outcome_empty _ _ _ _ Hcollect). eauto.
  - destruct (predict_outcome_rollup self now opp league (c :: cs) Hcollect ltac:(discriminate))
      as (_ & _ & ->). eauto.
Qed.

End Totality.

(** ** The theorems at the example store state *)

Lemma example_shared_opponents :
  find_shared_opponents example_analyzer example_now "Purple Crew" None = ["BDE"%string].
Proof. vm_compute. reflexivity. Qed.

Lemma predict_outcome_weighted_mean_witness :
  collect_comparisons example_analyzer example_now
    (find_shared_opponents example_analyzer example_now "Purple Crew" None) "Purple Crew" None
  = Ok [example_comparison] /\
  Forall qualifying [example_comparison] /\
  exists (adv : float) (r : PredictionResult),
    aggregate_advantage [example_comparison] = Ok adv /\
    adv = (if Req_dec_T (Rsum (List.map combined_weight [example_comparison])) 0 then 0
           else Rsum (List.map (fun c => spec_advantage_score c * combined_weight c)
                               [example_comparison])
                / Rsum (List.map combined_weight [example_comparison]))%R /\
    (-1 <= adv <= 1)%R /\
    predict_outcome example_analyzer example_now "Purple Crew" None = Ok r /\
    Prediction.comparisons r = [example_comparison] /\
    Prediction.advantage_score r = py_round adv 2 /\
    (-1 <= Prediction.advantage_score r <= 1)%R.
Proof.
  split; [reflexivity |].
  destruct (predict_outcome_weighted_mean example_analyzer example_now "Purple Crew" None
              [example_comparison]) as (Hq & _ & _ & Hex).
  - reflexivity.
  - discriminate.
  - split; [exact Hq | exact Hex].
Defined.

Lemma predict_outcome_minimum_evidence_witness :
  collect_comparisons example_analyzer example_now
    (find_shared_opponents example_analyzer example_now "Purple Crew" None) "Purple Crew" None
  = Ok [example_comparison] /\
  (Z.of_nat (length [example_comparison]) < min_shared_opponents example_analyzer)%Z /\
  exists r : PredictionResult,
    predict_outcome example_analyzer example_now "Purple Crew" None = Ok r /\
    Prediction.comparisons r = [example_comparison] /\
    Prediction.outcome r = "UNCERTAIN"%string /\
    (Prediction.confidence r <= 30)%R.
Proof.
  split; [reflexivity |]. split; [simpl; lia |].
  apply (predict_outcome_minimum_evidence example_analyzer example_now "Purple Crew" None
           [example_comparison]).
  - reflexivity.
  - discriminate.
  - simpl. lia.
Defined.

Lemma predict_outcome_no_comparisons_witness :
  collect_comparisons example_analyzer example_now
    (find_shared_opponents example_analyzer example_now "Sharks" None) "Sharks" None = Ok [] /\
  H2H.games_played (get_head_to_head_record example_analyzer example_now "Sharks" None) = 3%Z /\
  exists r : PredictionResult,
    predict_outcome example_analyzer example_now "Sharks" None = Ok r /\
    Prediction.advantage_score r = 0%R /\
    Prediction.confidence r = 0%R /\
    Prediction.outcome r = "UNCERTAIN"%string /\
    Prediction.comparisons r = [] /\
    ((H2H.games_played (get_head_to_head_record example_analyzer example_now "Sharks" None) > 0)%Z ->
     Prediction.head_to_head r
     = Some (get_head_to_head_record example_analyzer example_now "Sharks" None)) /\
    (~ (H2H.games_played (get_head_to_head_record example_analyzer example_now "Sharks" None) > 0)%Z ->
     Prediction.head_to_head r = None).
Proof.
  split; [reflexivity |]. split; [reflexivity |].
  apply (predict_outcome_no_comparisons example_analyzer example_now "Sharks" None).
  reflexivity.
Defined.

Lemma predict_outcome_confidence_witness :
  collect_comparisons example_analyzer example_now
    (find_shared_opponents example_analyzer example_now "Purple Crew" None) "Purple Crew" None
  = Ok [example_comparison] /\
  exists (adv conf : float) (r : PredictionResult),
    aggregate_advantage [example_comparison] = Ok adv /\
    raw_confidence [example_comparison] adv = Ok conf /\
    conf = (Rmin (INR 1 / 4.0) 1.0
            * (if Nat.eqb 1 1 then 0.7
               else Rmax 0.5
                      (1.0 - Rsum (List.map (fun c => (spec_advantage_score c - adv) ^ 2)
                                            [example_comparison]) / INR 1))
            * 100)%R /\
    (0 <= conf <= 100)%R /\
    predict_outcome example_analyzer example_now "Purple Crew" None = Ok r /\
    Prediction.comparisons r = [example_comparison] /\
    Prediction.confidence r =
      py_round (if (Z.of_nat 1 <? min_shared_opponents example_analyzer)%Z
                then Rmin conf 30.0 else conf) 0 /\
    (0 <= Prediction.confidence r <= 100)%R.
Proof.
  split; [reflexivity |].
  apply (predict_outcome_confidence example_analyzer example_now "Purple Crew" None
           [example_comparison]).
  - reflexivity.
  - discriminate.
Defined.

Lemma example_same_shared_evidence :
  same_shared_evidence "Key West FC" "Purple Crew" example_store example_store_no_direct.
Proof.
  split; intros team league after x Hk.
  - assert (Hx1 : x ≠ "Purple Crew"%string)
      by (intros ->; vm_compute in Hk; discriminate).
    assert (Hx2 : x ≠ "Key West FC"%string)
      by (intros ->; vm_compute in Hk; discriminate).
    clear Hk. simpl.
    repeat destruct (String.eqb team _); rewrite !list_elem_of_In; simpl;
      intuition congruence.
  - assert (Hx : String.eqb x "Purple Crew" = false).
    { destruct (String.eqb_spec x "Purple Crew") as [-> | _]; [| reflexivity].
      vm_compute in Hk. discriminate. }
    simpl. rewrite Hx, andb_false_r. reflexivity.
Defined.


(** Scenario A of the specification: two wins (3-0, 2-1) against a loss
    and a tie (0-1, 1-1) give a positive advantage. *)
Example scenario_favorable_direction :
  let ours := _build_team_record example_analyzer example_now "Key West FC" "BDE" None in
  let theirs := _build_team_record example_analyzer example_now "Purple Crew" "BDE" None in
  (wins ours = 2 /\ goal_diff ours = 4 /\
   wins theirs = 0 /\ losses theirs = 1 /\ ties theirs = 1 /\ goal_diff theirs = -1)%Z /\
  advantage_score example_comparison = Ok (0.875 * Rpower 0.5 (IZR 10 / IZR 365))%R /\
  (0 < 0.875 * Rpower 0.5 (IZR 10 / IZR 365))%R.
Proof.
  cbv zeta. split; [repeat split |]. split.
  - rewrite advantage_score_refines. f_equal.
    pose proof (Rpower_half_unit 10 365 ltac:(lia) ltac:(lia)) as [Hpos Hle].
    unfold spec_advantage_score. destruct (decide _) as [[H | H] | _]; [discriminate H .. |].
    unfold win_component, gd_component, win_rate, goal_diff_per_game, clamp.
    cbn [our_record their_record example_comparison wins ties recency_weight].
    repeat match goal with
           | |- context [IZR (games_played ?r)] =>
               let v := eval vm_compute in (games_played r) in
               change (games_played r) with v
           | |- context [IZR (goal_diff ?r)] =>
               let v := eval vm_compute in (goal_diff r) in
               change (goal_diff r) with v
           end.
    set (w := Rpower 0.5 (IZR 10 / IZR 365)) in *.
    unfold Rmax, Rmin. repeat destruct Rle_dec; nra.
  - pose proof (Rpower_half_pos (IZR 10 / IZR 365)). lra.
Qed.

(** Scenario C of the specification: a most recent game exactly 365 days
    old with a half-life of 365 days weighs 0.5. *)
Example scenario_half_life :
  _calculate_recency_weight example_analyzer example_now "2025-11-04"
  = Ok (Rpower 0.5 (IZR 365 / IZR 365)) /\
  Rpower 0.5 (IZR 365 / IZR 365) = 0.5%R.
Proof.
  split; [reflexivity |].
  replace (IZR 365 / IZR 365)%R with 1%R by (field; lra).
  apply Rpower_1. lra.
Qed.

(** * Further properties of the analyzer *)

(** ** What a returned prediction is made of *)

Section PredictionShape.
Local Open Scope R_scope.

Variable self : TransitiveAnalyzer.
Variable now : datetime.

Lemma round_half_even_IZR (k : Z) : round_half_even (IZR k) = k.
Proof.
  unfold round_half_even. rewrite ZfloorZ.
  replace (IZR k - IZR k) with 0 by lra.
  destruct (Rlt_dec 0 (1 / 2)); [reflexivity | lra].
Qed.

Lemma py_round_0_IZR (k : Z) : py_round (IZR k) 0 = IZR k.
Proof.
  unfold py_round. simpl pow. rewrite Rmult_1_r, round_half_even_IZR. lra.
Qed.

Lemma classify_label (adv : float) : is_outcome_label (classify adv).
Proof.
  unfold classify, is_outcome_label.
  destruct Rlt_dec; [auto |]. destruct Rgt_dec; auto.
Qed.

(** Every returned prediction comes from a completed comparison loop and
    is one of two records. *)
Lemma predict_outcome_inv (opp : string) (league : option string) (r : PredictionResult) :
  predict_outcome self now opp league = Ok r ->
  exists comps,
    collect_comparisons self now (find_shared_opponents self now opp league) opp league
      = Ok comps /\
    Prediction.our_team r = our_team self /\
    Prediction.opponent r = opp /\
    Prediction.comparisons r = comps /\
    Prediction.league_filter r = league /\
    Prediction.time_window_days r = time_window_days self /\
    Prediction.head_to_head r =
      (if (H2H.games_played (get_head_to_head_record self now opp league) >? 0)%Z
       then Some (get_head_to_head_record self now opp league) else None) /\
    (comps = [] ->
     Prediction.advantage_score r = 0 /\ Prediction.confidence r = 0 /\
     Prediction.outcome r = "UNCERTAIN"%string) /\
    (comps <> [] ->
     let adv := weighted_mean comps in
     let conf := spec_confidence adv comps in
     let guarded := (Z.of_nat (length comps) <? min_shared_opponents self)%Z in
     Prediction.advantage_score r = py_round adv 2 /\
     Prediction.confidence r = py_round (if guarded then Rmin conf 30.0 else conf) 0 /\
     Prediction.outcome r = (if guarded then "UNCERTAIN"%string else classify adv)).
Proof.
  intros Hpred.
  destruct (collect_comparisons self now (find_shared_opponents self now opp league) opp league)
    as [comps | e] eqn:Hcollect.
  - exists comps. split; [reflexivity |].
    destruct comps as [| c cs].
    + rewrite (predict_outcome_empty _ _ _ _ Hcollect) in Hpred. injection Hpred as <-.
      simpl. repeat split; try reflexivity; try lra; congruence.
    + destruct (predict_outcome_rollup self now opp league (c :: cs) Hcollect ltac:(discriminate))
        as (_ & _ & Hroll).
      rewrite Hroll in Hpred. injection Hpred as <-.
      simpl. repeat split; try reflexivity; discriminate.
  - unfold predict_outcome in Hpred. cbv zeta in Hpred. rewrite Hcollect in Hpred. discriminate.
Qed.

End PredictionShape.


Section ComparisonList.

Variable self : TransitiveAnalyzer.
Variable now : datetime.

Lemma StronglySorted_sublist {A : Type} (R : relation A) (l1 l2 : list A) :
  l1 `sublist_of` l2 -> StronglySorted R l2 -> StronglySorted R l1.
Proof.
  induction 1 as [| x l1 l2 Hsub IH | x l1 l2 Hsub IH]; intros Hsorted.
  - constructor.
  - apply StronglySorted_inv in Hsorted. destruct Hsorted as [Hs Hall].
    constructor; [apply IH, Hs |].
    apply Forall_forall. intros y Hy. rewrite Forall_forall in Hall.
    apply Hall. eapply elem_of_sublist; eassumption.
  - apply StronglySorted_inv in Hsorted. apply IH, Hsorted.
Qed.

Lemma collect_comparisons_sublist
    (shared : list string) (opp : string) (league : option string)
    (comps : list SharedOpponentComparison) :
  collect_comparisons self now shared opp league = Ok comps ->
  List.map opponent comps `sublist_of` shared /\
  Forall (fun c =>
            our_record c = _build_team_record self now (our_team self) (opponent c) league /\
            their_record c = _build_team_record self now opp (opponent c) league) comps.
Proof.
  revert comps. induction shared as [| s rest IH]; intros comps; simpl.
  - intros [= <-]. split; constructor.
  - destruct (get_comparative_performance self now s opp league) as [c | e] eqn:Hc; simpl;
      [| discriminate].
    destruct (collect_comparisons self now rest opp league) as [cs | e]; simpl;
      [| discriminate].
    destruct (IH cs eq_refl) as [Hsub Hall].
    apply get_comparative_performance_ok in Hc. destruct Hc as (Hname & Ho & Ht & _).
    destruct (_ && _); intros [= <-].
    + split.
      * simpl. rewrite Hname. apply sublist_skip, Hsub.
      * constructor; [| exact Hall]. rewrite Hname. split; assumption.
    + split; [apply sublist_cons, Hsub | exact Hall].
Qed.

End ComparisonList.


(** ** The head-to-head record *)

Section HeadToHeadFacts.
Local Open Scope Z_scope.

Lemma count_h2h_game_as_team_record (tl : string) (h : HeadToHeadRecord) (g : Game) :
  h2h_as_team_record (count_h2h_game tl h g) = count_game tl (h2h_as_team_record h) g.
Proof.
  unfold count_h2h_game, count_game. destruct (negb _); reflexivity.
Qed.

Lemma fold_h2h_as_team_record (tl : string) (rows : list Game) (h : HeadToHeadRecord) :
  h2h_as_team_record (fold_left (count_h2h_game tl) rows h)
  = fold_left (count_game tl) rows (h2h_as_team_record h).
Proof.
  revert h. induction rows as [| g rows IH]; intros h; simpl; [reflexivity |].
  rewrite IH, count_h2h_game_as_team_record. reflexivity.
Qed.

End HeadToHeadFacts.

(** X3. The direct head-to-head record is the team record of our team
    against the opponent: [get_head_to_head_record] and
    [_build_team_record] aggregate the same rows to the same six fields.
    Hence its wins, losses and ties add up to the number of its games,
    which are the played rows of the query in order. *)
Theorem head_to_head_record_is_team_record
    (self : TransitiveAnalyzer) (now : datetime) (opp : string) (league : option string) :
  let h2h := get_head_to_head_record self now opp league in
  h2h_as_team_record h2h = _build_team_record self now (our_team self) opp league /\
  H2H.games h2h =
    List.filter played
      (get_head_to_head (store self) (our_team self) opp league
         (Some (_get_date_cutoff self now))) /\
  H2H.games_played h2h = Z.of_nat (length (H2H.games h2h)) /\
  H2H.goal_diff h2h = goal_diff (_build_team_record self now (our_team self) opp league).
Proof.
  cbv zeta.
  assert (Heq : h2h_as_team_record (get_head_to_head_record self now opp league)
                = _build_team_record self now (our_team self) opp league).
  { unfold get_head_to_head_record, _build_team_record, fold_team_record.
    rewrite fold_h2h_as_team_record. reflexivity. }
  pose proof (fold_count_game (our_team self)
                (get_head_to_head (store self) (our_team self) opp league
                   (Some (_get_date_cutoff self now))) empty_record) as H.
  cbn zeta in H. destruct H as (Hg & Hw & Hl & Ht & _).
  change (fold_left (count_game (lower (our_team self)))
            (get_head_to_head (store self) (our_team self) opp league
               (Some (_get_date_cutoff self now))) empty_record)
    with (_build_team_record self now (our_team self) opp league) in Hg, Hw, Hl, Ht.
  rewrite <- Heq in Hg, Hw, Hl, Ht. simpl in Hg, Hw, Hl, Ht.
  pose proof (count_trichotomy (our_team self)
                (List.filter played
                   (get_head_to_head (store self) (our_team self) opp league
                      (Some (_get_date_cutoff self now))))) as Htri.
  split; [exact Heq |]. split; [exact Hg |]. split.
  - unfold H2H.games_played. rewrite Hg, Hw, Hl, Ht. lia.
  - rewrite <- Heq. reflexivity.
Qed.

(** ** Outcome, score and confidence of a prediction *)

Section OutcomeFacts.
Local Open Scope R_scope.

Lemma py_round_2_ge (x : R) (k : Z) : IZR k / 100 <= x -> IZR k / 100 <= py_round x 2.
Proof.
  intros Hx. unfold py_round.
  assert (H100 : 10 ^ 2 = 100) by (simpl; lra). rewrite H100.
  assert (Hk : (k <= round_half_even (x * 100))%Z) by (apply round_half_even_ge; lra).
  apply IZR_le in Hk. lra.
Qed.

Lemma py_round_2_le (x : R) (k : Z) : x <= IZR k / 100 -> py_round x 2 <= IZR k / 100.
Proof.
  intros Hx. unfold py_round.
  assert (H100 : 10 ^ 2 = 100) by (simpl; lra). rewrite H100.
  assert (Hk : (round_half_even (x * 100) <= k)%Z) by (apply round_half_even_le; lra).
  apply IZR_le in Hk. lra.
Qed.

Lemma classify_favorable (adv : float) : classify adv = "FAVORABLE"%string <-> 0.15 <= adv.
Proof.
  unfold classify. destruct Rlt_dec as [Hlt | Hge].
  - split; [discriminate |]. intros H. unfold Rabs in Hlt. destruct Rcase_abs; lra.
  - destruct Rgt_dec as [Hpos | Hneg].
    + split; [| reflexivity]. intros _. unfold Rabs in Hge. destruct Rcase_abs; lra.
    + split; [discriminate | lra].
Qed.

Lemma classify_unfavorable (adv : float) : classify adv = "UNFAVORABLE"%string <-> adv <= -0.15.
Proof.
  unfold classify. destruct Rlt_dec as [Hlt | Hge].
  - split; [discriminate |]. intros H. unfold Rabs in Hlt. destruct Rcase_abs; lra.
  - destruct Rgt_dec as [Hpos | Hneg].
    + split; [discriminate |]. intros H. lra.
    + split; [| reflexivity]. intros _. unfold Rabs in Hge. destruct Rcase_abs; lra.
Qed.

Lemma classify_uncertain (adv : float) :
  classify adv = "UNCERTAIN"%string <-> -0.15 < adv < 0.15.
Proof.
  unfold classify. destruct Rlt_dec as [Hlt | Hge].
  - split; [| reflexivity]. intros _. unfold Rabs in Hlt. destruct Rcase_abs; lra.
  - destruct Rgt_dec as [Hpos | Hneg].
    + split; [discriminate |]. intros H. unfold Rabs in Hge. destruct Rcase_abs; lra.
    + split; [discriminate |]. intros H. unfold Rabs in Hge. destruct Rcase_abs; lra.
Qed.

End OutcomeFacts.

(** X4. The outcome label of a returned prediction agrees with the
    advantage score it reports: FAVORABLE comes with a score of at least
    0.15 and UNFAVORABLE with a score of at most -0.15, both only with at
    least [min_shared_opponents] comparisons; an UNCERTAIN result that has
    that many comparisons reports a score in [-0.15, 0.15]. *)
Theorem outcome_agrees_with_score
    (self : TransitiveAnalyzer) (now : datetime) (opp : string) (league : option string)
    (r : PredictionResult) :
  predict_outcome self now opp league = Ok r ->
  let n := Z.of_nat (length (Prediction.comparisons r)) in
  is_outcome_label (Prediction.outcome r) /\
  (Prediction.outcome r = "FAVORABLE"%string ->
   (0.15 <= Prediction.advantage_score r)%R /\ (min_shared_opponents self <= n)%Z /\ (1 <= n)%Z) /\
  (Prediction.outcome r = "UNFAVORABLE"%string ->
   (Prediction.advantage_score r <= -0.15)%R /\ (min_shared_opponents self <= n)%Z /\ (1 <= n)%Z) /\
  (Prediction.outcome r = "UNCERTAIN"%string -> (min_shared_opponents self <= n)%Z ->
   (-0.15 <= Prediction.advantage_score r <= 0.15)%R).
Proof.
  intros Hpred.
  destruct (predict_outcome_inv self now opp league r Hpred)
    as (comps & _ & _ & _ & Hcomps & _ & _ & _ & Hnil & Hcons).
  rewrite Hcomps. cbv zeta. destruct comps as [| c cs].
  - destruct (Hnil eq_refl) as (-> & _ & ->).
    split; [right; right; reflexivity |].
    split; [discriminate |]. split; [discriminate |]. intros _ _. lra.
  - destruct (Hcons ltac:(discriminate)) as (-> & _ & ->).
    assert (Hlen : (1 <= Z.of_nat (length (c :: cs)))%Z) by (simpl length; lia).
    destruct (Z.ltb_spec (Z.of_nat (length (c :: cs))) (min_shared_opponents self))
      as [Hfew | Henough].
    + split; [right; right; reflexivity |].
      split; [discriminate |]. split; [discriminate |]. intros _ Hge. lia.
    + split; [apply classify_label |].
      split; [| split].
      * intros Hf. apply classify_favorable in Hf.
        split; [| split; assumption].
        replace 0.15%R with (IZR 15 / 100)%R by lra. apply py_round_2_ge. lra.
      * intros Hu. apply classify_unfavorable in Hu.
        split; [| split; assumption].
        replace (-0.15)%R with (IZR (-15) / 100)%R by lra. apply py_round_2_le. lra.
      * intros Hu _. apply classify_uncertain in Hu. split.
        -- replace (-0.15)%R with (IZR (-15) / 100)%R by lra. apply py_round_2_ge. lra.
        -- replace 0.15%R with (IZR 15 / 100)%R by lra. apply py_round_2_le. lra.
Qed.

(** ** One comparison, and comparisons that agree *)

Section UnanimousFacts.
Local Open Scope R_scope.

Lemma weighted_sum_unanimous (s : R) (comps : list SharedOpponentComparison) :
  Forall (fun c => spec_advantage_score c = s) comps ->
  weighted_sum comps = s * weight_sum comps.
Proof.
  unfold weighted_sum, weight_sum. induction 1 as [| c cs Hc _ IH]; simpl; [lra |].
  rewrite IH, Hc. lra.
Qed.

Lemma weighted_mean_unanimous (s : R) (comps : list SharedOpponentComparison) :
  Forall (fun c => spec_advantage_score c = s) comps ->
  0 < weight_sum comps ->
  weighted_mean comps = s.
Proof.
  intros Hall Hpos. unfold weighted_mean.
  destruct Req_dec_T as [Hz | Hnz]; [lra |].
  rewrite (weighted_sum_unanimous s comps Hall). field. exact Hnz.
Qed.

Lemma variance_unanimous (s : R) (comps : list SharedOpponentComparison) :
  Forall (fun c => spec_advantage_score c = s) comps ->
  variance_around s comps = 0.
Proof.
  intros Hall. unfold variance_around.
  assert (Hz : Rsum (List.map (fun c => (spec_advantage_score c - s) ^ 2) comps) = 0).
  { unfold Rsum. induction Hall as [| c cs Hc _ IH]; cbn [List.map fold_right]; [reflexivity |].
    rewrite IH, Hc. lra. }
  rewrite Hz. unfold Rdiv. apply Rmult_0_l.
Qed.

Lemma py_round_half_18 : py_round (0.25 * 0.7 * 100) 0 = 18.
Proof.
  unfold py_round. simpl pow. rewrite Rmult_1_r.
  replace (0.25 * 0.7 * 100) with 17.5 by lra.
  unfold round_half_even.
  assert (Hf : Zfloor 17.5 = 17%Z) by (apply Zfloor_eq; lra).
  rewrite Hf.
  destruct (Rlt_dec (17.5 - 17) (1 / 2)) as [H | _]; [lra |].
  destruct (Rlt_dec (1 / 2) (17.5 - 17)) as [H | _]; [lra |].
  replace (if Z.even 17 then 17%Z else (17 + 1)%Z) with 18%Z by reflexivity. lra.
Qed.

End UnanimousFacts.



(** ** Recency weights *)

Section RecencyWeightFacts.
Local Open Scope R_scope.

Lemma Rpower_half_decreasing (x y : R) : x <= y -> Rpower 0.5 y <= Rpower 0.5 x.
Proof.
  intros Hxy. unfold Rpower. pose proof ln_half_neg as Hln.
  destruct (Req_dec (y * ln 0.5) (x * ln 0.5)) as [-> | Hne]; [lra |].
  apply Rlt_le, exp_increasing. nra.
Qed.

Lemma Rpower_half_succ (x : R) : Rpower 0.5 (x + 1) = Rpower 0.5 x / 2.
Proof. rewrite Rpower_plus, Rpower_1 by lra. lra. Qed.

Lemma calculate_recency_weight_value
    (self : TransitiveAnalyzer) (now : datetime) (game_date : string) (d : datetime) :
  strptime game_date = Ok d ->
  recency_half_life_days self <> 0%Z ->
  _calculate_recency_weight self now game_date
  = Ok (Rpower 0.5 (IZR (toordinal now - toordinal d) / IZR (recency_half_life_days self))).
Proof.
  intros Hd Hh. unfold _calculate_recency_weight. rewrite Hd. simpl.
  rewrite truediv_nonzero by exact Hh. reflexivity.
Qed.

End RecencyWeightFacts.



(** ** Exchanging the roles of the two teams *)

Section RoleSwap.
Local Open Scope R_scope.

Lemma keeps_comm (a b x : string) : keeps a b x = keeps b a x.
Proof. unfold keeps. apply andb_comm. Qed.

Lemma ltb_false_le (m x : string) : String.ltb m x = false -> String.le x m.
Proof.
  unfold String.ltb, String.le, String.leb. rewrite (String.compare_antisym x m).
  destruct (String.compare m x); simpl; try discriminate; intros _; exact I.
Qed.

Lemma ltb_true_le (m x : string) : String.ltb m x = true -> String.le m x.
Proof.
  unfold String.ltb, String.le, String.leb.
  destruct (String.compare m x); simpl; try discriminate; intros _; exact I.
Qed.

(** [py_max] returns an upper bound of the list. *)
Lemma py_max_upper (d : string) (ds : list string) :
  String.le d (py_max d ds) /\ forall x, x ∈ ds -> String.le x (py_max d ds).
Proof.
  unfold py_max. revert d. induction ds as [| y ds IH]; intros d; simpl.
  - split; [reflexivity |]. intros x Hx. inversion Hx.
  - destruct (String.ltb d y) eqn:Hlt.
    + destruct (IH y) as [Hy Hall]. split.
      * etransitivity; [apply ltb_true_le, Hlt | exact Hy].
      * intros x Hx. apply elem_of_cons in Hx. destruct Hx as [-> | Hx]; auto.
    + destruct (IH d) as [Hd Hall]. split; [exact Hd |].
      intros x Hx. apply elem_of_cons in Hx. destruct Hx as [-> | Hx]; [| auto].
      etransitivity; [apply ltb_false_le, Hlt | exact Hd].
Qed.

Lemma py_max_Permutation (d1 d2 : string) (ds1 ds2 : list string) :
  d1 :: ds1 ≡ₚ d2 :: ds2 -> py_max d1 ds1 = py_max d2 ds2.
Proof.
  intros Hperm.
  assert (Hbound : forall d ds x, x ∈ d :: ds -> String.le x (py_max d ds)).
  { intros d ds x Hx. destruct (py_max_upper d ds) as [Hd Hall].
    apply elem_of_cons in Hx. destruct Hx as [-> | Hx]; auto. }
  apply (anti_symm String.le).
  - apply Hbound. rewrite <- Hperm. apply py_max_elem.
  - apply Hbound. rewrite Hperm. apply py_max_elem.
Qed.

Variable self : TransitiveAnalyzer.
Variable now : datetime.
Variable opp : string.
Variable league : option string.

Lemma find_shared_opponents_swap :
  find_shared_opponents (with_our_team self opp) now (our_team self) league
  = find_shared_opponents self now opp league.
Proof.
  apply (StronglySorted_unique String.le);
    try apply find_shared_opponents_sorted.
  apply NoDup_Permutation; try apply find_shared_opponents_NoDup.
  intros x. rewrite !elem_of_find_shared_opponents. simpl.
  rewrite (keeps_comm (lower opp)). tauto.
Qed.

Lemma get_comparative_performance_swap (shared : string) :
  get_comparative_performance (with_our_team self opp) now shared (our_team self) league
  = swap_sides <$> get_comparative_performance self now shared opp league.
Proof.
  unfold get_comparative_performance. cbv zeta.
  change (our_team (with_our_team self opp)) with opp.
  change (_build_team_record (with_our_team self opp) now) with (_build_team_record self now).
  change (_calculate_recency_weight (with_our_team self opp) now)
    with (_calculate_recency_weight self now).
  set (ours := _build_team_record self now (our_team self) shared league).
  set (theirs := _build_team_record self now opp shared league).
  destruct (List.map (fun g => date (metadata g)) (games theirs ++ games ours))
    as [| d1 ds1] eqn:H1;
    destruct (List.map (fun g => date (metadata g)) (games ours ++ games theirs))
      as [| d2 ds2] eqn:H2.
  - reflexivity.
  - exfalso. rewrite List.map_app in H1, H2.
    apply app_eq_nil in H1. destruct H1 as [Ha Hb]. rewrite Ha, Hb in H2. discriminate.
  - exfalso. rewrite List.map_app in H1, H2.
    apply app_eq_nil in H2. destruct H2 as [Ha Hb]. rewrite Ha, Hb in H1. discriminate.
  - assert (Hperm : d1 :: ds1 ≡ₚ d2 :: ds2).
    { rewrite <- H1, <- H2, !List.map_app. apply Permutation_app_comm. }
    rewrite (py_max_Permutation d1 d2 ds1 ds2 Hperm).
    destruct (_calculate_recency_weight self now (py_max d2 ds2)); reflexivity.
Qed.

Lemma collect_comparisons_swap (shared : list string) :
  collect_comparisons (with_our_team self opp) now shared (our_team self) league
  = List.map swap_sides <$> collect_comparisons self now shared opp league.
Proof.
  induction shared as [| s rest IH]; simpl; [reflexivity |].
  rewrite get_comparative_performance_swap, IH.
  destruct (get_comparative_performance self now s opp league) as [c | e]; simpl;
    [| reflexivity].
  destruct (collect_comparisons self now rest opp league) as [cs | e]; simpl;
    [| reflexivity].
  rewrite andb_comm. destruct (_ && _); reflexivity.
Qed.

End RoleSwap.

Section SwapArithmetic.
Local Open Scope R_scope.

Lemma clamp_half_odd (x : R) : clamp (- x) (-0.5) 0.5 = - clamp x (-0.5) 0.5.
Proof. unfold clamp, Rmax, Rmin. repeat destruct Rle_dec; lra. Qed.

Lemma clamp_one_odd (x : R) : clamp (- x) (-1.0) 1.0 = - clamp x (-1.0) 1.0.
Proof. unfold clamp, Rmax, Rmin. repeat destruct Rle_dec; lra. Qed.

Lemma spec_advantage_score_swap (c : SharedOpponentComparison) :
  spec_advantage_score (swap_sides c) = - spec_advantage_score c.
Proof.
  unfold spec_advantage_score. simpl.
  destruct (decide (games_played (their_record c) = 0%Z ∨ games_played (our_record c) = 0%Z))
    as [H1 | H1];
    destruct (decide (games_played (our_record c) = 0%Z ∨ games_played (their_record c) = 0%Z))
      as [H2 | H2]; try tauto; [lra |].
  unfold win_component, gd_component. simpl.
  set (x := (goal_diff_per_game (our_record c) - goal_diff_per_game (their_record c)) / 5.0).
  replace ((goal_diff_per_game (their_record c) - goal_diff_per_game (our_record c)) / 5.0)
    with (- x) by (unfold x; lra).
  rewrite clamp_half_odd, <- clamp_one_odd.
  f_equal. lra.
Qed.

Lemma combined_weight_swap (c : SharedOpponentComparison) :
  combined_weight (swap_sides c) = combined_weight c.
Proof.
  unfold combined_weight, games_weight. simpl. rewrite Z.add_comm. reflexivity.
Qed.

Lemma weight_sum_swap (comps : list SharedOpponentComparison) :
  weight_sum (List.map swap_sides comps) = weight_sum comps.
Proof.
  unfold weight_sum. rewrite map_map. f_equal.
  apply map_ext. intros c. apply combined_weight_swap.
Qed.

Lemma Rsum_map_opp {A : Type} (f : A -> R) (l : list A) :
  Rsum (List.map (fun a => - f a) l) = - Rsum (List.map f l).
Proof.
  unfold Rsum. induction l as [| a l IH]; cbn [List.map fold_right]; [lra |].
  rewrite IH. lra.
Qed.

Lemma weighted_sum_swap (comps : list SharedOpponentComparison) :
  weighted_sum (List.map swap_sides comps) = - weighted_sum comps.
Proof.
  unfold weighted_sum. rewrite map_map, <- Rsum_map_opp. f_equal.
  apply map_ext. intros c. rewrite combined_weight_swap, spec_advantage_score_swap. lra.
Qed.

Lemma weighted_mean_swap (comps : list SharedOpponentComparison) :
  weighted_mean (List.map swap_sides comps) = - weighted_mean comps.
Proof.
  unfold weighted_mean. rewrite weight_sum_swap, weighted_sum_swap.
  destruct Req_dec_T; [lra |]. field. assumption.
Qed.

Lemma spec_confidence_swap (center : R) (comps : list SharedOpponentComparison) :
  spec_confidence (- center) (List.map swap_sides comps) = spec_confidence center comps.
Proof.
  unfold spec_confidence, consistency_factor, variance_around.
  rewrite length_map, map_map.
  assert (Hsq : List.map (fun c => (spec_advantage_score (swap_sides c) - - center) ^ 2) comps
                = List.map (fun c => (spec_advantage_score c - center) ^ 2) comps).
  { apply map_ext. intros c. rewrite spec_advantage_score_swap. simpl. lra. }
  rewrite Hsq. reflexivity.
Qed.

Lemma classify_neg (adv : float) : classify (- adv) = flip_outcome (classify adv).
Proof.
  unfold classify. rewrite Rabs_Ropp.
  destruct (Rlt_dec (Rabs adv) 0.15) as [Hlt | Hge]; [reflexivity |].
  assert (Hnz : adv <> 0).
  { intros ->. rewrite Rabs_R0 in Hge. lra. }
  destruct (Rgt_dec (- adv) 0); destruct (Rgt_dec adv 0); try reflexivity; lra.
Qed.

Lemma round_half_even_neg (x : R) : round_half_even (- x) = (- round_half_even x)%Z.
Proof.
  unfold round_half_even.
  pose proof (Zfloor_bound x) as [Hlo Hhi].
  destruct (Req_dec x (IZR (Zfloor x))) as [Hint | Hfrac].
  - assert (Hf : Zfloor (- x) = (- Zfloor x)%Z).
    { apply Zfloor_eq. rewrite opp_IZR. lra. }
    rewrite Hf, opp_IZR.
    destruct (Rlt_dec (- x - - IZR (Zfloor x)) (1 / 2)); [| lra].
    destruct (Rlt_dec (x - IZR (Zfloor x)) (1 / 2)); [reflexivity | lra].
  - assert (Hf : Zfloor (- x) = (- Zfloor x - 1)%Z).
    { apply Zfloor_eq. rewrite minus_IZR, opp_IZR. lra. }
    rewrite Hf, minus_IZR, opp_IZR.
    destruct (Rlt_dec (x - IZR (Zfloor x)) (1 / 2)) as [H1 | H1].
    + destruct (Rlt_dec (- x - (- IZR (Zfloor x) - 1)) (1 / 2)); [lra |].
      destruct (Rlt_dec (1 / 2) (- x - (- IZR (Zfloor x) - 1))); [lia | lra].
    + destruct (Rlt_dec (1 / 2) (x - IZR (Zfloor x))) as [H2 | H2].
      * destruct (Rlt_dec (- x - (- IZR (Zfloor x) - 1)) (1 / 2)); [lia | lra].
      * destruct (Rlt_dec (- x - (- IZR (Zfloor x) - 1)) (1 / 2)); [lra |].
        destruct (Rlt_dec (1 / 2) (- x - (- IZR (Zfloor x) - 1))); [lra |].
        replace (- Zfloor x - 1)%Z with (- (Zfloor x + 1))%Z by lia.
        rewrite Z.even_opp, Z.even_add. simpl.
        destruct (Z.even (Zfloor x)); simpl; lia.
Qed.

Lemma py_round_neg (x : R) (n : nat) : py_round (- x) n = - py_round x n.
Proof.
  unfold py_round.
  replace (- x * 10 ^ n) with (- (x * 10 ^ n)) by lra.
  rewrite round_half_even_neg, opp_IZR. unfold Rdiv. lra.
Qed.

End SwapArithmetic.

(** X9. Predicting the match-up from the other side mirrors the result:
    for the analyzer that tracks the opponent and predicts against our
    team, over the same store, [predict_outcome] raises exactly when ours
    does, and otherwise reports the negated advantage score, the same
    confidence, the outcome with FAVORABLE and UNFAVORABLE exchanged, and
    the same comparisons with the two records exchanged (the head-to-head
    field aside). *)
Theorem prediction_is_antisymmetric
    (self : TransitiveAnalyzer) (now : datetime) (opp : string) (league : option string) :
  without_head_to_head
    <$> predict_outcome (with_our_team self opp) now (our_team self) league
  = mirror <$> predict_outcome self now opp league.
Proof.
  assert (Hswap :
    collect_comparisons (with_our_team self opp) now
      (find_shared_opponents (with_our_team self opp) now (our_team self) league)
      (our_team self) league
    = List.map swap_sides
        <$> collect_comparisons self now (find_shared_opponents self now opp league) opp league).
  { rewrite find_shared_opponents_swap. apply collect_comparisons_swap. }
  destruct (collect_comparisons self now (find_shared_opponents self now opp league) opp league)
    as [[| c cs] | e] eqn:Hcollect; simpl in Hswap.
  - rewrite (predict_outcome_empty _ _ _ _ Hswap), (predict_outcome_empty _ _ _ _ Hcollect).
    simpl. unfold without_head_to_head, mirror. simpl. f_equal. f_equal. lra.
  - change (swap_sides c :: List.map swap_sides cs)
      with (List.map swap_sides (c :: cs)) in Hswap.
    destruct (predict_outcome_rollup _ now _ league _ Hswap) as (_ & _ & ->).
    { destruct cs; discriminate. }
    destruct (predict_outcome_rollup _ now _ league _ Hcollect ltac:(discriminate))
      as (_ & _ & ->).
    unfold fmap, result_fmap, without_head_to_head, mirror.
    cbn [Prediction.our_team Prediction.opponent Prediction.comparisons Prediction.confidence
         Prediction.advantage_score Prediction.outcome Prediction.league_filter
         Prediction.time_window_days Prediction.head_to_head our_team with_our_team
         min_shared_opponents time_window_days].
    rewrite weighted_mean_swap, spec_confidence_swap, length_map, classify_neg, py_round_neg.
    destruct (_ <? _)%Z; reflexivity.
  - unfold predict_outcome. cbv zeta. rewrite Hswap, Hcollect. reflexivity.
Qed.

(** ** Advantage and recency weight of a comparison *)

Section AdvantageMagnitude.
Local Open Scope R_scope.

Lemma count_nonneg (p : Game -> bool) (l : list Game) : (0 <= count p l)%Z.
Proof. unfold count. lia. Qed.

Lemma build_team_record_nonneg
    (self : TransitiveAnalyzer) (now : datetime) (team opp : string) (league : option string) :
  let r := _build_team_record self now team opp league in
  (0 <= wins r)%Z /\ (0 <= losses r)%Z /\ (0 <= ties r)%Z.
Proof.
  cbv zeta.
  pose proof (fold_count_game team
                (get_head_to_head (store self) team opp league
                   (Some (_get_date_cutoff self now))) empty_record) as H.
  cbn zeta in H. destruct H as (_ & Hw & Hl & Ht & _).
  unfold _build_team_record, fold_team_record. rewrite Hw, Hl, Ht. simpl.
  repeat split; apply count_nonneg.
Qed.

Lemma win_rate_unit (r : TeamRecord) :
  (0 <= wins r)%Z -> (0 <= losses r)%Z -> (0 <= ties r)%Z -> games_played r <> 0%Z ->
  0 <= win_rate r <= 1.
Proof.
  intros Hw Hl Ht Hg. unfold win_rate.
  assert (Hpos : (0 < games_played r)%Z) by (unfold games_played in *; lia).
  assert (Hsum : IZR (games_played r) = IZR (wins r) + IZR (losses r) + IZR (ties r)).
  { unfold games_played. rewrite !plus_IZR. reflexivity. }
  apply IZR_le in Hw, Hl, Ht. apply IZR_lt in Hpos.
  split.
  - apply Rmult_le_pos; [lra | apply Rlt_le, Rinv_0_lt_compat, Hpos].
  - apply Rmult_le_reg_r with (IZR (games_played r)); [exact Hpos |].
    unfold Rdiv. rewrite Rmult_assoc, Rinv_l by lra. lra.
Qed.

End AdvantageMagnitude.

(** X10. For a comparison built by [get_comparative_performance] the
    records have non-negative counters and win rates in [0, 1], so the
    advantage score is at most the recency weight in magnitude: the final
    clamp to [-1, 1] only ever acts when the recency weight exceeds 1. *)
Theorem advantage_bounded_by_recency_weight
    (self : TransitiveAnalyzer) (now : datetime) (shared opp : string) (league : option string)
    (c : SharedOpponentComparison) :
  get_comparative_performance self now shared opp league = Ok c ->
  exists v : float,
    advantage_score c = Ok v /\
    (Rabs v <= recency_weight c)%R /\
    (Rabs v <= 1)%R /\
    ((recency_weight c <= 1)%R ->
     v = (if decide (games_played (our_record c) = 0%Z ∨ games_played (their_record c) = 0%Z)
          then 0 else (win_component c + gd_component c) * recency_weight c)%R).
Proof.
  intros Hc. apply get_comparative_performance_ok in Hc.
  destruct Hc as (_ & Ho & Ht & Hw).
  exists (spec_advantage_score c). split; [apply advantage_score_refines |].
  pose proof (build_team_record_nonneg self now (our_team self) shared league) as Hon.
  pose proof (build_team_record_nonneg self now opp shared league) as Htn.
  cbv zeta in Hon, Htn. rewrite <- Ho in Hon. rewrite <- Ht in Htn.
  destruct Hon as (Ho1 & Ho2 & Ho3). destruct Htn as (Ht1 & Ht2 & Ht3).
  unfold spec_advantage_score.
  destruct (decide _) as [Hz | Hnz].
  - rewrite Rabs_R0. repeat split; lra || reflexivity.
  - assert (Hgo : games_played (our_record c) <> 0%Z) by tauto.
    assert (Hgt : games_played (their_record c) <> 0%Z) by tauto.
    pose proof (win_rate_unit (our_record c) Ho1 Ho2 Ho3 Hgo) as Hwo.
    pose proof (win_rate_unit (their_record c) Ht1 Ht2 Ht3 Hgt) as Hwt.
    assert (Hgd : (-0.5 <= gd_component c <= 0.5)%R).
    { unfold gd_component. apply clamp_bounds. lra. }
    assert (Hwc : (-0.5 <= win_component c <= 0.5)%R) by (unfold win_component; lra).
    set (raw := ((win_component c + gd_component c) * recency_weight c)%R).
    assert (Hraw : (- recency_weight c <= raw <= recency_weight c)%R) by (unfold raw; nra).
    unfold clamp, Rmax, Rmin, Rabs.
    repeat split; repeat destruct Rle_dec; try destruct Rcase_abs; lra.
Qed.

(** ** The advantage bar *)

Section AdvantageBarFacts.
Local Open Scope R_scope.

Lemma py_int_clamped (x : R) :
  Z.max 0 (Z.min 10 (py_int x)) = Z.max 0 (Z.min 10 (Zfloor x)).
Proof.
  unfold py_int. destruct (Rle_dec 0 x) as [_ | Hneg]; [reflexivity |].
  assert (Hc : (Zceil x <= 0)%Z).
  { apply le_IZR. pose proof (Zceil_bound x) as [Hlo _]. apply Rnot_le_lt in Hneg.
    assert (Hlt : IZR (Zceil x) < IZR 1) by lra. apply lt_IZR in Hlt. apply IZR_le. lia. }
  assert (Hf : (Zfloor x <= 0)%Z).
  { apply le_IZR. pose proof (Zfloor_bound x) as [Hlo _]. lra. }
  lia.
Qed.

Lemma str_length_append (s t : string) :
  String.length (s ++ t)%string = (String.length s + String.length t)%nat.
Proof.
  induction s as [| a s IH]; [reflexivity |].
  change (S (String.length (s ++ t)%string) = S (String.length s + String.length t)).
  f_equal. exact IH.
Qed.

Lemma str_repeat_length (s : string) (n : nat) :
  String.length (str_repeat s n) = (n * String.length s)%nat.
Proof.
  induction n as [| n IH]; simpl; [reflexivity |].
  rewrite str_length_append, IH. reflexivity.
Qed.

End AdvantageBarFacts.


(** ** Metadata round trip *)

Section MetadataRoundTrip.

Lemma score_round_trip (s : option Z) :
  score_recorded s ->
  (if (match s with Some v => v | None => (-1)%Z end >=? 0)%Z
   then Some match s with Some v => v | None => (-1)%Z end
   else None) = s.
Proof.
  destruct s as [v |]; simpl; [| reflexivity].
  intros Hv. destruct (Z.geb_spec v 0); [reflexivity | lia].
Qed.

End MetadataRoundTrip.


(** ** Predictions for the upcoming fixtures *)

Section UpcomingFacts.
Variable self : TransitiveAnalyzer.
Variable game_store : GameStore.
Variable now : datetime.

Local Abbreviation fixture_opponent g := (GameRecord.opponent (GameRecord.metadata g)).
Local Abbreviation fixture_league g := (GameRecord.league_name (GameRecord.metadata g)).
Local Abbreviation folded r := (lower (Prediction.opponent r)).

Lemma predict_outcome_echo (opp : string) (league : option string) (r : PredictionResult) :
  predict_outcome self now opp league = Ok r ->
  Prediction.opponent r = opp /\ Prediction.league_filter r = league /\
  Prediction.our_team r = our_team self.
Proof.
  intros Hr. destruct (predict_outcome_inv self now opp league r Hr)
    as (comps & _ & Hours & Hopp & _ & Hleague & _).
  repeat split; assumption.
Qed.

Lemma first_fixture_skip (name : string) (game : GameRecord.Row) (rest : list GameRecord.Row) :
  lower (fixture_opponent game) <> lower name ->
  first_fixture name (game :: rest) = first_fixture name rest.
Proof.
  intros Hne. cbn [first_fixture].
  destruct (String.eqb_spec (lower (fixture_opponent game)) (lower name)); [contradiction |].
  reflexivity.
Qed.

Lemma first_fixture_folded (name name' : string) (games : list GameRecord.Row) :
  lower name = lower name' -> first_fixture name games = first_fixture name' games.
Proof.
  intros Heq. induction games as [| game rest IH]; [reflexivity |].
  cbn [first_fixture]. rewrite Heq, IH. reflexivity.
Qed.

Lemma upcoming_loop_inv (league_name : option string) (games : list GameRecord.Row) :
  forall (seen : gset string) (acc rs : list PredictionResult),
    upcoming_loop self now league_name games seen acc = Ok rs ->
    exists new : list PredictionResult,
      rs = acc ++ new /\
      NoDup (List.map (fun r => folded r) new) /\
      (forall r, r ∈ new -> folded r ∉ seen) /\
      (forall g, g ∈ games ->
         lower (fixture_opponent g) ∈ seen \/
         exists r, r ∈ new /\ folded r = lower (fixture_opponent g)) /\
      sublist (List.map Prediction.opponent new) (List.map (fun g => fixture_opponent g) games) /\
      (forall r, r ∈ new ->
         exists g, first_fixture (Prediction.opponent r) games = Some g /\
                   Prediction.opponent r = fixture_opponent g /\
                   predict_outcome self now (fixture_opponent g)
                     (if truthy league_name then Some (fixture_league g) else None) = Ok r).
Proof.
  induction games as [| game rest IH]; intros seen acc rs Hloop.
  - cbn [upcoming_loop] in Hloop. injection Hloop as <-. exists [].
    rewrite app_nil_r. split; [reflexivity |]. split; [constructor |].
    split; [intros r Hr; inversion Hr |]. split; [intros g Hg; inversion Hg |].
    split; [constructor |]. intros r Hr; inversion Hr.
  - cbn [upcoming_loop] in Hloop. cbv zeta in Hloop.
    destruct (decide (lower (fixture_opponent game) ∈ seen)) as [Hseen | Hfresh].
    + destruct (IH seen acc rs Hloop) as (new & Hrs & Hnd & Hout & Hcov & Hsub & Hfirst).
      exists new. split; [exact Hrs |]. split; [exact Hnd |]. split; [exact Hout |].
      split; [| split].
      * intros g Hg. apply elem_of_cons in Hg as [-> | Hg]; [left; exact Hseen |].
        apply Hcov, Hg.
      * cbn [List.map]. apply sublist_cons, Hsub.
      * intros r Hr. destruct (Hfirst r Hr) as (g & Hg & Hopp & Hpred).
        exists g. split; [| split; assumption].
        rewrite first_fixture_skip; [exact Hg |].
        intros Heq. apply (Hout r Hr). rewrite <- Heq. exact Hseen.
    + destruct (predict_outcome self now (fixture_opponent game)
                  (if truthy league_name then Some (fixture_league game) else None))
        as [r0 | e] eqn:Hpred; cbn [mbind result_bind] in Hloop; [| discriminate].
      destruct (predict_outcome_echo _ _ _ Hpred) as (Hopp0 & _).
      destruct (IH _ _ _ Hloop) as (new & Hrs & Hnd & Hout & Hcov & Hsub & Hfirst).
      exists (r0 :: new). split; [rewrite Hrs, <- app_assoc; reflexivity |].
      assert (Hout' : forall r, r ∈ new -> folded r <> lower (fixture_opponent game)).
      { intros r Hr Heq. apply (Hout r Hr). rewrite Heq. set_solver. }
      split; [| split; [| split; [| split]]].
      * cbn [List.map]. apply NoDup_cons. split; [| exact Hnd].
        rewrite Hopp0. intros Hin. apply list_elem_of_fmap in Hin as (r & Heq & Hr).
        apply (Hout' r Hr). symmetry. exact Heq.
      * intros r Hr. apply elem_of_cons in Hr as [-> | Hr].
        -- rewrite Hopp0. exact Hfresh.
        -- intros Hin. apply (Hout r Hr). set_solver.
      * intros g Hg. apply elem_of_cons in Hg as [-> | Hg].
        -- right. exists r0. split; [left |]. rewrite Hopp0. reflexivity.
        -- destruct (Hcov g Hg) as [Hin | (r & Hr & Heq)].
           ++ apply elem_of_union in Hin as [Hin | Hin]; [left; exact Hin |].
              right. exists r0. split; [left |]. rewrite Hopp0.
              apply elem_of_singleton in Hin. symmetry. exact Hin.
           ++ right. exists r. split; [right; exact Hr | exact Heq].
      * cbn [List.map]. rewrite Hopp0. apply sublist_skip, Hsub.
      * intros r Hr. apply elem_of_cons in Hr as [-> | Hr].
        -- exists game. split; [| split; [exact Hopp0 | exact Hpred]].
           cbn [first_fixture]. rewrite Hopp0, String.eqb_refl. reflexivity.
        -- destruct (Hfirst r Hr) as (g & Hg & Hopp & Hp).
           exists g. split; [| split; assumption].
           rewrite first_fixture_skip; [exact Hg |].
           intros Heq. apply (Hout' r Hr). symmetry. exact Heq.
Qed.

End UpcomingFacts.

(** X13. [predict_upcoming] returns one prediction per upcoming opponent,
    names compared case-insensitively: no two results name the same
    opponent, every fixture's opponent has a result, the results follow
    the order of first appearance in the fixture list, and each result is
    the prediction made for the first fixture against that opponent, with
    that fixture's spelling and, when a league name was given, that
    fixture's league as the filter (none otherwise). *)
Theorem predict_upcoming_one_per_opponent
    (self : TransitiveAnalyzer) (game_store : GameStore) (now : datetime)
    (league_name : option string) (rs : list PredictionResult) :
  predict_upcoming self game_store now league_name = Ok rs ->
  let games := get_all_games game_store (league_argument league_name) (Some false) in
  NoDup (List.map (fun r => lower (Prediction.opponent r)) rs) /\
  (forall g, g ∈ games ->
     exists r, r ∈ rs /\
       lower (Prediction.opponent r) = lower (GameRecord.opponent (GameRecord.metadata g))) /\
  sublist (List.map Prediction.opponent rs)
          (List.map (fun g => GameRecord.opponent (GameRecord.metadata g)) games) /\
  (forall r, r ∈ rs ->
     exists g,
       first_fixture (Prediction.opponent r) games = Some g /\
       Prediction.opponent r = GameRecord.opponent (GameRecord.metadata g) /\
       Prediction.our_team r = our_team self /\
       Prediction.league_filter r
       = (if truthy league_name
          then Some (GameRecord.league_name (GameRecord.metadata g)) else None) /\
       predict_outcome self now (GameRecord.opponent (GameRecord.metadata g))
         (Prediction.league_filter r) = Ok r).
Proof.
  intros Hrs games. unfold predict_upcoming in Hrs. cbv zeta in Hrs. fold games in Hrs.
  destruct (upcoming_loop_inv self now league_name games ∅ [] rs Hrs)
    as (new & -> & Hnd & _ & Hcov & Hsub & Hfirst).
  cbn [app]. split; [exact Hnd |]. split; [| split; [exact Hsub |]].
  - intros g Hg. destruct (Hcov g Hg) as [Hin | Hr]; [| exact Hr].
    apply not_elem_of_empty in Hin. contradiction.
  - intros r Hr. destruct (Hfirst r Hr) as (g & Hg & Hopp & Hpred).
    destruct (predict_outcome_echo _ _ _ _ _ Hpred) as (_ & Hleague & Hours).
    exists g. rewrite Hleague. repeat split; assumption.
Qed.

Section UpcomingTotality.
Variable self : TransitiveAnalyzer.
Variable now : datetime.
Hypothesis Hhalf : recency_half_life_days self <> 0%Z.
Hypothesis Hdates : dates_parse (store self).

Lemma upcoming_loop_returns (league_name : option string) (games : list GameRecord.Row) :
  forall (seen : gset string) (acc : list PredictionResult),
    exists rs, upcoming_loop self now league_name games seen acc = Ok rs.
Proof.
  induction games as [| game rest IH]; intros seen acc; cbn [upcoming_loop]; cbv zeta.
  - eauto.
  - destruct (decide _); [apply IH |].
    destruct (predict_outcome_returns self now Hhalf Hdates
                (GameRecord.opponent (GameRecord.metadata game))
                (if truthy league_name
                 then Some (GameRecord.league_name (GameRecord.metadata game)) else None))
      as (r & ->).
    cbn [mbind result_bind]. apply IH.
Qed.

End UpcomingTotality.


(** X15. All or nothing: when the prediction for the first fixture
    against some upcoming opponent raises, [predict_upcoming] raises as a
    whole; the predictions already made for earlier fixtures are not
    returned. *)
Theorem predict_upcoming_all_or_nothing
    (self : TransitiveAnalyzer) (game_store : GameStore) (now : datetime)
    (league_name : option string) (g g0 : GameRecord.Row) (e : exn) :
  let games := get_all_games game_store (league_argument league_name) (Some false) in
  g ∈ games ->
  first_fixture (GameRecord.opponent (GameRecord.metadata g)) games = Some g0 ->
  predict_outcome self now (GameRecord.opponent (GameRecord.metadata g0))
    (if truthy league_name then Some (GameRecord.league_name (GameRecord.metadata g0)) else None)
  = Raise e ->
  exists e' : exn, predict_upcoming self game_store now league_name = Raise e'.
Proof.
  intros games Hg Hfirst Hraise.
  destruct (predict_upcoming self game_store now league_name) as [rs | e'] eqn:Hrs;
    [| eauto].
  exfalso. unfold predict_upcoming in Hrs. cbv zeta in Hrs. fold games in Hrs.
  destruct (upcoming_loop_inv self now league_name games ∅ [] rs Hrs)
    as (new & -> & _ & _ & Hcov & _ & Hdecide).
  destruct (Hcov g Hg) as [Hin | (r & Hr & Heq)].
  - apply not_elem_of_empty in Hin. contradiction.
  - destruct (Hdecide r Hr) as (g' & Hg' & _ & Hpred).
    rewrite (first_fixture_folded _ _ games Heq), Hfirst in Hg'.
    injection Hg' as <-. rewrite Hraise in Hpred. discriminate.
Qed.

(** ** The head-to-head listing of the [predict] tool *)

Section H2HListing.
Local Open Scope Z_scope.

Lemma format_h2h_game_scores (team : string) (g : Game) :
  H2HEntry.our_score (format_h2h_game (lower team) g) = scored team g /\
  H2HEntry.their_score (format_h2h_game (lower team) g) = conceded team g.
Proof. split; reflexivity. Qed.

Lemma format_h2h_game_result (team : string) (g : Game) :
  String.eqb (H2HEntry.result (format_h2h_game (lower team) g)) "W"
    = (scored team g >? conceded team g) /\
  String.eqb (H2HEntry.result (format_h2h_game (lower team) g)) "L"
    = (scored team g <? conceded team g) /\
  String.eqb (H2HEntry.result (format_h2h_game (lower team) g)) "T"
    = (scored team g =? conceded team g).
Proof.
  unfold format_h2h_game. cbv zeta. cbn [H2HEntry.result].
  fold (is_home team g). fold (scored team g). fold (conceded team g).
  destruct (Z.gtb_spec (scored team g) (conceded team g));
    destruct (Z.ltb_spec (scored team g) (conceded team g));
    destruct (Z.eqb_spec (scored team g) (conceded team g)); try lia; repeat split; reflexivity.
Qed.

Lemma tally_format (team : string) (l : list Game) :
  tally "W" (List.map (format_h2h_game (lower team)) l)
    = count (fun g => scored team g >? conceded team g) l /\
  tally "L" (List.map (format_h2h_game (lower team)) l)
    = count (fun g => scored team g <? conceded team g) l /\
  tally "T" (List.map (format_h2h_game (lower team)) l)
    = count (fun g => scored team g =? conceded team g) l /\
  Zsum (List.map H2HEntry.our_score (List.map (format_h2h_game (lower team)) l))
    = total (scored team) l /\
  Zsum (List.map H2HEntry.their_score (List.map (format_h2h_game (lower team)) l))
    = total (conceded team) l.
Proof.
  unfold tally, count. induction l as [| g l (IHw & IHl & IHt & IHf & IHa)];
    [repeat split; reflexivity |].
  destruct (format_h2h_game_result team g) as (Hw & Hl & Ht).
  cbn [List.map List.filter Zsum total fold_right]. rewrite Hw, Hl, Ht.
  fold (Zsum (List.map H2HEntry.our_score (List.map (format_h2h_game (lower team)) l))).
  fold (Zsum (List.map H2HEntry.their_score (List.map (format_h2h_game (lower team)) l))).
  fold (total (scored team) l). fold (total (conceded team) l).
  rewrite IHf, IHa.
  destruct (format_h2h_game_scores team g) as (-> & ->).
  repeat split; try reflexivity.
  - destruct (_ >? _); cbn [length]; lia.
  - destruct (_ <? _); cbn [length]; lia.
  - destruct (_ =? _); cbn [length]; lia.
Qed.

End H2HListing.

(** X16. The game list that the [predict] tool re-derives from a
    prediction agrees with the head-to-head record it reports next to it:
    when the prediction has a record, the list has one entry per counted
    game, in order, the entries marked W, L and T number exactly its
    wins, losses and ties, and the listed scores add up to its goals for
    and against; when it has none, the list is empty and the response
    carries no head-to-head object. *)
Theorem predict_tool_listing_matches_record
    (self : TransitiveAnalyzer) (now : datetime) (opp : string) (league : option string)
    (r : PredictionResult) :
  predict_outcome self now opp league = Ok r ->
  match Prediction.head_to_head r with
  | Some h =>
      reports_head_to_head r = true /\
      h2h_games r <> [] /\
      List.map H2HEntry.date (h2h_games r) = List.map (fun g => date (metadata g)) (H2H.games h) /\
      tally "W" (h2h_games r) = H2H.wins h /\
      tally "L" (h2h_games r) = H2H.losses h /\
      tally "T" (h2h_games r) = H2H.ties h /\
      Zsum (List.map H2HEntry.our_score (h2h_games r)) = H2H.goals_for h /\
      Zsum (List.map H2HEntry.their_score (h2h_games r)) = H2H.goals_against h
  | None => reports_head_to_head r = false /\ h2h_games r = []
  end.
Proof.
  intros Hr.
  destruct (predict_outcome_inv self now opp league r Hr)
    as (comps & _ & Hours & _ & _ & _ & _ & Hh2h & _).
  set (rows := get_head_to_head (store self) (our_team self) opp league
                 (Some (_get_date_cutoff self now))).
  set (h := get_head_to_head_record self now opp league) in *.
  pose proof (fold_count_game (our_team self) rows empty_record) as Hfold.
  cbn zeta in Hfold.
  assert (Heq : h2h_as_team_record h = fold_left (count_game (lower (our_team self))) rows
                                         empty_record).
  { unfold h, get_head_to_head_record. rewrite fold_h2h_as_team_record. reflexivity. }
  rewrite <- Heq in Hfold. cbn [h2h_as_team_record games wins losses ties goals_for
                                  goals_against empty_record app] in Hfold.
  destruct Hfold as (Hg & Hw & Hl & Ht & Hf & Ha).
  pose proof (count_trichotomy (our_team self) (List.filter played rows)) as Htri.
  destruct (tally_format (our_team self) (List.filter played rows))
    as (Tw & Tl & Tt & Tf & Ta).
  unfold h2h_games, reports_head_to_head. rewrite Hh2h, Hours.
  destruct (Z.gtb_spec (H2H.games_played h) 0) as [Hpos | Hzero].
  - assert (Hne : H2H.games h <> []).
    { intros Hnil. rewrite Hnil in Hg. rewrite <- Hg in Hw, Hl, Ht.
      unfold H2H.games_played in Hpos. unfold count in Hw, Hl, Ht.
      cbn [List.filter length] in Hw, Hl, Ht. lia. }
    destruct (Z.gtb_spec (H2H.games_played h) 0) as [_ | Hc]; [| lia].
    destruct (H2H.games h) as [| g0 gs] eqn:Hgames; [contradiction |].
    cbv zeta. split; [reflexivity |]. split; [discriminate |]. rewrite Hg.
    split; [rewrite map_map; reflexivity |].
    rewrite Tw, Tl, Tt, Tf, Ta. lia.
  - split; reflexivity.
Qed.

(** ** Writing scraped games to the table *)

Section StoreWriteFacts.
Variable md5_hexdigest : string -> string.

Local Abbreviation gid := (RawGame_game_id md5_hexdigest).
Local Abbreviation first_in := (first_with_id md5_hexdigest).

Lemma first_with_id_None (id : string) (games : list RawGame) :
  id ∉ List.map gid games -> first_in id games = None.
Proof.
  unfold first_with_id. induction games as [| g rest IH]; intros Hnot; [reflexivity |].
  cbn [List.find List.map] in *.
  destruct (String.eqb_spec (gid g) id) as [Heq | Hne].
  - exfalso. apply Hnot. rewrite Heq. left.
  - apply IH. intros Hin. apply Hnot. right. exact Hin.
Qed.

Lemma first_with_id_Some (id : string) (games : list RawGame) (g : RawGame) :
  first_in id games = Some g -> g ∈ games /\ gid g = id.
Proof.
  unfold first_with_id. intros Hfind. apply List.find_some in Hfind as (Hin & Heq).
  split; [apply list_elem_of_In, Hin | apply String.eqb_eq, Heq].
Qed.

Lemma unique_by_id_inv (games : list RawGame) :
  forall (seen : gset string) (acc : list RawGame),
    exists new : list RawGame,
      unique_by_id md5_hexdigest games seen acc = acc ++ new /\
      NoDup (List.map gid new) /\
      (forall g, g ∈ new -> gid g ∉ seen) /\
      (forall id, id ∈ List.map gid new -> id ∈ List.map gid games) /\
      (forall id, id ∈ List.map gid games -> id ∈ seen \/ id ∈ List.map gid new) /\
      (forall id, id ∉ seen -> first_in id new = first_in id games).
Proof.
  unfold first_with_id.
  induction games as [| game rest IH]; intros seen acc; cbn [unique_by_id].
  - exists []. rewrite app_nil_r. split; [reflexivity |]. split; [constructor |].
    split; [intros g Hg; inversion Hg |]. split; [tauto |]. split; [| reflexivity].
    intros id Hid. inversion Hid.
  - destruct (decide (gid game ∈ seen)) as [Hseen | Hfresh].
    + destruct (IH seen acc) as (new & Heq & Hnd & Hout & Hsub & Hcov & Hfirst).
      exists new. split; [exact Heq |]. split; [exact Hnd |]. split; [exact Hout |].
      split; [| split].
      * intros id Hid. cbn [List.map]. right. apply Hsub, Hid.
      * intros id Hid. cbn [List.map] in Hid.
        apply elem_of_cons in Hid as [-> | Hid]; [left; exact Hseen | apply Hcov, Hid].
      * intros id Hid. cbn [List.find].
        destruct (String.eqb_spec (gid game) id) as [Hsame | _]; [| apply Hfirst, Hid].
        exfalso. apply Hid. rewrite <- Hsame. exact Hseen.
    + destruct (IH (seen ∪ {[gid game]}) (acc ++ [game]))
        as (new & Heq & Hnd & Hout & Hsub & Hcov & Hfirst).
      assert (Hout' : forall g, g ∈ new -> (gid g ∉ seen) /\ gid g <> gid game).
      { intros g Hg. pose proof (Hout g Hg) as Hnot.
        rewrite elem_of_union, elem_of_singleton in Hnot. tauto. }
      exists (game :: new). split; [rewrite Heq, <- app_assoc; reflexivity |].
      split; [| split; [| split; [| split]]].
      * cbn [List.map]. apply NoDup_cons. split; [| exact Hnd].
        intros Hin. apply list_elem_of_fmap in Hin as (g & Hg & Hgin).
        destruct (Hout' g Hgin) as (_ & Hne). congruence.
      * intros g Hg. apply elem_of_cons in Hg as [-> | Hg]; [exact Hfresh |].
        apply Hout', Hg.
      * intros id Hid. cbn [List.map] in *.
        apply elem_of_cons in Hid as [-> | Hid]; [left | right; apply Hsub, Hid].
      * intros id Hid. cbn [List.map] in *.
        apply elem_of_cons in Hid as [-> | Hid]; [right; left |].
        destruct (Hcov id Hid) as [Hin | Hin]; [| right; right; exact Hin].
        rewrite elem_of_union, elem_of_singleton in Hin.
        destruct Hin as [Hin | ->]; [left; exact Hin | right; left].
      * intros id Hid. cbn [List.find].
        destruct (String.eqb_spec (gid game) id) as [_ | Hne]; [reflexivity |].
        apply Hfirst. rewrite elem_of_union, elem_of_singleton. intros [Hin | Heq']; auto.
Qed.

Lemma batch_ids_cons (g : RawGame) (l : list RawGame) :
  batch_ids md5_hexdigest (g :: l) = {[gid g]} ∪ batch_ids md5_hexdigest l.
Proof. reflexivity. Qed.

Lemma dom_upsert (g : RawGame) (l : list RawGame) (t : Table) :
  dom (<[gid g := values md5_hexdigest g]> t) ∪ batch_ids md5_hexdigest l
  = dom t ∪ batch_ids md5_hexdigest (g :: l).
Proof.
  rewrite dom_insert_L, batch_ids_cons.
  generalize (batch_ids md5_hexdigest l) (dom t) (gid g). clear.
  intros X Y i. apply set_eq. intros x. rewrite !elem_of_union. tauto.
Qed.

Lemma fold_upsert_inv (l : list RawGame) :
  forall (a u : Z) (t : Table) (a' u' : Z) (t' : Table),
    NoDup (List.map gid l) ->
    fold_left (upsert md5_hexdigest) l (a, u, t) = (a', u', t') ->
    (a' + u' = a + u + Z.of_nat (length l))%Z /\
    (a <= a')%Z /\ (u <= u')%Z /\
    (Z.of_nat (size t') = Z.of_nat (size t) + (a' - a))%Z /\
    dom t' = dom t ∪ batch_ids md5_hexdigest l /\
    (forall id, t' !! id = match first_in id l with
                           | Some g => Some (values md5_hexdigest g)
                           | None => t !! id
                           end).
Proof.
  unfold first_with_id.
  induction l as [| g rest IH]; intros a u t a' u' t' Hnd Hfold.
  - cbn [fold_left] in Hfold. injection Hfold as <- <- <-.
    cbn [length List.find].
    repeat split; try lia. unfold batch_ids. cbn [List.map list_to_set].
    rewrite (right_id_L ∅ (∪)). reflexivity.
  - cbn [fold_left] in Hfold. cbn [List.map] in Hnd. apply NoDup_cons in Hnd as (Hnot & Hnd).
    unfold upsert at 2 in Hfold. cbv zeta in Hfold.
    assert (Hlookup : forall id,
               match List.find (fun g0 => String.eqb (gid g0) id) rest with
               | Some g0 => Some (values md5_hexdigest g0)
               | None => <[gid g := values md5_hexdigest g]> t !! id
               end
               = match List.find (fun g0 => String.eqb (gid g0) id) (g :: rest) with
                 | Some g0 => Some (values md5_hexdigest g0)
                 | None => t !! id
                 end).
    { intros id. cbn [List.find].
      destruct (String.eqb_spec (gid g) id) as [<- | Hne].
      - pose proof (first_with_id_None (gid g) rest Hnot) as Hnone.
        unfold first_with_id in Hnone. rewrite Hnone. apply lookup_insert_eq.
      - rewrite lookup_insert_ne by exact Hne. reflexivity. }
    destruct (t !! gid g) as [old |] eqn:Hold.
    + destruct (IH _ _ _ _ _ _ Hnd Hfold) as (Hsum & Ha & Hu & Hsize & Hdom & Hrows).
      rewrite map_size_insert_Some in Hsize by (rewrite Hold; eauto).
      cbn [length].
      split; [lia |]. split; [lia |]. split; [lia |]. split; [lia |]. split.
      * rewrite Hdom. apply dom_upsert.
      * intros id. rewrite Hrows. apply Hlookup.
    + destruct (IH _ _ _ _ _ _ Hnd Hfold) as (Hsum & Ha & Hu & Hsize & Hdom & Hrows).
      rewrite map_size_insert_None in Hsize by exact Hold.
      cbn [length].
      split; [lia |]. split; [lia |]. split; [lia |]. split; [lia |]. split.
      * rewrite Hdom. apply dom_upsert.
      * intros id. rewrite Hrows. apply Hlookup.
Qed.

Lemma add_games_inv (games : list RawGame) (table : Table) :
  exists (added updated : Z) (table' : Table),
    add_games md5_hexdigest games table = ((added, updated), table') /\
    (0 <= added)%Z /\ (0 <= updated)%Z /\
    (added + updated = Z.of_nat (size (batch_ids md5_hexdigest games)))%Z /\
    (Z.of_nat (size table') = Z.of_nat (size table) + added)%Z /\
    dom table' = dom table ∪ batch_ids md5_hexdigest games /\
    (forall id, table' !! id = match first_in id games with
                               | Some g => Some (values md5_hexdigest g)
                               | None => table !! id
                               end).
Proof.
  destruct (unique_by_id_inv games ∅ []) as (new & Hnew & Hnd & _ & Hsub & Hcov & Hfirst).
  cbn [app] in Hnew.
  destruct (fold_left (upsert md5_hexdigest) new (0%Z, 0%Z, table)) as [[a u] t'] eqn:Hfold.
  exists a, u, t'.
  assert (Hadd : add_games md5_hexdigest games table = ((a, u), t')).
  { unfold add_games. destruct games as [| g rest].
    - cbn [unique_by_id] in Hnew. subst new. cbn [fold_left] in Hfold.
      injection Hfold as <- <- <-. reflexivity.
    - cbv zeta. rewrite Hnew, Hfold. reflexivity. }
  destruct (fold_upsert_inv new _ _ _ _ _ _ Hnd Hfold) as (Hsum & Ha & Hu & Hsize & Hdom & Hrows).
  assert (Hsame : batch_ids md5_hexdigest new = batch_ids md5_hexdigest games).
  { apply set_eq. intros id. unfold batch_ids. rewrite !elem_of_list_to_set. split.
    - apply Hsub.
    - intros Hid. destruct (Hcov id Hid) as [Hin | Hin]; [| exact Hin].
      apply not_elem_of_empty in Hin. contradiction. }
  split; [exact Hadd |]. split; [lia |]. split; [lia |]. split; [| split; [| split]].
  - rewrite <- Hsame. unfold batch_ids. rewrite size_list_to_set by exact Hnd.
    rewrite length_map. lia.
  - lia.
  - rewrite Hdom, Hsame. reflexivity.
  - intros id. rewrite Hrows, Hfirst by apply not_elem_of_empty. reflexivity.
Qed.

End StoreWriteFacts.

(** X17. The two counts that [add_games] returns account for the batch
    and for the table: added + updated is the number of distinct game ids
    in the batch (repeated ids count once), the table grows by exactly
    [added] rows, and its ids afterwards are the old ids together with the
    ids of the batch. *)
Theorem add_games_counts
    (md5_hexdigest : string -> string) (games : list RawGame) (table : Table) :
  let result := add_games md5_hexdigest games table in
  let added := fst (fst result) in
  let updated := snd (fst result) in
  (0 <= added)%Z /\ (0 <= updated)%Z /\
  (added + updated = Z.of_nat (size (batch_ids md5_hexdigest games)))%Z /\
  (Z.of_nat (size (snd result)) = Z.of_nat (size table) + added)%Z /\
  dom (snd result) = dom table ∪ batch_ids md5_hexdigest games.
Proof.
  cbv zeta.
  destruct (add_games_inv md5_hexdigest games table)
    as (a & u & t' & -> & Ha & Hu & Hsum & Hsize & Hdom & _).
  cbn [fst snd]. repeat split; assumption.
Qed.

(** X18. What [add_games] leaves in the table: under each id of the
    batch, the row of the first game of the batch with that id (a later
    game with the same id in the same batch is dropped, a row stored
    before is overwritten); every other row is untouched.  Read back with
    [AllGameRecord.to_metadata], a stored row gives the metadata of the
    game it was written from. *)
Theorem add_games_stores_first
    (md5_hexdigest : string -> string) (games : list RawGame) (table : Table) (id : string) :
  snd (add_games md5_hexdigest games table) !! id
  = match first_with_id md5_hexdigest id games with
    | Some g => Some (values md5_hexdigest g)
    | None => table !! id
    end /\
  (id ∉ batch_ids md5_hexdigest games -> first_with_id md5_hexdigest id games = None) /\
  (forall g, g ∈ games ->
     exists g0, first_with_id md5_hexdigest (RawGame_game_id md5_hexdigest g) games = Some g0 /\
                RawGame_game_id md5_hexdigest g0 = RawGame_game_id md5_hexdigest g /\
                AllGameRecord_to_metadata <$>
                  snd (add_games md5_hexdigest games table) !! RawGame_game_id md5_hexdigest g
                = Some (to_metadata g0)).
Proof.
  destruct (add_games_inv md5_hexdigest games table)
    as (a & u & t' & -> & _ & _ & _ & _ & _ & Hrows).
  cbn [snd]. split; [apply Hrows |]. split.
  - intros Hnot. apply first_with_id_None. unfold batch_ids in Hnot.
    intros Hin. apply Hnot. apply elem_of_list_to_set. exact Hin.
  - intros g Hg.
    destruct (first_with_id md5_hexdigest (RawGame_game_id md5_hexdigest g) games)
      as [g0 |] eqn:Hfirst.
    + exists g0. split; [reflexivity |].
      destruct (first_with_id_Some _ _ _ _ Hfirst) as (_ & Hid).
      split; [exact Hid |]. rewrite Hrows, Hfirst. reflexivity.
    + exfalso. unfold first_with_id in Hfirst.
      apply List.find_none with (x := g) in Hfirst; [| apply list_elem_of_In, Hg].
      rewrite String.eqb_refl in Hfirst. discriminate.
Qed.

(** X19. [add_games] is idempotent: writing the same batch again changes
    no row and reports nothing added and every distinct id updated. *)
Theorem add_games_idempotent
    (md5_hexdigest : string -> string) (games : list RawGame) (table : Table) :
  let table' := snd (add_games md5_hexdigest games table) in
  add_games md5_hexdigest games table'
  = ((0%Z, Z.of_nat (size (batch_ids md5_hexdigest games))), table').
Proof.
  cbv zeta.
  destruct (add_games_inv md5_hexdigest games table)
    as (a & u & t' & -> & _ & _ & _ & _ & _ & Hrows).
  cbn [snd].
  destruct (add_games_inv md5_hexdigest games t')
    as (a2 & u2 & t2 & -> & Ha2 & Hu2 & Hsum2 & Hsize2 & _ & Hrows2).
  assert (Hsame : t2 = t').
  { apply map_eq. intros id. rewrite Hrows2, Hrows.
    destruct (first_with_id md5_hexdigest id games); reflexivity. }
  subst t2. assert (a2 = 0%Z) by lia. subst a2.
  repeat f_equal. lia.
Qed.

(** X20. A game scraped again replaces its row instead of adding one:
    the game id depends only on the date and on the lower-cased
    alphanumeric characters of the league and team names, so a second
    write of the game with other scores, another field or another
    spelling of the names reports (0, 1) and leaves the table with the
    same number of rows, the row now holding the later values. *)
Theorem add_games_update_in_place
    (md5_hexdigest : string -> string) (g g' : RawGame) (table : Table) :
  RawGame.date g' = RawGame.date g ->
  slug (lower (RawGame.home_team g')) = slug (lower (RawGame.home_team g)) ->
  slug (lower (RawGame.away_team g')) = slug (lower (RawGame.away_team g)) ->
  slug (lower (RawGame.league_name g')) = slug (lower (RawGame.league_name g)) ->
  let table1 := snd (add_games md5_hexdigest [g] table) in
  RawGame_game_id md5_hexdigest g' = RawGame_game_id md5_hexdigest g /\
  add_games md5_hexdigest [g'] table1
  = ((0%Z, 1%Z), <[RawGame_game_id md5_hexdigest g := values md5_hexdigest g']> table1) /\
  size (snd (add_games md5_hexdigest [g'] table1)) = size table1 /\
  snd (add_games md5_hexdigest [g'] table1) !! RawGame_game_id md5_hexdigest g
  = Some (values md5_hexdigest g').
Proof.
  intros Hdate Hhome Haway Hleague. cbv zeta.
  assert (Hid : RawGame_game_id md5_hexdigest g' = RawGame_game_id md5_hexdigest g).
  { unfold RawGame_game_id. cbv zeta. rewrite Hdate, Hhome, Haway, Hleague. reflexivity. }
  assert (Hone : forall (x : RawGame) (t : Table),
             add_games md5_hexdigest [x] t
             = match t !! RawGame_game_id md5_hexdigest x with
               | Some _ => ((0%Z, 1%Z), <[RawGame_game_id md5_hexdigest x := values md5_hexdigest x]> t)
               | None => ((1%Z, 0%Z), <[RawGame_game_id md5_hexdigest x := values md5_hexdigest x]> t)
               end).
  { intros x t. unfold add_games. cbn [unique_by_id].
    destruct (decide (RawGame_game_id md5_hexdigest x ∈ (∅ : gset string))) as [Hin | _];
      [apply not_elem_of_empty in Hin; contradiction |].
    cbn [app fold_left upsert]. destruct (t !! RawGame_game_id md5_hexdigest x); reflexivity. }
  assert (Hstored : snd (add_games md5_hexdigest [g] table) !! RawGame_game_id md5_hexdigest g
                    = Some (values md5_hexdigest g)).
  { rewrite Hone. destruct (table !! RawGame_game_id md5_hexdigest g); cbn [snd];
      apply lookup_insert_eq. }
  split; [exact Hid |].
  rewrite (Hone g'), Hid, Hstored. cbn [snd].
  split; [reflexivity |]. split.
  - apply map_size_insert_Some. rewrite Hstored. eauto.
  - apply lookup_insert_eq.
Qed.

(** ** Opponents of a team *)

Section OpponentsFacts.

Lemma add_opponent_other_side (team_name : string) (opponents : gset string) (game : Game) :
  add_opponent (lower team_name) opponents game = opponents ∪ {[ other_side team_name game ]}.
Proof.
  unfold add_opponent, other_side, is_home. cbv zeta.
  destruct (str_in _ _); reflexivity.
Qed.

Lemma fold_add_opponent (team_name : string) (games : list Game) (start : gset string) (x : string) :
  x ∈ fold_left (add_opponent (lower team_name)) games start
  <-> x ∈ start \/ exists g, g ∈ games /\ x = other_side team_name g.
Proof.
  revert start. induction games as [| game rest IH]; intros start; cbn [fold_left].
  - split; [tauto |]. intros [H | (g & Hg & _)]; [exact H | inversion Hg].
  - rewrite IH, add_opponent_other_side, elem_of_union, elem_of_singleton. split.
    + intros [[H | ->] | (g & Hg & ->)].
      * left. exact H.
      * right. exists game. split; [left | reflexivity].
      * right. exists g. split; [right; exact Hg | reflexivity].
    + intros [H | (g & Hg & ->)]; [tauto |].
      apply elem_of_cons in Hg as [-> | Hg]; [tauto |].
      right. exists g. split; [exact Hg | reflexivity].
Qed.

End OpponentsFacts.

(** X21. [get_opponents_for_team] lists, in ascending order and without
    repetition, exactly the other sides of the played rows that the team
    query returns: the away team of a row whose home team contains the
    queried name (case-insensitively), the home team otherwise.  No name
    is invented and none is lost. *)
Theorem get_opponents_for_team_spec
    (get_team_games : string -> option string -> option string -> option bool -> list Game)
    (team_name : string) (league_name after : option string) :
  let result := AllGamesStore_get_opponents_for_team get_team_games team_name league_name after in
  let games := get_team_games team_name league_name after (Some true) in
  StronglySorted String.le result /\
  NoDup result /\
  (forall x, x ∈ result <-> exists g, g ∈ games /\ x = other_side team_name g) /\
  (length result <= length games)%nat.
Proof.
  cbv zeta. unfold AllGamesStore_get_opponents_for_team. cbv zeta.
  set (games := get_team_games team_name league_name after (Some true)).
  set (opponents := fold_left (add_opponent (lower team_name)) games ∅).
  assert (Hperm : merge_sort String.le (elements opponents) ≡ₚ elements opponents)
    by apply merge_sort_Permutation.
  assert (Hmem : forall x, x ∈ merge_sort String.le (elements opponents)
                           <-> exists g, g ∈ games /\ x = other_side team_name g).
  { intros x. rewrite Hperm, elem_of_elements. unfold opponents.
    rewrite fold_add_opponent. split; [| intros H; right; exact H].
    intros [Hin | H]; [apply not_elem_of_empty in Hin; contradiction | exact H]. }
  assert (Hnd : NoDup (merge_sort String.le (elements opponents))).
  { rewrite Hperm. apply NoDup_elements. }
  split; [apply StronglySorted_merge_sort; apply _ |]. split; [exact Hnd |].
  split; [exact Hmem |].
  assert (Hsub : merge_sort String.le (elements opponents)
                 ⊆ List.map (other_side team_name) games).
  { intros x Hx. apply Hmem in Hx as (g & Hg & ->). apply list_elem_of_fmap. eauto. }
  pose proof (submseteq_length _ _ (NoDup_submseteq _ _ Hnd Hsub)) as Hlen.
  rewrite length_map in Hlen. exact Hlen.
Qed.

(** ** The calendar: ordinals and dates *)

Section CalendarFacts.
Local Open Scope Z_scope.

Lemma forallb_upto (f : Z -> bool) (hi : nat) :
  forallb f (List.map Z.of_nat (seq 0 (S hi))) = true ->
  forall n, 0 <= n <= Z.of_nat hi -> f n = true.
Proof.
  intros Hall n Hn. rewrite forallb_forall in Hall. apply Hall.
  apply in_map_iff. exists (Z.to_nat n). split; [lia |]. apply in_seq. lia.
Qed.

Lemma month_day_checked (leapyear : bool) (n : Z) :
  0 <= n <= 364 -> month_day_ok leapyear n = true.
Proof.
  intros Hn.
  assert (Hboth : month_day_ok true n && month_day_ok false n = true).
  { apply (forallb_upto (fun k => month_day_ok true k && month_day_ok false k) 364);
      [vm_compute; reflexivity | exact Hn]. }
  apply andb_true_iff in Hboth as (Ht & Hf). destruct leapyear; assumption.
Qed.

Lemma fromordinal_parts (n : Z) :
  fromordinal n
  = let n0 := n - 1 in
    let n400 := n0 / 146097 in
    let r400 := n0 mod 146097 in
    let n100 := r400 / 36524 in
    let r100 := r400 mod 36524 in
    let n4 := r100 / 1461 in
    let r4 := r100 mod 1461 in
    let n1 := r4 / 365 in
    let r := r4 mod 365 in
    let y := n400 * 400 + 1 + n100 * 100 + n4 * 4 + n1 in
    if (n1 =? 4) || (n100 =? 4) then mkDatetime (y - 1) 12 31
    else
      let md := month_day ((n1 =? 3) && (negb (n4 =? 24) || (n100 =? 3))) r in
      mkDatetime y (fst md) (snd md).
Proof.
  unfold fromordinal, month_day, _DI400Y, _DI100Y, _DI4Y. cbv zeta.
  destruct ((_ =? 4) || (_ =? 4)); [reflexivity |].
  destruct (_ >? _); reflexivity.
Qed.

Lemma days_before_year_parts (q a b c : Z) :
  0 <= a <= 3 -> 0 <= b <= 24 -> 0 <= c <= 3 ->
  _days_before_year (400 * q + 100 * a + 4 * b + c + 1)
  = 146097 * q + 36524 * a + 1461 * b + 365 * c.
Proof.
  intros Ha Hb Hc. unfold _days_before_year. cbv zeta.
  replace (400 * q + 100 * a + 4 * b + c + 1 - 1) with (400 * q + 100 * a + 4 * b + c) by lia.
  assert (H4 : (400 * q + 100 * a + 4 * b + c) / 4 = 100 * q + 25 * a + b)
    by (Z.div_mod_to_equations; lia).
  assert (H100 : (400 * q + 100 * a + 4 * b + c) / 100 = 4 * q + a)
    by (Z.div_mod_to_equations; lia).
  assert (H400 : (400 * q + 100 * a + 4 * b + c) / 400 = q)
    by (Z.div_mod_to_equations; lia).
  rewrite H4, H100, H400. lia.
Qed.

Lemma is_leap_parts (q a b c : Z) :
  0 <= a <= 3 -> 0 <= b <= 24 -> 0 <= c <= 3 ->
  _is_leap (400 * q + 100 * a + 4 * b + c + 1)
  = (c =? 3) && (negb (b =? 24) || (a =? 3)).
Proof.
  intros Ha Hb Hc. unfold _is_leap.
  assert (H4 : (400 * q + 100 * a + 4 * b + c + 1) mod 4 = (c + 1) mod 4).
  { replace (400 * q + 100 * a + 4 * b + c + 1) with (c + 1 + (100 * q + 25 * a + b) * 4) by lia.
    apply Z_mod_plus_full. }
  assert (H100 : (400 * q + 100 * a + 4 * b + c + 1) mod 100 = (4 * b + c + 1) mod 100).
  { replace (400 * q + 100 * a + 4 * b + c + 1) with (4 * b + c + 1 + (4 * q + a) * 100) by lia.
    apply Z_mod_plus_full. }
  assert (H400 : (400 * q + 100 * a + 4 * b + c + 1) mod 400
                 = (100 * a + 4 * b + c + 1) mod 400).
  { replace (400 * q + 100 * a + 4 * b + c + 1) with (100 * a + 4 * b + c + 1 + q * 400) by lia.
    apply Z_mod_plus_full. }
  rewrite H4, H100, H400.
  destruct (Z.eqb_spec c 3) as [-> | Hc3].
  - change ((3 + 1) mod 4 =? 0) with true. cbn [andb].
    destruct (Z.eqb_spec b 24) as [-> | Hb24].
    + change ((4 * 24 + 3 + 1) mod 100 =? 0) with true. cbn [negb orb].
      destruct (Z.eqb_spec a 3) as [-> | Ha3]; [reflexivity |].
      apply Z.eqb_neq. Z.div_mod_to_equations. lia.
    + cbn [negb orb].
      assert (Hne : (4 * b + 3 + 1) mod 100 <> 0) by (Z.div_mod_to_equations; lia).
      apply Z.eqb_neq in Hne. rewrite Hne. reflexivity.
  - assert (Hne : (c + 1) mod 4 <> 0) by (Z.div_mod_to_equations; lia).
    apply Z.eqb_neq in Hne. rewrite Hne. reflexivity.
Qed.

Lemma days_in_december (y : Z) : _days_in_month y 12 = 31.
Proof. reflexivity. Qed.

Lemma days_before_december (y : Z) :
  _days_before_month y 12 = 334 + (if _is_leap y then 1 else 0).
Proof. reflexivity. Qed.

Lemma fromordinal_toordinal (n : Z) :
  1 <= n <= _MAXORDINAL ->
  valid_date (fromordinal n) /\ toordinal (fromordinal n) = n.
Proof.
  unfold _MAXORDINAL. intros Hn. rewrite fromordinal_parts. cbv zeta.
  pose proof (Z.div_mod (n - 1) 146097 ltac:(lia)) as E400.
  pose proof (Z.mod_pos_bound (n - 1) 146097 ltac:(lia)) as B400.
  set (q := (n - 1) / 146097) in *. set (r400 := (n - 1) mod 146097) in *.
  pose proof (Z.div_mod r400 36524 ltac:(lia)) as E100.
  pose proof (Z.mod_pos_bound r400 36524 ltac:(lia)) as B100.
  set (a := r400 / 36524) in *. set (r100 := r400 mod 36524) in *.
  pose proof (Z.div_mod r100 1461 ltac:(lia)) as E4.
  pose proof (Z.mod_pos_bound r100 1461 ltac:(lia)) as B4.
  set (b := r100 / 1461) in *. set (r4 := r100 mod 1461) in *.
  pose proof (Z.div_mod r4 365 ltac:(lia)) as E1.
  pose proof (Z.mod_pos_bound r4 365 ltac:(lia)) as B1.
  set (c := r4 / 365) in *. set (r := r4 mod 365) in *.
  clearbody q r400 a r100 b r4 c r.
  assert (Hq : 0 <= q <= 24) by lia.
  assert (Ha : 0 <= a <= 4) by lia.
  assert (Hb : 0 <= b <= 24) by lia.
  assert (Hc : 0 <= c <= 4) by lia.
  destruct (Z.eqb_spec c 4) as [Hc4 | Hc4]; cbn [orb].
  - (* the last day of a leap year inside a century *)
    assert (Hb23 : b <= 23) by lia. assert (Ha3 : a <= 3) by lia.
    replace (q * 400 + 1 + a * 100 + b * 4 + c - 1)
      with (400 * q + 100 * a + 4 * b + 3 + 1) by lia.
    unfold valid_date, toordinal. cbn [year month day].
    rewrite days_in_december.
    rewrite days_before_year_parts by lia.
    rewrite days_before_december, is_leap_parts by lia.
    destruct (Z.eqb_spec b 24); [lia |]. cbn [Z.eqb Pos.eqb andb negb orb]. lia.
  - destruct (Z.eqb_spec a 4) as [Ha4 | Ha4].
    + (* the last day of a 400-year cycle *)
      replace (q * 400 + 1 + a * 100 + b * 4 + c - 1)
        with (400 * q + 100 * 3 + 4 * 24 + 3 + 1) by lia.
      unfold valid_date, toordinal. cbn [year month day].
      rewrite days_in_december.
      rewrite days_before_year_parts by lia.
      rewrite days_before_december, is_leap_parts by lia.
      cbn [Z.eqb Pos.eqb andb negb orb]. lia.
    + cbv zeta.
      assert (Hr : 0 <= r <= 364) by lia.
      pose proof (month_day_checked ((c =? 3) && (negb (b =? 24) || (a =? 3))) r Hr) as Hok.
      unfold month_day_ok in Hok.
      destruct (month_day ((c =? 3) && (negb (b =? 24) || (a =? 3))) r) as [mm dd].
      cbn [fst snd].
      replace (q * 400 + 1 + a * 100 + b * 4 + c) with (400 * q + 100 * a + 4 * b + c + 1) by lia.
      unfold valid_date, toordinal, _days_in_month, _days_before_month. cbn [year month day].
      rewrite days_before_year_parts by lia.
      rewrite is_leap_parts by lia.
      repeat (apply andb_true_iff in Hok as (Hok & ?)).
      repeat match goal with
             | H : (_ <=? _) = true |- _ => apply Z.leb_le in H
             | H : (_ =? _) = true |- _ => apply Z.eqb_eq in H
             end.
      lia.
Qed.

End CalendarFacts.


(** X23. The colours on screen do not contradict each other: for a
    prediction returned by [predict_outcome] the outcome is never shown in
    the fallback colour; an outcome shown in green (FAVORABLE) comes with
    a green advantage and one shown in red (UNFAVORABLE) with a red
    advantage; with fewer than [min_shared_opponents] comparisons the
    outcome is yellow and the confidence dimmed. *)
Theorem display_styles_consistent
    (self : TransitiveAnalyzer) (now : datetime) (opp : string) (league : option string)
    (r : PredictionResult) :
  predict_outcome self now opp league = Ok r ->
  outcome_color r <> "white"%string /\
  (outcome_color r = "green"%string -> adv_style r = "green"%string) /\
  (outcome_color r = "red"%string -> adv_style r = "red"%string) /\
  ((Z.of_nat (length (Prediction.comparisons r)) < min_shared_opponents self)%Z ->
   outcome_color r = "yellow"%string /\ conf_style r = "dim"%string).
Proof.
  intros Hpred.
  destruct (predict_outcome_inv self now opp league r Hpred)
    as (comps & _ & _ & _ & Hcomps & _ & _ & _ & Hnil & Hcons).
  rewrite Hcomps. unfold outcome_color, conf_style, adv_style. cbv zeta.
  destruct comps as [| c cs].
  - destruct (Hnil eq_refl) as (-> & -> & ->). cbn [String.eqb Ascii.eqb].
    split; [discriminate |]. split; [discriminate |]. split; [discriminate |].
    intros _. split; [reflexivity |].
    destruct (Rge_dec 0 70); [lra |]. destruct (Rge_dec 0 40); [lra |]. reflexivity.
  - destruct (Hcons ltac:(discriminate)) as (-> & -> & ->).
    set (adv := weighted_mean (c :: cs)).
    pose proof (spec_confidence_range adv (c :: cs) ltac:(discriminate)) as Hconf.
    destruct (Z.ltb_spec (Z.of_nat (length (c :: cs))) (min_shared_opponents self))
      as [Hfew | Henough].
    + cbn [String.eqb Ascii.eqb].
      split; [discriminate |]. split; [discriminate |]. split; [discriminate |].
      intros _. split; [reflexivity |].
      assert (Hle : (py_round (Rmin (spec_confidence adv (c :: cs)) 30.0) 0 <= IZR 30)%R).
      { apply py_round_0_le. apply Rle_trans with 30.0%R; [apply Rmin_r | lra]. }
      destruct (Rge_dec _ 70); [lra |]. destruct (Rge_dec _ 40); [lra |]. reflexivity.
    + split; [| split; [| split; [| lia]]].
      * destruct (classify_label adv) as [-> | [-> | ->]]; cbn [String.eqb Ascii.eqb];
          discriminate.
      * destruct (classify_label adv) as [Hl | [Hl | Hl]]; rewrite Hl;
          cbn [String.eqb Ascii.eqb]; try discriminate.
        intros _. apply classify_favorable in Hl.
        assert (Hge : (IZR 15 / 100 <= py_round adv 2)%R) by (apply py_round_2_ge; lra).
        destruct (Rgt_dec (py_round adv 2) 0); [reflexivity | lra].
      * destruct (classify_label adv) as [Hl | [Hl | Hl]]; rewrite Hl;
          cbn [String.eqb Ascii.eqb]; try discriminate.
        intros _. apply classify_unfavorable in Hl.
        assert (Hle : (py_round adv 2 <= IZR (-15) / 100)%R) by (apply py_round_2_le; lra).
        destruct (Rgt_dec (py_round adv 2) 0); [lra |].
        destruct (Rlt_dec (py_round adv 2) 0); [reflexivity | lra].
Qed.

(** ** Printed records *)

Section PrintedRecords.

Lemma to_int_not_nil (z : Z) :
  Z.to_int z <> Decimal.Pos Decimal.Nil /\ Z.to_int z <> Decimal.Neg Decimal.Nil.
Proof.
  destruct z as [| p | p]; cbn [Z.to_int]; split; try discriminate;
    intros [= H]; exact (Unsigned.to_uint_nonnil p H).
Qed.

Lemma py_str_inj (a b : Z) : py_str a = py_str b -> a = b.
Proof.
  unfold py_str. intros Heq.
  destruct (to_int_not_nil a) as (Ha1 & Ha2). destruct (to_int_not_nil b) as (Hb1 & Hb2).
  apply (f_equal NilZero.int_of_string) in Heq.
  rewrite !NilZero.isi in Heq by assumption.
  injection Heq as Heq. apply (f_equal Z.of_int) in Heq.
  rewrite !DecimalZ.of_to in Heq. exact Heq.
Qed.

Lemma string_of_uint_digits (d : Decimal.uint) :
  digits_only (NilEmpty.string_of_uint d) = true.
Proof. induction d; cbn [NilEmpty.string_of_uint digits_only]; try rewrite IHd; reflexivity. Qed.

Lemma py_str_digits (n : Z) : (0 <= n)%Z -> digits_only (py_str n) = true.
Proof.
  intros Hn. unfold py_str. destruct n as [| p | p]; [reflexivity | | lia].
  cbn [Z.to_int NilZero.string_of_int]. unfold NilZero.string_of_uint.
  destruct (Pos.to_uint p) eqn:Hp; try (rewrite <- Hp; apply string_of_uint_digits).
  reflexivity.
Qed.

Lemma py_str_no_plus (n : Z) (s : string) : py_str n <> String "+" s.
Proof.
  destruct (Z.le_gt_cases 0 n) as [Hn | Hn].
  - intros Heq. pose proof (py_str_digits n Hn) as Hd. rewrite Heq in Hd. discriminate.
  - destruct n as [| p | p]; try lia. unfold py_str.
    cbn [Z.to_int NilZero.string_of_int]. discriminate.
Qed.

Lemma split_at_dash (s1 s2 t1 t2 : string) :
  digits_only s1 = true -> digits_only s2 = true ->
  (s1 ++ "-" ++ t1 = s2 ++ "-" ++ t2)%string -> s1 = s2 /\ t1 = t2.
Proof.
  revert s2. induction s1 as [| c s1 IH]; intros s2 H1 H2 Heq.
  - destruct s2 as [| c2 s2].
    + injection Heq as Heq. split; [reflexivity | exact Heq].
    + injection Heq as Hc _. subst c2. discriminate.
  - destruct s2 as [| c2 s2].
    + injection Heq as Hc _. subst c. discriminate.
    + injection Heq as Hc Heq. subst c2.
      cbn [digits_only] in H1, H2.
      apply andb_true_iff in H1 as (_ & H1). apply andb_true_iff in H2 as (_ & H2).
      destruct (IH s2 H1 H2 Heq) as (-> & ->). split; reflexivity.
Qed.

End PrintedRecords.

(** X24. The printed forms identify what they print: two records with
    the same [goal_diff_str] have the same goal difference, and two
    records with non-negative counters (as every built record has) and
    the same [record_str] have the same wins, losses and ties. *)
Theorem record_strings_identify_record (r1 r2 : TeamRecord) :
  (0 <= wins r1)%Z -> (0 <= losses r1)%Z ->
  (0 <= wins r2)%Z -> (0 <= losses r2)%Z ->
  (goal_diff_str r1 = goal_diff_str r2 -> goal_diff r1 = goal_diff r2) /\
  (record_str r1 = record_str r2 ->
   wins r1 = wins r2 /\ losses r1 = losses r2 /\ ties r1 = ties r2).
Proof.
  intros Hw1 Hl1 Hw2 Hl2. split.
  - unfold goal_diff_str. cbv zeta.
    destruct (Z.gtb_spec (goal_diff r1) 0) as [Hp1 | Hn1];
      destruct (Z.gtb_spec (goal_diff r2) 0) as [Hp2 | Hn2]; intros Heq.
    + injection Heq as Heq. apply py_str_inj, Heq.
    + symmetry in Heq. apply py_str_no_plus in Heq. contradiction.
    + apply py_str_no_plus in Heq. contradiction.
    + apply py_str_inj, Heq.
  - unfold record_str. intros Heq.
    apply split_at_dash in Heq as (Hw & Heq); try (apply py_str_digits; assumption).
    apply split_at_dash in Heq as (Hl & Ht); try (apply py_str_digits; assumption).
    repeat split; apply py_str_inj; assumption.
Qed.

(** ** Title case *)

Section TitleFacts.

Lemma title_char_stable (previous_is_cased : bool) (c : ascii) :
  title_char previous_is_cased (title_char previous_is_cased c)
  = title_char previous_is_cased c /\
  ascii_is_lower (title_char previous_is_cased c) || ascii_is_upper (title_char previous_is_cased c)
  = ascii_is_lower c || ascii_is_upper c.
Proof.
  destruct previous_is_cased;
    destruct c as [b0 b1 b2 b3 b4 b5 b6 b7];
    destruct b0, b1, b2, b3, b4, b5, b6, b7; split; reflexivity.
Qed.

Lemma title_from_cons (previous_is_cased : bool) (c : ascii) (s : string) :
  title_from previous_is_cased (String c s)
  = String (title_char previous_is_cased c)
           (title_from (ascii_is_lower c || ascii_is_upper c) s).
Proof. reflexivity. Qed.

Lemma title_from_idempotent (s : string) :
  forall previous_is_cased : bool,
    title_from previous_is_cased (title_from previous_is_cased s)
    = title_from previous_is_cased s.
Proof.
  induction s as [| c s IH]; intros b; [reflexivity |].
  rewrite !title_from_cons.
  destruct (title_char_stable b c) as (-> & ->). rewrite IH. reflexivity.
Qed.

Lemma title_from_length (s : string) :
  forall previous_is_cased : bool,
    String.length (title_from previous_is_cased s) = String.length s.
Proof.
  induction s as [| c s IH]; intros b; [reflexivity |].
  rewrite title_from_cons. cbn [String.length]. rewrite IH. reflexivity.
Qed.

End TitleFacts.

(** X25. The league name is title-cased twice on its way to the query
    of upcoming fixtures, once by [predict_upcoming] and once by
    [get_all_games]; the second pass changes nothing, so the fixtures are
    those whose [league_day] equals the title-cased name, and an empty or
    missing name asks for no league condition at all. *)
Theorem upcoming_league_condition (league_name : option string) :
  league_day_condition (league_argument league_name) = league_argument league_name /\
  (truthy league_name = false -> league_argument league_name = None) /\
  (forall l, league_name = Some l -> truthy league_name = true ->
     league_argument league_name = Some (title l) /\
     title (title l) = title l /\
     String.length (title l) = String.length l).
Proof.
  split; [| split].
  - destruct league_name as [[| c l] |]; [reflexivity | | reflexivity].
    cbn [league_argument truthy]. unfold league_day_condition.
    assert (Ht : truthy (Some (title (String c l))) = true) by reflexivity.
    rewrite Ht. unfold title. rewrite title_from_idempotent. reflexivity.
  - destruct league_name as [[| c l] |]; [reflexivity | discriminate | reflexivity].
  - intros l -> Ht. destruct l as [| c l]; [discriminate |].
    split; [reflexivity |]. split.
    + unfold title. apply title_from_idempotent.
    + unfold title. apply title_from_length.
Qed.

(** X26. The stored form of a game of our own schedule is consistent:
    in [Game.to_metadata] the result is "pending" exactly when the game
    is not played, and then the goal difference is 0; for a played game
    the goal difference is our score minus their score and the result is
    "win", "loss" or "tie" according to its sign. *)
Theorem game_metadata_consistent (g : ModelGame.Game) :
  let m := ModelGame.to_metadata g in
  (GameRecord.is_played m = false <-> GameRecord.result m = "pending"%string) /\
  (GameRecord.is_played m = false -> GameRecord.goal_diff m = 0%Z) /\
  (GameRecord.is_played m = true ->
   GameRecord.goal_diff m = (GameRecord.our_score m - GameRecord.their_score m)%Z /\
   (GameRecord.result m = "win"%string <-> (0 < GameRecord.goal_diff m)%Z) /\
   (GameRecord.result m = "loss"%string <-> (GameRecord.goal_diff m < 0)%Z) /\
   (GameRecord.result m = "tie"%string <-> GameRecord.goal_diff m = 0%Z)).
Proof.
  destruct g as [d opp [home |] [away |] [] fld ln ld];
    cbv [ModelGame.to_metadata ModelGame.result ModelGame.goal_diff ModelGame.is_played
         ModelGame.value ModelGame.or_minus_one
         ModelGame.home_score ModelGame.away_score ModelGame.is_home
         GameRecord.is_played GameRecord.result GameRecord.goal_diff GameRecord.our_score
         GameRecord.their_score];
    try (destruct (Z.gtb_spec home away); [| destruct (Z.ltb_spec home away)]);
    try (destruct (Z.gtb_spec away home); [| destruct (Z.ltb_spec away home)]);
    repeat split; intros; try discriminate; try reflexivity; lia.
Qed.

(** ** The further properties at the example store states *)

Lemma example_dates_parse : dates_parse example_store.
Proof.
  intros team1 team2 league after g. simpl.
  repeat destruct (_ && _);
    rewrite list_elem_of_In; simpl; intros Hin;
    repeat (destruct Hin as [<- | Hin]; [reflexivity |]); contradiction.
Qed.

Lemma example_prediction :
  exists r : PredictionResult,
    predict_outcome example_analyzer example_now "Purple Crew" None = Ok r /\
    Prediction.comparisons r = [example_comparison].
Proof.
  destruct (predict_outcome_rollup example_analyzer example_now "Purple Crew" None
              [example_comparison] eq_refl ltac:(discriminate)) as (_ & _ & Hroll).
  eexists. split; [exact Hroll | reflexivity].
Qed.



Lemma outcome_agrees_with_score_witness :
  exists r : PredictionResult,
    predict_outcome example_analyzer example_now "Purple Crew" None = Ok r /\
    is_outcome_label (Prediction.outcome r) /\
    (Prediction.outcome r = "FAVORABLE"%string -> (0.15 <= Prediction.advantage_score r)%R).
Proof.
  destruct example_prediction as (r & Hr & _).
  exists r. split; [exact Hr |].
  destruct (outcome_agrees_with_score example_analyzer example_now "Purple Crew" None r Hr)
    as (Hlabel & Hfav & _).
  split; [exact Hlabel |]. intros Hf. apply Hfav, Hf.
Defined.





Lemma advantage_bounded_by_recency_weight_witness :
  get_comparative_performance example_analyzer example_now "BDE" "Purple Crew" None
  = Ok example_comparison /\
  exists v : float,
    advantage_score example_comparison = Ok v /\
    (Rabs v <= recency_weight example_comparison)%R /\
    (Rabs v <= 1)%R.
Proof.
  split; [reflexivity |].
  destruct (advantage_bounded_by_recency_weight example_analyzer example_now "BDE"
              "Purple Crew" None example_comparison eq_refl) as (v & Hv & Hw & H1 & _).
  exists v. repeat split; assumption.
Defined.


Lemma predict_upcoming_one_per_opponent_witness :
  exists rs : list PredictionResult,
    predict_upcoming example_analyzer example_game_store example_now None = Ok rs /\
    NoDup (List.map (fun r => lower (Prediction.opponent r)) rs) /\
    sublist (List.map Prediction.opponent rs) ["Purple Crew"; "Sharks"; "PURPLE CREW"]%string.
Proof.
  destruct (upcoming_loop_returns example_analyzer example_now ltac:(discriminate)
              example_dates_parse None example_schedule ∅ []) as (rs & Hrs).
  exists rs. split; [exact Hrs |].
  destruct (predict_upcoming_one_per_opponent example_analyzer example_game_store example_now
              None rs Hrs) as (Hnd & _ & Hsub & _).
  split; [exact Hnd | exact Hsub].
Defined.


Lemma predict_upcoming_all_or_nothing_witness :
  predict_outcome (with_store example_analyzer malformed_store) example_now "Purple Crew" None
  = Raise ValueError /\
  exists e' : exn,
    predict_upcoming (with_store example_analyzer malformed_store) example_game_store
      example_now None = Raise e'.
Proof.
  split; [reflexivity |].
  apply (predict_upcoming_all_or_nothing (with_store example_analyzer malformed_store)
           example_game_store example_now None
           (example_fixture "2026-11-22" "PURPLE CREW")
           (example_fixture "2026-11-08" "Purple Crew") ValueError).
  - right. right. left.
  - reflexivity.
  - reflexivity.
Defined.

Lemma predict_tool_listing_matches_record_witness :
  exists r : PredictionResult,
    predict_outcome example_analyzer example_now "Purple Crew" None = Ok r /\
    match Prediction.head_to_head r with
    | Some h =>
        reports_head_to_head r = true /\
        h2h_games r <> [] /\
        List.map H2HEntry.date (h2h_games r)
        = List.map (fun g => date (metadata g)) (H2H.games h) /\
        tally "W" (h2h_games r) = H2H.wins h /\
        tally "L" (h2h_games r) = H2H.losses h /\
        tally "T" (h2h_games r) = H2H.ties h /\
        Zsum (List.map H2HEntry.our_score (h2h_games r)) = H2H.goals_for h /\
        Zsum (List.map H2HEntry.their_score (h2h_games r)) = H2H.goals_against h
    | None => reports_head_to_head r = false /\ h2h_games r = []
    end.
Proof.
  destruct example_prediction as (r & Hr & _).
  exists r. split; [exact Hr |].
  exact (predict_tool_listing_matches_record example_analyzer example_now "Purple Crew" None
           r Hr).
Defined.

Lemma add_games_update_in_place_witness :
  let g := RawGame.mk (mkDatetime 2026 11 8) "Key West FC" "BDE" None None "Sunday" None in
  let g' := RawGame.mk (mkDatetime 2026 11 8) "KEY WEST F.C." "bde" (Some 3%Z) (Some 0%Z)
              "Sunday" (Some "Field 1"%string) in
  let md5 := fun s : string => s in
  slug (lower (RawGame.home_team g')) = slug (lower (RawGame.home_team g)) /\
  add_games md5 [g'] (snd (add_games md5 [g] ∅))
  = ((0%Z, 1%Z), <[RawGame_game_id md5 g := values md5 g']> (snd (add_games md5 [g] ∅))).
Proof.
  cbv zeta. split; [reflexivity |].
  apply (add_games_update_in_place (fun s : string => s)
           (RawGame.mk (mkDatetime 2026 11 8) "Key West FC" "BDE" None None "Sunday" None)
           (RawGame.mk (mkDatetime 2026 11 8) "KEY WEST F.C." "bde" (Some 3%Z) (Some 0%Z)
              "Sunday" (Some "Field 1"%string))
           ∅); reflexivity.
Defined.


Lemma display_styles_consistent_witness :
  exists r : PredictionResult,
    predict_outcome example_analyzer example_now "Purple Crew" None = Ok r /\
    outcome_color r <> "white"%string /\
    outcome_color r = "yellow"%string /\ conf_style r = "dim"%string.
Proof.
  destruct example_prediction as (r & Hr & Hc).
  exists r. split; [exact Hr |].
  destruct (display_styles_consistent example_analyzer example_now "Purple Crew" None r Hr)
    as (Hwhite & _ & _ & Hfew).
  split; [exact Hwhite |]. apply Hfew. rewrite Hc. simpl. lia.
Defined.

Lemma record_strings_identify_record_witness :
  (0 <= wins (our_record example_comparison))%Z /\
  record_str (our_record example_comparison) = "2-0-0"%string /\
  (record_str (our_record example_comparison) = record_str empty_record ->
   wins (our_record example_comparison) = wins empty_record).
Proof.
  split; [simpl; lia |]. split; [reflexivity |].
  intros Heq.
  apply (record_strings_identify_record (our_record example_comparison) empty_record);
    [simpl; lia | simpl; lia | simpl; lia | simpl; lia | exact Heq].
Defined.
